(** * DOD Agent System: the per-frame pipeline

    A shallow embedding of [include/Components.h], [include/Systems.h],
    [include/Diagnostics.h] (the validator) and the driver of
    [src/main.cpp], followed by the properties of the pipeline.

    Numbers.  The C++ [float] is IEEE-754 binary32.  It is modelled by the
    Standard Library's [spec_float] with the operations of [SpecFloat] at
    precision 24 and emax 128, so every arithmetic result below is the
    correctly rounded one and can be evaluated.  [double] (only [M_PI] and
    the angle normalisation use it) is the same type at precision 53.
    Expressions are evaluated as written, one rounding per operation.

    Arrays.  Every [std::vector] of a component is a list, read with
    [!!!] and written with [<[i:=v]>].  The source indexes with the
    unchecked [operator[]]; all indices are below [entity_count], which is
    the length of every array after [GameState::Initialize]. *)

From Stdlib Require Import ZArith NArith Lia Bool List Sorted.
From Stdlib Require Import Floats.SpecFloat.
From stdpp Require Import base option list.

(** ** binary32 arithmetic *)

Definition float : Type := spec_float.

Module F32.
Local Open Scope Z_scope.

Definition prec : Z := 24.
Definition emax : Z := 128.

Definition add : float -> float -> float := SFadd prec emax.
Definition sub : float -> float -> float := SFsub prec emax.
Definition mul : float -> float -> float := SFmul prec emax.
Definition div : float -> float -> float := SFdiv prec emax.
Definition sqrt : float -> float := SFsqrt prec emax.
Definition abs : float -> float := SFabs.

(** [static_cast<float>(int)], rounding to nearest. *)
Definition of_int (z : Z) : float := binary_normalize prec emax z 0 false.

(** A decimal literal [n/d] with the suffix [f]: the binary32 number
    nearest to it, which is the correctly rounded quotient of the two
    exactly representable integers. *)
Definition dec (n d : Z) : float := div (of_int n) (of_int d).

(** Magnitudes [m1 * 2^e1] and [m2 * 2^e2] compared after aligning them on
    the smaller exponent. *)
Definition cmp_mag (m1 : positive) (e1 : Z) (m2 : positive) (e2 : Z)
  : comparison :=
  let ez := Z.min e1 e2 in
  Z.pos m1 * 2 ^ (e1 - ez) ?= Z.pos m2 * 2 ^ (e2 - ez).

(** The IEEE comparison of the denoted values: [None] when an operand is
    NaN, the two zeros equal.  It does not depend on how a value is
    written as mantissa and exponent, so a binary32 value converts to
    [double] unchanged. *)
Definition compare (f1 f2 : float) : option comparison :=
  match f1, f2 with
  | S754_nan, _ | _, S754_nan => None
  | S754_infinity s1, S754_infinity s2 =>
      Some match s1, s2 with
           | true, true | false, false => Eq
           | true, false => Lt
           | false, true => Gt
           end
  | S754_infinity s, _ => Some (if s then Lt else Gt)
  | _, S754_infinity s => Some (if s then Gt else Lt)
  | S754_finite s _ _, S754_zero _ => Some (if s then Lt else Gt)
  | S754_zero _, S754_finite s _ _ => Some (if s then Gt else Lt)
  | S754_zero _, S754_zero _ => Some Eq
  | S754_finite s1 m1 e1, S754_finite s2 m2 e2 =>
      Some match s1, s2 with
           | true, false => Lt
           | false, true => Gt
           | false, false => cmp_mag m1 e1 m2 e2
           | true, true => CompOpp (cmp_mag m1 e1 m2 e2)
           end
  end.

Definition ltb (x y : float) : bool :=
  match compare x y with Some Lt => true | _ => false end.
Definition leb (x y : float) : bool :=
  match compare x y with Some (Lt | Eq) => true | _ => false end.
Definition gtb (x y : float) : bool := ltb y x.

Definition is_nan (x : float) : bool :=
  match x with S754_nan => true | _ => false end.
Definition is_inf (x : float) : bool :=
  match x with S754_infinity _ => true | _ => false end.

(** [std::min(a, b)] is [(b < a) ? b : a], [std::max(a, b)] is
    [(a < b) ? b : a]. *)
Definition min (a b : float) : float := if ltb b a then b else a.
Definition max (a b : float) : float := if ltb a b then b else a.

Definition INT_MIN : Z := - 2 ^ 31.
Definition INT_MAX : Z := 2 ^ 31 - 1.

(** [static_cast<int>(float)]: truncation toward zero.  The conversion of
    a NaN, of an infinity or of a value outside the range of [int] is
    undefined and gives [None]. *)
Definition to_int (x : float) : option Z :=
  match x with
  | S754_zero _ => Some 0
  | S754_finite s m e =>
      let z := cond_Zopp s (Z.shiftl (Z.pos m) e) in
      if (INT_MIN <=? z) && (z <=? INT_MAX) then Some z else None
  | S754_infinity _ | S754_nan => None
  end.
End F32.

(** [double]: the same values at precision 53. *)
Module F64.
Local Open Scope Z_scope.

Definition prec : Z := 53.
Definition emax : Z := 1024.

Definition add : float -> float -> float := SFadd prec emax.
Definition sub : float -> float -> float := SFsub prec emax.
Definition mul : float -> float -> float := SFmul prec emax.
Definition div : float -> float -> float := SFdiv prec emax.
Definition opp : float -> float := SFopp.

(** [M_PI] of [<cmath>]: 0x1.921FB54442D18p+1. *)
Definition M_PI : float := S754_finite false 7074237752028440 (-51).

(** Narrowing a [double] to [float]. *)
Definition to_f32 (d : float) : float :=
  match d with
  | S754_finite s m e => binary_round F32.prec F32.emax s m e
  | _ => d
  end.
End F64.

Declare Scope f32_scope.
Delimit Scope f32_scope with f32.
Bind Scope f32_scope with float.
Infix "+" := F32.add : f32_scope.
Infix "-" := F32.sub : f32_scope.
Infix "*" := F32.mul : f32_scope.
Infix "/" := F32.div : f32_scope.
Infix "<?" := F32.ltb : f32_scope.
Infix ">?" := F32.gtb : f32_scope.
Infix "<=?" := F32.leb : f32_scope.

Definition f0 : float := S754_zero false.
Definition f1 : float := F32.of_int 1.
Definition f2 : float := F32.of_int 2.
Definition f1000 : float := F32.of_int 1000.

Global Instance float_inhabited : Inhabited float := populate f0.

(** ** Components.h: the component arrays *)

(** [EntityID] is [uint32_t], an index into the arrays. *)
Abbreviation EntityID := nat.

(** [INVALID_ENTITY = UINT32_MAX]; the stored targets are kept in [N] so
    that this constant stays small. *)
Definition INVALID_ENTITY : N := 4294967295%N.

Record TransformComponents := {
  position_x : list float;
  position_y : list float;
  position_z : list float;
  velocity_x : list float;
  velocity_y : list float;
  velocity_z : list float;
  orientation : list float
}.

Record PerceptionComponents := {
  view_range : list float;
  view_angle : list float;
  visible_entity_count : list nat
}.

Record NeedsComponents := {
  hunger : list float;
  energy : list float;
  safety : list float;
  curiosity : list float
}.

Inductive ActionType :=
  | IDLE | MOVE_TO_TARGET | EAT | SLEEP | FLEE | ATTACK | EXPLORE | COUNT.

Global Instance ActionType_eq_dec : EqDecision ActionType.
Proof. solve_decision. Defined.
Global Instance ActionType_inhabited : Inhabited ActionType := populate IDLE.

Record ActionComponents := {
  current_action : list ActionType;
  action_utility : list float;
  target_entity : list N;
  target_x : list float;
  target_y : list float;
  target_z : list float
}.

(** The field [health] of [HealthComponents] is [health_value] here: the
    name [health] is taken by the field of [GameState]. *)
Record HealthComponents := {
  health_value : list float;
  max_health : list float;
  armor_type : list Z;
  is_alive : list bool
}.

(** [Size()] of each group is the size of its first array. *)
Definition TransformComponents_Size (t : TransformComponents) : nat :=
  length (position_x t).
Definition PerceptionComponents_Size (p : PerceptionComponents) : nat :=
  length (view_range p).
Definition NeedsComponents_Size (n : NeedsComponents) : nat :=
  length (hunger n).
Definition ActionComponents_Size (a : ActionComponents) : nat :=
  length (current_action a).
Definition HealthComponents_Size (h : HealthComponents) : nat :=
  length (health_value h).

(** [std::vector::resize(count, v)]: truncate or pad with [v]. *)
Definition resize {A} (count : nat) (v : A) (l : list A) : list A :=
  take count l ++ replicate (count - length l) v.

Definition TransformComponents_Resize (count : nat) (t : TransformComponents)
  : TransformComponents :=
  {| position_x := resize count f0 (position_x t);
     position_y := resize count f0 (position_y t);
     position_z := resize count f0 (position_z t);
     velocity_x := resize count f0 (velocity_x t);
     velocity_y := resize count f0 (velocity_y t);
     velocity_z := resize count f0 (velocity_z t);
     orientation := resize count f0 (orientation t) |}.

Definition PerceptionComponents_Resize (count : nat) (p : PerceptionComponents)
  : PerceptionComponents :=
  {| view_range := resize count f0 (view_range p);
     view_angle := resize count f0 (view_angle p);
     visible_entity_count := resize count 0 (visible_entity_count p) |}.

Definition NeedsComponents_Resize (count : nat) (n : NeedsComponents)
  : NeedsComponents :=
  {| hunger := resize count f0 (hunger n);
     energy := resize count f0 (energy n);
     safety := resize count f0 (safety n);
     curiosity := resize count f0 (curiosity n) |}.

Definition ActionComponents_Resize (count : nat) (a : ActionComponents)
  : ActionComponents :=
  {| current_action := resize count IDLE (current_action a);
     action_utility := resize count f0 (action_utility a);
     target_entity := resize count INVALID_ENTITY (target_entity a);
     target_x := resize count f0 (target_x a);
     target_y := resize count f0 (target_y a);
     target_z := resize count f0 (target_z a) |}.

Definition HealthComponents_Resize (count : nat) (h : HealthComponents)
  : HealthComponents :=
  {| health_value := resize count f0 (health_value h);
     max_health := resize count f0 (max_health h);
     armor_type := resize count 0%Z (armor_type h);
     is_alive := resize count true (is_alive h) |}.

(** ** The spatial grid *)

Definition GRID_SIZE : Z := 100.
Definition CELL_SIZE : float := F32.of_int 10.

(** [cells[GRID_SIZE][GRID_SIZE]], a bucket of entity ids per cell; it is
    only ever indexed inside [0, GRID_SIZE). *)
Definition SpatialGrid : Type := Z -> Z -> list EntityID.

Definition SpatialGrid_Clear : SpatialGrid := fun _ _ => [].

Definition in_grid (c : Z) : bool := (0 <=? c)%Z && (c <? GRID_SIZE)%Z.

Definition push_cell (g : SpatialGrid) (cx cy : Z) (id : EntityID)
  : SpatialGrid :=
  fun x y => if (x =? cx)%Z && (y =? cy)%Z then g x y ++ [id] else g x y.

(** The cell index of a coordinate before any reduction:
    [static_cast<int>(x / CELL_SIZE)]. *)
Definition cell_index (x : float) : option Z := F32.to_int (x / CELL_SIZE)%f32.

(** [SpatialGrid::Insert].  [%] is the C++ remainder, of the sign of the
    dividend ([Z.rem]); the guard drops an id whose remainder is
    negative. *)
Definition SpatialGrid_Insert (id : EntityID) (x y : float) (g : SpatialGrid)
  : option SpatialGrid :=
  gx ← cell_index x;
  gy ← cell_index y;
  let grid_x := Z.rem gx GRID_SIZE in
  let grid_y := Z.rem gy GRID_SIZE in
  if in_grid grid_x && in_grid grid_y
  then Some (push_cell g grid_x grid_y id)
  else Some g.

Record StimulusBuffer := {
  visible_entities : list (list EntityID)
}.

Definition StimulusBuffer_Resize (count : nat) (b : StimulusBuffer)
  : StimulusBuffer :=
  {| visible_entities := resize count [] (visible_entities b) |}.

Definition StimulusBuffer_Clear (b : StimulusBuffer) : StimulusBuffer :=
  {| visible_entities := (fun _ => []) <$> visible_entities b |}.

(** ** GameState *)

Record GameState := {
  entity_count : nat;
  transforms : TransformComponents;
  perception : PerceptionComponents;
  needs : NeedsComponents;
  actions : ActionComponents;
  health : HealthComponents;
  spatial_grid : SpatialGrid;
  stimulus_buffer : StimulusBuffer
}.

(** A default-constructed [GameState]: no entity, empty arrays. *)
Definition GameState_empty : GameState :=
  {| entity_count := 0;
     transforms := Build_TransformComponents [] [] [] [] [] [] [];
     perception := Build_PerceptionComponents [] [] [];
     needs := Build_NeedsComponents [] [] [] [];
     actions := Build_ActionComponents [] [] [] [] [] [];
     health := Build_HealthComponents [] [] [] [];
     spatial_grid := SpatialGrid_Clear;
     stimulus_buffer := Build_StimulusBuffer [] |}.

Definition GameState_Initialize (count : nat) (s : GameState) : GameState :=
  {| entity_count := count;
     transforms := TransformComponents_Resize count (transforms s);
     perception := PerceptionComponents_Resize count (perception s);
     needs := NeedsComponents_Resize count (needs s);
     actions := ActionComponents_Resize count (actions s);
     health := HealthComponents_Resize count (health s);
     spatial_grid := spatial_grid s;
     stimulus_buffer := StimulusBuffer_Resize count (stimulus_buffer s) |}.

(** Assignments to one component of the state. *)
Definition with_transforms (t : TransformComponents) (s : GameState) :=
  {| entity_count := entity_count s; transforms := t;
     perception := perception s; needs := needs s; actions := actions s;
     health := health s; spatial_grid := spatial_grid s;
     stimulus_buffer := stimulus_buffer s |}.
Definition with_perception (p : PerceptionComponents) (s : GameState) :=
  {| entity_count := entity_count s; transforms := transforms s;
     perception := p; needs := needs s; actions := actions s;
     health := health s; spatial_grid := spatial_grid s;
     stimulus_buffer := stimulus_buffer s |}.
Definition with_needs (n : NeedsComponents) (s : GameState) :=
  {| entity_count := entity_count s; transforms := transforms s;
     perception := perception s; needs := n; actions := actions s;
     health := health s; spatial_grid := spatial_grid s;
     stimulus_buffer := stimulus_buffer s |}.
Definition with_actions (a : ActionComponents) (s : GameState) :=
  {| entity_count := entity_count s; transforms := transforms s;
     perception := perception s; needs := needs s; actions := a;
     health := health s; spatial_grid := spatial_grid s;
     stimulus_buffer := stimulus_buffer s |}.
Definition with_health (h : HealthComponents) (s : GameState) :=
  {| entity_count := entity_count s; transforms := transforms s;
     perception := perception s; needs := needs s; actions := actions s;
     health := h; spatial_grid := spatial_grid s;
     stimulus_buffer := stimulus_buffer s |}.
Definition with_spatial_grid (g : SpatialGrid) (s : GameState) :=
  {| entity_count := entity_count s; transforms := transforms s;
     perception := perception s; needs := needs s; actions := actions s;
     health := health s; spatial_grid := g;
     stimulus_buffer := stimulus_buffer s |}.
Definition with_stimulus_buffer (b : StimulusBuffer) (s : GameState) :=
  {| entity_count := entity_count s; transforms := transforms s;
     perception := perception s; needs := needs s; actions := actions s;
     health := health s; spatial_grid := spatial_grid s;
     stimulus_buffer := b |}.

(** [state.group.field[i] = v], one definition per array. *)
Definition set_position_x (i : nat) (v : float) (s : GameState) : GameState :=
  with_transforms
    {| position_x := <[i:=v]> (position_x (transforms s));
       position_y := position_y (transforms s);
       position_z := position_z (transforms s);
       velocity_x := velocity_x (transforms s);
       velocity_y := velocity_y (transforms s);
       velocity_z := velocity_z (transforms s);
       orientation := orientation (transforms s) |}
    s.
Definition set_position_y (i : nat) (v : float) (s : GameState) : GameState :=
  with_transforms
    {| position_x := position_x (transforms s);
       position_y := <[i:=v]> (position_y (transforms s));
       position_z := position_z (transforms s);
       velocity_x := velocity_x (transforms s);
       velocity_y := velocity_y (transforms s);
       velocity_z := velocity_z (transforms s);
       orientation := orientation (transforms s) |}
    s.
Definition set_position_z (i : nat) (v : float) (s : GameState) : GameState :=
  with_transforms
    {| position_x := position_x (transforms s);
       position_y := position_y (transforms s);
       position_z := <[i:=v]> (position_z (transforms s));
       velocity_x := velocity_x (transforms s);
       velocity_y := velocity_y (transforms s);
       velocity_z := velocity_z (transforms s);
       orientation := orientation (transforms s) |}
    s.
Definition set_velocity_x (i : nat) (v : float) (s : GameState) : GameState :=
  with_transforms
    {| position_x := position_x (transforms s);
       position_y := position_y (transforms s);
       position_z := position_z (transforms s);
       velocity_x := <[i:=v]> (velocity_x (transforms s));
       velocity_y := velocity_y (transforms s);
       velocity_z := velocity_z (transforms s);
       orientation := orientation (transforms s) |}
    s.
Definition set_velocity_y (i : nat) (v : float) (s : GameState) : GameState :=
  with_transforms
    {| position_x := position_x (transforms s);
       position_y := position_y (transforms s);
       position_z := position_z (transforms s);
       velocity_x := velocity_x (transforms s);
       velocity_y := <[i:=v]> (velocity_y (transforms s));
       velocity_z := velocity_z (transforms s);
       orientation := orientation (transforms s) |}
    s.
Definition set_velocity_z (i : nat) (v : float) (s : GameState) : GameState :=
  with_transforms
    {| position_x := position_x (transforms s);
       position_y := position_y (transforms s);
       position_z := position_z (transforms s);
       velocity_x := velocity_x (transforms s);
       velocity_y := velocity_y (transforms s);
       velocity_z := <[i:=v]> (velocity_z (transforms s));
       orientation := orientation (transforms s) |}
    s.
Definition set_orientation (i : nat) (v : float) (s : GameState) : GameState :=
  with_transforms
    {| position_x := position_x (transforms s);
       position_y := position_y (transforms s);
       position_z := position_z (transforms s);
       velocity_x := velocity_x (transforms s);
       velocity_y := velocity_y (transforms s);
       velocity_z := velocity_z (transforms s);
       orientation := <[i:=v]> (orientation (transforms s)) |}
    s.
Definition set_view_range (i : nat) (v : float) (s : GameState) : GameState :=
  with_perception
    {| view_range := <[i:=v]> (view_range (perception s));
       view_angle := view_angle (perception s);
       visible_entity_count := visible_entity_count (perception s) |}
    s.
Definition set_view_angle (i : nat) (v : float) (s : GameState) : GameState :=
  with_perception
    {| view_range := view_range (perception s);
       view_angle := <[i:=v]> (view_angle (perception s));
       visible_entity_count := visible_entity_count (perception s) |}
    s.
Definition set_visible_entity_count (i : nat) (v : nat) (s : GameState) : GameState :=
  with_perception
    {| view_range := view_range (perception s);
       view_angle := view_angle (perception s);
       visible_entity_count := <[i:=v]> (visible_entity_count (perception s)) |}
    s.
Definition set_hunger (i : nat) (v : float) (s : GameState) : GameState :=
  with_needs
    {| hunger := <[i:=v]> (hunger (needs s)); energy := energy (needs s);
       safety := safety (needs s); curiosity := curiosity (needs s) |}
    s.
Definition set_energy (i : nat) (v : float) (s : GameState) : GameState :=
  with_needs
    {| hunger := hunger (needs s); energy := <[i:=v]> (energy (needs s));
       safety := safety (needs s); curiosity := curiosity (needs s) |}
    s.
Definition set_safety (i : nat) (v : float) (s : GameState) : GameState :=
  with_needs
    {| hunger := hunger (needs s); energy := energy (needs s);
       safety := <[i:=v]> (safety (needs s));
       curiosity := curiosity (needs s) |}
    s.
Definition set_curiosity (i : nat) (v : float) (s : GameState) : GameState :=
  with_needs
    {| hunger := hunger (needs s); energy := energy (needs s);
       safety := safety (needs s);
       curiosity := <[i:=v]> (curiosity (needs s)) |}
    s.
Definition set_current_action (i : nat) (v : ActionType) (s : GameState) : GameState :=
  with_actions
    {| current_action := <[i:=v]> (current_action (actions s));
       action_utility := action_utility (actions s);
       target_entity := target_entity (actions s);
       target_x := target_x (actions s); target_y := target_y (actions s);
       target_z := target_z (actions s) |}
    s.
Definition set_action_utility (i : nat) (v : float) (s : GameState) : GameState :=
  with_actions
    {| current_action := current_action (actions s);
       action_utility := <[i:=v]> (action_utility (actions s));
       target_entity := target_entity (actions s);
       target_x := target_x (actions s); target_y := target_y (actions s);
       target_z := target_z (actions s) |}
    s.
Definition set_target_entity (i : nat) (v : N) (s : GameState) : GameState :=
  with_actions
    {| current_action := current_action (actions s);
       action_utility := action_utility (actions s);
       target_entity := <[i:=v]> (target_entity (actions s));
       target_x := target_x (actions s); target_y := target_y (actions s);
       target_z := target_z (actions s) |}
    s.
Definition set_target_x (i : nat) (v : float) (s : GameState) : GameState :=
  with_actions
    {| current_action := current_action (actions s);
       action_utility := action_utility (actions s);
       target_entity := target_entity (actions s);
       target_x := <[i:=v]> (target_x (actions s));
       target_y := target_y (actions s); target_z := target_z (actions s) |}
    s.
Definition set_target_y (i : nat) (v : float) (s : GameState) : GameState :=
  with_actions
    {| current_action := current_action (actions s);
       action_utility := action_utility (actions s);
       target_entity := target_entity (actions s);
       target_x := target_x (actions s);
       target_y := <[i:=v]> (target_y (actions s));
       target_z := target_z (actions s) |}
    s.
Definition set_target_z (i : nat) (v : float) (s : GameState) : GameState :=
  with_actions
    {| current_action := current_action (actions s);
       action_utility := action_utility (actions s);
       target_entity := target_entity (actions s);
       target_x := target_x (actions s); target_y := target_y (actions s);
       target_z := <[i:=v]> (target_z (actions s)) |}
    s.
Definition set_health_value (i : nat) (v : float) (s : GameState) : GameState :=
  with_health
    {| health_value := <[i:=v]> (health_value (health s));
       max_health := max_health (health s);
       armor_type := armor_type (health s);
       is_alive := is_alive (health s) |}
    s.
Definition set_max_health (i : nat) (v : float) (s : GameState) : GameState :=
  with_health
    {| health_value := health_value (health s);
       max_health := <[i:=v]> (max_health (health s));
       armor_type := armor_type (health s);
       is_alive := is_alive (health s) |}
    s.
Definition set_armor_type (i : nat) (v : Z) (s : GameState) : GameState :=
  with_health
    {| health_value := health_value (health s);
       max_health := max_health (health s);
       armor_type := <[i:=v]> (armor_type (health s));
       is_alive := is_alive (health s) |}
    s.
Definition set_is_alive (i : nat) (v : bool) (s : GameState) : GameState :=
  with_health
    {| health_value := health_value (health s);
       max_health := max_health (health s);
       armor_type := armor_type (health s);
       is_alive := <[i:=v]> (is_alive (health s)) |}
    s.
Definition set_visible_entities (i : nat) (v : list EntityID) (s : GameState)
  : GameState :=
  with_stimulus_buffer
    {| visible_entities := <[i:=v]> (visible_entities (stimulus_buffer s)) |}
    s.

(** A loop body that may fail, run over a list of indices or elements. *)
Fixpoint foldM {A S : Type} (body : S -> A -> option S) (l : list A) (s : S)
  : option S :=
  match l with
  | [] => Some s
  | a :: l' => s' ← body s a; foldM body l' s'
  end.

(** [state.health.is_alive[i]]. *)
Definition alive (s : GameState) (i : EntityID) : bool :=
  is_alive (health s) !!! i.

(** [for (EntityID i = 0; i < state.entity_count; ++i)]. *)
Definition entities (s : GameState) : list EntityID := seq 0 (entity_count s).

(** ** Systems.h: the perception system *)

(** The cells visited by the two nested loops over [dx] and [dy], in the
    order of the visits.  [check_x] and [check_y] are C++ remainders; a
    pair with a coordinate outside the grid is skipped by [continue]. *)
Definition neighbor_offsets : list Z := [-1; 0; 1]%Z.

Definition neighborhood (grid_x grid_y : Z) : list (Z * Z) :=
  dx ← neighbor_offsets;
  dy ← neighbor_offsets;
  let check_x := Z.rem (grid_x + dx) GRID_SIZE in
  let check_y := Z.rem (grid_y + dy) GRID_SIZE in
  if in_grid check_x && in_grid check_y then [(check_x, check_y)] else [].

(** The ids met by the innermost loop, bucket after bucket. *)
Definition candidates (g : SpatialGrid) (grid_x grid_y : Z) : list EntityID :=
  c ← neighborhood grid_x grid_y; g c.1 c.2.

(** Step 1 of [PerceptionSystem::Update]: the grid is cleared and the live
    entities are inserted in ascending order of their ids. *)
Definition rebuild_grid (s : GameState) : option SpatialGrid :=
  foldM (fun g (i : EntityID) =>
           if alive s i
           then SpatialGrid_Insert i (position_x (transforms s) !!! i)
                                     (position_y (transforms s) !!! i) g
           else Some g)
        (entities s) SpatialGrid_Clear.

Section Systems.
(** [std::atan2] on [float], from the C library. *)
Variable atan2 : float -> float -> float.

Definition two_pi : float := F64.mul f2 F64.M_PI.

(** [while (angle_diff > M_PI) angle_diff -= 2.0f * M_PI;] The operands are
    promoted to [double] and the difference is narrowed back.  The loop
    has no bound in the source: [fuel] bounds the number of iterations
    and [None] is a run that needs more. *)
Fixpoint wrap_above_pi (fuel : nat) (angle_diff : float) : option float :=
  if (angle_diff >? F64.M_PI)%f32 then
    match fuel with
    | O => None
    | S fuel' =>
        wrap_above_pi fuel' (F64.to_f32 (F64.sub angle_diff two_pi))
    end
  else Some angle_diff.

(** [while (angle_diff < -M_PI) angle_diff += 2.0f * M_PI;] *)
Fixpoint wrap_below_pi (fuel : nat) (angle_diff : float) : option float :=
  if (angle_diff <? F64.opp F64.M_PI)%f32 then
    match fuel with
    | O => None
    | S fuel' =>
        wrap_below_pi fuel' (F64.to_f32 (F64.add angle_diff two_pi))
    end
  else Some angle_diff.

(** The distance check and the angle check on one target. *)
Definition in_view (fuel : nat)
    (obs_x obs_y obs_orientation view_range view_angle : float)
    (target_x target_y : float) : option bool :=
  let dx_dist := (target_x - obs_x)%f32 in
  let dy_dist := (target_y - obs_y)%f32 in
  let distance_sq := (dx_dist * dx_dist + dy_dist * dy_dist)%f32 in
  if (distance_sq >? view_range * view_range)%f32 then Some false
  else
    let angle_to_target := atan2 dy_dist dx_dist in
    let angle_diff := F32.abs (angle_to_target - obs_orientation)%f32 in
    a ← wrap_above_pi fuel angle_diff;
    a ← wrap_below_pi fuel a;
    Some (F32.abs a <=? view_angle / f2)%f32.

(** The body of the loop over the targets of a bucket; [seen] is
    [visible_entities[observer]]. *)
Definition scan_target (fuel : nat) (s : GameState) (observer : EntityID)
    (seen : list EntityID) (target : EntityID) : option (list EntityID) :=
  if Nat.eqb target observer then Some seen
  else if negb (alive s target) then Some seen
  else
    visible ← in_view fuel
      (position_x (transforms s) !!! observer)
      (position_y (transforms s) !!! observer)
      (orientation (transforms s) !!! observer)
      (view_range (perception s) !!! observer)
      (view_angle (perception s) !!! observer)
      (position_x (transforms s) !!! target)
      (position_y (transforms s) !!! target);
    Some (if (visible : bool) then seen ++ [target] else seen).

(** Step 3 for one observer.  [grid_x + dx] overflows [int] only for
    [grid_x = INT_MIN] at [dx = -1], the first iteration: undefined. *)
Definition observe (fuel : nat) (s : GameState) (observer : EntityID)
  : option GameState :=
  if negb (alive s observer) then Some s
  else
    grid_x ← cell_index (position_x (transforms s) !!! observer);
    grid_y ← cell_index (position_y (transforms s) !!! observer);
    if (grid_x =? F32.INT_MIN)%Z || (grid_y =? F32.INT_MIN)%Z then None
    else
      seen ← foldM (scan_target fuel s observer)
                   (candidates (spatial_grid s) grid_x grid_y)
                   (visible_entities (stimulus_buffer s) !!! observer);
      Some (set_visible_entity_count observer (length seen)
              (set_visible_entities observer seen s)).

Definition PerceptionSystem_Update (fuel : nat) (state : GameState)
    (delta_time : float) : option GameState :=
  g ← rebuild_grid state;
  let state := with_spatial_grid g state in
  let state :=
    with_stimulus_buffer (StimulusBuffer_Clear (stimulus_buffer state))
                         state in
  foldM (observe fuel) (entities state) state.

(** ** The utility system *)

Definition LinearCurve (x : float) : float := x.
Definition QuadraticCurve (x : float) : float := (x * x)%f32.
Definition InverseLinearCurve (x : float) : float := (f1 - x)%f32.

Definition CalculateEatUtility (state : GameState) (id : EntityID) : float :=
  (hunger (needs state) !!! id
   * QuadraticCurve (hunger (needs state) !!! id))%f32.

Definition CalculateSleepUtility (state : GameState) (id : EntityID)
  : float :=
  let fatigue := (f1 - energy (needs state) !!! id)%f32 in
  (fatigue * QuadraticCurve fatigue)%f32.

Definition CalculateFleeUtility (state : GameState) (id : EntityID)
  : float :=
  let danger := (f1 - safety (needs state) !!! id)%f32 in
  (danger * QuadraticCurve danger * F32.dec 3 2)%f32.

Definition CalculateExploreUtility (state : GameState) (id : EntityID)
  : float :=
  (curiosity (needs state) !!! id * energy (needs state) !!! id)%f32.

Definition CalculateAttackUtility (state : GameState) (id : EntityID)
  : float :=
  match visible_entities (stimulus_buffer state) !!! id with
  | [] => f0
  | _ :: _ =>
      (hunger (needs state) !!! id * energy (needs state) !!! id
       * F32.dec 8 10)%f32
  end.

(** One [if (utility > max_utility) { max_utility = ...; best_action = ...; }]. *)
Definition consider (utility : float) (action : ActionType)
    (best : float * ActionType) : float * ActionType :=
  if (utility >? best.1)%f32 then (utility, action) else best.

(** The five comparisons in the order of the source, from the baseline
    [max_utility = 0.0f], [best_action = IDLE]. *)
Definition select_action
    (eat_utility sleep_utility flee_utility explore_utility attack_utility
       : float) : float * ActionType :=
  consider attack_utility ATTACK
    (consider explore_utility EXPLORE
       (consider flee_utility FLEE
          (consider sleep_utility SLEEP
             (consider eat_utility EAT (f0, IDLE))))).

(** [rand()] of the C library: the process-wide generator is a sequence of
    non-negative numbers and the position of the next one. *)
Record RandGen := {
  rand_seq : nat -> N;
  rand_pos : nat
}.

Definition rand (r : RandGen) : Z * RandGen :=
  (Z.of_N (rand_seq r (rand_pos r)),
   {| rand_seq := rand_seq r; rand_pos := S (rand_pos r) |}).

(** "Calculate utilities" and "Find max utility action". *)
Definition decide_action (state : GameState) (i : EntityID)
  : float * ActionType :=
  let eat_utility := CalculateEatUtility state i in
  let sleep_utility := CalculateSleepUtility state i in
  let flee_utility := CalculateFleeUtility state i in
  let explore_utility := CalculateExploreUtility state i in
  let attack_utility := CalculateAttackUtility state i in
  select_action eat_utility sleep_utility flee_utility explore_utility
                attack_utility.

(** "Set target based on action". *)
Definition set_target (best_action : ActionType) (w : GameState * RandGen)
    (i : EntityID) : GameState * RandGen :=
  let '(state, r) := w in
  match best_action, visible_entities (stimulus_buffer state) !!! i with
  | ATTACK, target :: _ =>
      let state := set_target_entity i (N.of_nat target) state in
      let state :=
        set_target_x i (position_x (transforms state) !!! target) state in
      let state :=
        set_target_y i (position_y (transforms state) !!! target) state in
      (state, r)
  | EXPLORE, _ =>
      let '(n, r) := rand r in
      let state :=
        set_target_x i
          (position_x (transforms state) !!! i
           + F32.of_int (Z.rem n 20 - 10))%f32 state in
      let '(n, r) := rand r in
      let state :=
        set_target_y i
          (position_y (transforms state) !!! i
           + F32.of_int (Z.rem n 20 - 10))%f32 state in
      (state, r)
  | _, _ => (state, r)
  end.

(** The body of the loop of [UtilitySystem::Update]. *)
Definition UtilitySystem_step (w : GameState * RandGen) (i : EntityID)
  : GameState * RandGen :=
  let '(state, r) := w in
  if negb (alive state i) then (state, r)
  else
    let '(max_utility, best_action) := decide_action state i in
    let state := set_current_action i best_action state in
    let state := set_action_utility i max_utility state in
    set_target best_action (state, r) i.

Definition UtilitySystem_Update (w : GameState * RandGen)
    (delta_time : float) : GameState * RandGen :=
  fold_left UtilitySystem_step (entities w.1) w.

(** ** The kinetic system *)

Definition MAX_SPEED : float := F32.of_int 5.
Definition ACCELERATION : float := F32.of_int 2.

(** "Apply action-based movement": the branch on the current action. *)
Definition apply_movement (delta_time : float) (state : GameState)
    (i : EntityID) : GameState :=
  let action : ActionType := current_action (actions state) !!! i in
  match action with
  | MOVE_TO_TARGET | ATTACK | EXPLORE =>
      let target_x := target_x (actions state) !!! i in
      let target_y := target_y (actions state) !!! i in
      let current_x := position_x (transforms state) !!! i in
      let current_y := position_y (transforms state) !!! i in
      let dx := (target_x - current_x)%f32 in
      let dy := (target_y - current_y)%f32 in
      let distance := F32.sqrt (dx * dx + dy * dy)%f32 in
      if (distance >? F32.dec 1 10)%f32 then
        let dir_x := (dx / distance)%f32 in
        let dir_y := (dy / distance)%f32 in
        let state :=
          set_velocity_x i
            (velocity_x (transforms state) !!! i
             + dir_x * ACCELERATION * delta_time)%f32 state in
        let state :=
          set_velocity_y i
            (velocity_y (transforms state) !!! i
             + dir_y * ACCELERATION * delta_time)%f32 state in
        set_orientation i (atan2 dy dx) state
      else state
  | FLEE =>
      match visible_entities (stimulus_buffer state) !!! i with
      | [] => state
      | threat :: _ =>
          let threat_x := position_x (transforms state) !!! threat in
          let threat_y := position_y (transforms state) !!! threat in
          let current_x := position_x (transforms state) !!! i in
          let current_y := position_y (transforms state) !!! i in
          let dx := (current_x - threat_x)%f32 in
          let dy := (current_y - threat_y)%f32 in
          let distance := F32.sqrt (dx * dx + dy * dy)%f32 in
          if (distance >? F32.dec 1 10)%f32 then
            let dir_x := (dx / distance)%f32 in
            let dir_y := (dy / distance)%f32 in
            let state :=
              set_velocity_x i
                (velocity_x (transforms state) !!! i
                 + dir_x * ACCELERATION * F32.dec 3 2 * delta_time)%f32
                state in
            set_velocity_y i
              (velocity_y (transforms state) !!! i
               + dir_y * ACCELERATION * F32.dec 3 2 * delta_time)%f32
              state
          else state
      end
  | SLEEP | IDLE =>
      let state :=
        set_velocity_x i
          (velocity_x (transforms state) !!! i * F32.dec 9 10)%f32 state in
      set_velocity_y i
        (velocity_y (transforms state) !!! i * F32.dec 9 10)%f32 state
  | EAT | COUNT => state
  end.

(** "Clamp velocity to max speed". *)
Definition clamp_speed (state : GameState) (i : EntityID) : GameState :=
  let speed_sq :=
    (velocity_x (transforms state) !!! i
     * velocity_x (transforms state) !!! i
     + velocity_y (transforms state) !!! i
       * velocity_y (transforms state) !!! i)%f32 in
  if (speed_sq >? MAX_SPEED * MAX_SPEED)%f32 then
    let speed := F32.sqrt speed_sq in
    let state :=
      set_velocity_x i
        (velocity_x (transforms state) !!! i / speed * MAX_SPEED)%f32
        state in
    set_velocity_y i
      (velocity_y (transforms state) !!! i / speed * MAX_SPEED)%f32 state
  else state.

(** "Integrate position". *)
Definition integrate_position (delta_time : float) (state : GameState)
    (i : EntityID) : GameState :=
  let state :=
    set_position_x i
      (position_x (transforms state) !!! i
       + velocity_x (transforms state) !!! i * delta_time)%f32 state in
  set_position_y i
    (position_y (transforms state) !!! i
     + velocity_y (transforms state) !!! i * delta_time)%f32 state.

(** "Simple world bounds". *)
Definition world_bounds (state : GameState) (i : EntityID) : GameState :=
  let state :=
    set_position_x i
      (F32.max f0 (F32.min f1000 (position_x (transforms state) !!! i)))
      state in
  set_position_y i
    (F32.max f0 (F32.min f1000 (position_y (transforms state) !!! i)))
    state.

(** The body of the loop of [KineticSystem::Update]. *)
Definition KineticSystem_step (delta_time : float) (state : GameState)
    (i : EntityID) : GameState :=
  if negb (alive state i) then state
  else
    let state := apply_movement delta_time state i in
    let state := clamp_speed state i in
    let state := integrate_position delta_time state i in
    world_bounds state i.

Definition KineticSystem_Update (state : GameState) (delta_time : float)
  : GameState :=
  fold_left (KineticSystem_step delta_time) (entities state) state.

(** ** The needs system *)

(** "Hunger increases over time". *)
Definition hunger_rises (delta_time : float) (state : GameState)
    (i : EntityID) : GameState :=
  set_hunger i
    (F32.min f1 (hunger (needs state) !!! i
                 + F32.dec 1 100 * delta_time)%f32) state.

(** "Energy decreases when active, increases when sleeping". *)
Definition energy_changes (delta_time : float) (action : ActionType)
    (state : GameState) (i : EntityID) : GameState :=
  match action with
  | SLEEP =>
      set_energy i
        (F32.min f1 (energy (needs state) !!! i
                     + F32.dec 1 10 * delta_time)%f32) state
  | _ =>
      set_energy i
        (F32.max f0 (energy (needs state) !!! i
                     - F32.dec 2 100 * delta_time)%f32) state
  end.

(** "Eating reduces hunger". *)
Definition eating_reduces_hunger (delta_time : float) (action : ActionType)
    (state : GameState) (i : EntityID) : GameState :=
  match action with
  | EAT =>
      set_hunger i
        (F32.max f0 (hunger (needs state) !!! i
                     - F32.dec 15 100 * delta_time)%f32) state
  | _ => state
  end.

(** "Safety based on nearby entities". *)
Definition safety_changes (delta_time : float) (state : GameState)
    (i : EntityID) : GameState :=
  if (3 <? visible_entity_count (perception state) !!! i)%nat then
    set_safety i
      (F32.max f0 (safety (needs state) !!! i
                   - F32.dec 5 100 * delta_time)%f32) state
  else
    set_safety i
      (F32.min f1 (safety (needs state) !!! i
                   + F32.dec 3 100 * delta_time)%f32) state.

(** "Curiosity fluctuates": [n] is the value returned by [rand()]. *)
Definition curiosity_fluctuates (delta_time : float) (n : Z)
    (state : GameState) (i : EntityID) : GameState :=
  let state :=
    set_curiosity i
      (curiosity (needs state) !!! i
       + F32.of_int (Z.rem n 100 - 50) * F32.dec 1 1000 * delta_time)%f32
      state in
  set_curiosity i
    (F32.max f0 (F32.min f1 (curiosity (needs state) !!! i))) state.

(** The body of the loop of [NeedsSystem::Update]. *)
Definition NeedsSystem_step (delta_time : float) (w : GameState * RandGen)
    (i : EntityID) : GameState * RandGen :=
  let '(state, r) := w in
  if negb (alive state i) then (state, r)
  else
    let action : ActionType := current_action (actions state) !!! i in
    let state := hunger_rises delta_time state i in
    let state := energy_changes delta_time action state i in
    let state := eating_reduces_hunger delta_time action state i in
    let state := safety_changes delta_time state i in
    let '(n, r) := rand r in
    (curiosity_fluctuates delta_time n state i, r).

Definition NeedsSystem_Update (w : GameState * RandGen)
    (delta_time : float) : GameState * RandGen :=
  fold_left (NeedsSystem_step delta_time) (entities w.1) w.

(** ** main.cpp: one iteration of the main loop, without the diagnostics *)

Definition Frame (fuel : nat) (w : GameState * RandGen) (delta_time : float)
  : option (GameState * RandGen) :=
  state ← PerceptionSystem_Update fuel w.1 delta_time;
  let w := UtilitySystem_Update (state, w.2) delta_time in
  let state := KineticSystem_Update w.1 delta_time in
  Some (NeedsSystem_Update (state, w.2) delta_time).

Fixpoint Frames (fuel : nat) (frames : nat) (w : GameState * RandGen)
    (delta_time : float) : option (GameState * RandGen) :=
  match frames with
  | O => Some w
  | S frames' =>
      w' ← Frame fuel w delta_time; Frames fuel frames' w' delta_time
  end.

(** ** InitializeEntities *)

(** The seven numbers drawn for an entity from [std::mt19937 rng(42)], in
    the order of the draws: [pos_dist] twice, [angle_dist], [need_dist]
    four times. *)
Record EntityDraws := {
  draw_position_x : float;
  draw_position_y : float;
  draw_orientation : float;
  draw_hunger : float;
  draw_energy : float;
  draw_safety : float;
  draw_curiosity : float
}.

Definition InitializeEntities_step (draws : nat -> EntityDraws)
    (state : GameState) (i : EntityID) : GameState :=
  let d := draws i in
  let state := set_position_x i (draw_position_x d) state in
  let state := set_position_y i (draw_position_y d) state in
  let state := set_position_z i f0 state in
  let state := set_velocity_x i f0 state in
  let state := set_velocity_y i f0 state in
  let state := set_velocity_z i f0 state in
  let state := set_orientation i (draw_orientation d) state in
  let state :=
    set_view_range i
      (F32.of_int 50 + F32.of_int (Z.of_nat (i mod 50)))%f32 state in
  let state :=
    set_view_angle i (F64.to_f32 (F64.div F64.M_PI f2)) state in
  let state := set_visible_entity_count i 0 state in
  let state := set_hunger i (draw_hunger d) state in
  let state := set_energy i (draw_energy d) state in
  let state := set_safety i (draw_safety d) state in
  let state := set_curiosity i (draw_curiosity d) state in
  let state := set_current_action i IDLE state in
  let state := set_action_utility i f0 state in
  let state := set_target_entity i INVALID_ENTITY state in
  let state := set_target_x i f0 state in
  let state := set_target_y i f0 state in
  let state := set_target_z i f0 state in
  let state := set_health_value i (F32.of_int 100) state in
  let state := set_max_health i (F32.of_int 100) state in
  let state := set_armor_type i (Z.of_nat (i mod 3)) state in
  set_is_alive i true state.

Definition InitializeEntities (count : nat) (draws : nat -> EntityDraws)
  : GameState :=
  fold_left (InitializeEntities_step draws) (seq 0 count)
            (GameState_Initialize count GameState_empty).

(** ** Diagnostics.h: the validator *)

Definition ValidateState_entity (state : GameState) (valid : bool)
    (i : EntityID) : bool :=
  let valid :=
    if F32.is_nan (position_x (transforms state) !!! i)
       || F32.is_inf (position_x (transforms state) !!! i)
    then false else valid in
  if F32.is_nan (hunger (needs state) !!! i)
     || (hunger (needs state) !!! i <? f0)%f32
     || (hunger (needs state) !!! i >? f1)%f32
  then false else valid.

Definition ValidateState (state : GameState) : bool :=
  let valid := true in
  let valid :=
    if negb (TransformComponents_Size (transforms state)
             =? entity_count state)%nat
    then false else valid in
  let valid :=
    if negb (PerceptionComponents_Size (perception state)
             =? entity_count state)%nat
    then false else valid in
  let valid :=
    if negb (NeedsComponents_Size (needs state) =? entity_count state)%nat
    then false else valid in
  let valid :=
    if negb (ActionComponents_Size (actions state)
             =? entity_count state)%nat
    then false else valid in
  fold_left (ValidateState_entity state) (entities state) valid.

(** ** main.cpp: the driver *)

Definition ENTITY_COUNT : nat := 1000.
Definition SIMULATION_FRAMES : nat := 100.
Definition DELTA_TIME : float := F32.dec 16 1000.

(** How [main] ends: [return 0] after the last frame, or [return 1] after
    one of the two messages of a failed validation. *)
Inductive Exit :=
  | SimulationComplete (final : GameState)
  | InitialValidationFailed
  | ValidationFailedAtFrame (frame : nat) (state : GameState).

(** The main loop from frame number [frame], with [frames] iterations
    left.  [ENABLE_CHAOS] is [false]: the state is not touched between the
    needs system and the validation.  Logging, statistics and profiling
    only read the state. *)
Fixpoint main_loop (fuel : nat) (delta_time : float) (frames frame : nat)
    (w : GameState * RandGen) : option Exit :=
  match frames with
  | O => Some (SimulationComplete w.1)
  | S frames' =>
      w' ← Frame fuel w delta_time;
      if negb (ValidateState w'.1)
      then Some (ValidationFailedAtFrame frame w'.1)
      else main_loop fuel delta_time frames' (S frame) w'
  end.

Definition main (fuel : nat) (draws : nat -> EntityDraws)
    (rand_numbers : nat -> N) : option Exit :=
  let state := InitializeEntities ENTITY_COUNT draws in
  if negb (ValidateState state) then Some InitialValidationFailed
  else
    main_loop fuel DELTA_TIME SIMULATION_FRAMES 0
              (state, {| rand_seq := rand_numbers; rand_pos := 0 |}).
End Systems.

(** ** Vocabulary of the properties *)

(** A shift record is exact when its round and sticky bits are clear. *)
Definition exact (mrs : shr_record) : Prop :=
  shr_r mrs = false /\ shr_s mrs = false.

(** [m * 2^e <= 1], on a mantissa and an exponent. *)
Definition le_one (m e : Z) : Prop := (e <= 0 /\ m <= 2 ^ (- e))%Z.

(** [v] lies in [lo, hi]; a NaN lies in no interval. *)
Definition between (lo hi v : float) : Prop :=
  F32.leb lo v = true /\ F32.leb v hi = true.

Definition unit_interval : float -> Prop := between f0 f1.
Definition in_world : float -> Prop := between f0 f1000.

(** The four needs of agent [i] are in [0, 1] and its position is in
    [0, 1000] x [0, 1000]. *)
Definition agent_in_bounds (s : GameState) (i : EntityID) : Prop :=
  unit_interval (hunger (needs s) !!! i)
  /\ unit_interval (energy (needs s) !!! i)
  /\ unit_interval (safety (needs s) !!! i)
  /\ unit_interval (curiosity (needs s) !!! i)
  /\ in_world (position_x (transforms s) !!! i)
  /\ in_world (position_y (transforms s) !!! i).

(** The contract of the two distributions of [InitializeEntities] used for
    positions and needs: [pos_dist(0, 1000)] and [need_dist(0, 1)]. *)
Definition draws_in_range (d : EntityDraws) : Prop :=
  in_world (draw_position_x d) /\ in_world (draw_position_y d)
  /\ unit_interval (draw_hunger d) /\ unit_interval (draw_energy d)
  /\ unit_interval (draw_safety d) /\ unit_interval (draw_curiosity d).

(** The states that differ from [s] in the named component only. *)
Definition only_transforms (s s' : GameState) : Prop :=
  s' = with_transforms (transforms s') s.
Definition only_needs (s s' : GameState) : Prop :=
  s' = with_needs (needs s') s.
Definition only_actions (s s' : GameState) : Prop :=
  s' = with_actions (actions s') s.

Definition only_perceived (s s' : GameState) : Prop :=
  s' = with_perception
         {| view_range := view_range (perception s);
            view_angle := view_angle (perception s);
            visible_entity_count := visible_entity_count (perception s') |}
         (with_stimulus_buffer (stimulus_buffer s')
            (with_spatial_grid (spatial_grid s') s)).

Definition all_in_bounds (s : GameState) : Prop :=
  forall j, agent_in_bounds s j.

(** Every array has [entity_count] elements: what [GameState::Initialize]
    establishes. *)
Record well_formed (s : GameState) : Prop := {
  wf_position_x : length (position_x (transforms s)) = entity_count s;
  wf_position_y : length (position_y (transforms s)) = entity_count s;
  wf_position_z : length (position_z (transforms s)) = entity_count s;
  wf_velocity_x : length (velocity_x (transforms s)) = entity_count s;
  wf_velocity_y : length (velocity_y (transforms s)) = entity_count s;
  wf_velocity_z : length (velocity_z (transforms s)) = entity_count s;
  wf_orientation : length (orientation (transforms s)) = entity_count s;
  wf_view_range : length (view_range (perception s)) = entity_count s;
  wf_view_angle : length (view_angle (perception s)) = entity_count s;
  wf_visible_entity_count :
    length (visible_entity_count (perception s)) = entity_count s;
  wf_hunger : length (hunger (needs s)) = entity_count s;
  wf_energy : length (energy (needs s)) = entity_count s;
  wf_safety : length (safety (needs s)) = entity_count s;
  wf_curiosity : length (curiosity (needs s)) = entity_count s;
  wf_current_action : length (current_action (actions s)) = entity_count s;
  wf_action_utility : length (action_utility (actions s)) = entity_count s;
  wf_target_entity : length (target_entity (actions s)) = entity_count s;
  wf_target_x : length (target_x (actions s)) = entity_count s;
  wf_target_y : length (target_y (actions s)) = entity_count s;
  wf_target_z : length (target_z (actions s)) = entity_count s;
  wf_health_value : length (health_value (health s)) = entity_count s;
  wf_max_health : length (max_health (health s)) = entity_count s;
  wf_armor_type : length (armor_type (health s)) = entity_count s;
  wf_is_alive : length (is_alive (health s)) = entity_count s;
  wf_visible_entities :
    length (visible_entities (stimulus_buffer s)) = entity_count s
}.

(** The five arrays written by the kinetic system, at entity [i]. *)
Definition body_at (s : GameState) (i : EntityID)
  : float * float * float * float * float :=
  (position_x (transforms s) !!! i, position_y (transforms s) !!! i,
   velocity_x (transforms s) !!! i, velocity_y (transforms s) !!! i,
   orientation (transforms s) !!! i).

Definition body_lengths (s : GameState) : nat * nat * nat * nat * nat :=
  (length (position_x (transforms s)), length (position_y (transforms s)),
   length (velocity_x (transforms s)), length (velocity_y (transforms s)),
   length (orientation (transforms s))).

(** The velocity after damping and the clamp to [MAX_SPEED]. *)
Definition damped_velocity (vx vy : float) : float * float :=
  let vx := (vx * F32.dec 9 10)%f32 in
  let vy := (vy * F32.dec 9 10)%f32 in
  let speed_sq := (vx * vx + vy * vy)%f32 in
  if (speed_sq >? MAX_SPEED * MAX_SPEED)%f32
  then ((vx / F32.sqrt speed_sq * MAX_SPEED)%f32,
        (vy / F32.sqrt speed_sq * MAX_SPEED)%f32)
  else (vx, vy).


(** The five arrays written by the utility system, at entity [i]. *)
Definition decision_at (s : GameState) (i : EntityID)
  : ActionType * float * N * float * float :=
  (current_action (actions s) !!! i, action_utility (actions s) !!! i,
   target_entity (actions s) !!! i, target_x (actions s) !!! i,
   target_y (actions s) !!! i).

Definition decision_lengths (s : GameState) : nat * nat * nat * nat * nat :=
  (length (current_action (actions s)), length (action_utility (actions s)),
   length (target_entity (actions s)), length (target_x (actions s)),
   length (target_y (actions s))).

(** The offset [rand() % 20 - 10] made of the [c]-th number of the
    generator. *)
Definition explore_offset (numbers : nat -> N) (c : nat) : Z :=
  Z.rem (Z.of_N (numbers c)) 20 - 10.

(** What the decision stage leaves in the five arrays for a live entity [i]
    when the generator stands at its [c]-th number as the entity is
    reached. *)
Definition decision_of (s : GameState) (numbers : nat -> N) (c : nat)
    (i : EntityID) : ActionType * float * N * float * float :=
  let '(max_utility, best_action) := decide_action s i in
  match best_action, visible_entities (stimulus_buffer s) !!! i with
  | ATTACK, target :: _ =>
      (best_action, max_utility, N.of_nat target,
       position_x (transforms s) !!! target,
       position_y (transforms s) !!! target)
  | EXPLORE, _ =>
      (best_action, max_utility, target_entity (actions s) !!! i,
       (position_x (transforms s) !!! i
        + F32.of_int (explore_offset numbers c))%f32,
       (position_y (transforms s) !!! i
        + F32.of_int (explore_offset numbers (S c)))%f32)
  | _, _ =>
      (best_action, max_utility, target_entity (actions s) !!! i,
       target_x (actions s) !!! i, target_y (actions s) !!! i)
  end.

Section OrderVocabulary.
Local Open Scope Z_scope.

(** The magnitude [m * 2^e] counted in units of [2^E]. *)
Definition scaled (E : Z) (m : positive) (e : Z) : Z := Z.pos m * 2 ^ (e - E).

(** The order of the floats that are not NaN, as an order on integers: a
    finite number is counted in units of [2^E] and the infinities lie
    beyond every finite number. *)
Inductive rank := Below | Finite (z : Z) | Above.

Definition rank_of (E : Z) (x : float) : option rank :=
  match x with
  | S754_nan => None
  | S754_infinity s => Some (if s then Below else Above)
  | S754_zero _ => Some (Finite 0)
  | S754_finite s m e => Some (Finite (cond_Zopp s (scaled E m e)))
  end.

Definition rank_compare (a b : rank) : comparison :=
  match a, b with
  | Below, Below | Above, Above => Eq
  | Below, _ | _, Above => Lt
  | Above, _ | _, Below => Gt
  | Finite x, Finite y => x ?= y
  end.

Definition exponent_above (E : Z) (x : float) : Prop :=
  match x with S754_finite _ _ e => E <= e | _ => True end.

(** An exponent below those of three numbers. *)
Definition exponent_of (x : float) : Z :=
  match x with S754_finite _ _ e => e | _ => 0 end.

End OrderVocabulary.

(** The five scores in the order of the comparisons. *)
Definition scored (eat sleep flee explore attack : float)
  : list (float * ActionType) :=
  [(eat, EAT); (sleep, SLEEP); (flee, FLEE); (explore, EXPLORE);
   (attack, ATTACK)].

(** One of the six actions that the decision stage can write. *)
Definition selectable (a : ActionType) : Prop :=
  a ∈ [IDLE; EAT; SLEEP; FLEE; EXPLORE; ATTACK].


(** A product by zero: a zero or, for an infinite or NaN factor, a NaN. *)
Definition zero_or_nan (x : float) : Prop :=
  match x with S754_zero _ | S754_nan => True | _ => False end.


(** The four needs of entity [i]. *)
Definition needs_at (s : GameState) (i : EntityID)
  : float * float * float * float :=
  (hunger (needs s) !!! i, energy (needs s) !!! i, safety (needs s) !!! i,
   curiosity (needs s) !!! i).

Definition sees_only_alive (s : GameState) : Prop :=
  forall o t, t ∈ visible_entities (stimulus_buffer s) !!! o ->
              alive s t = true.

Definition all_selectable (s : GameState) : Prop :=
  forall i, selectable (current_action (actions s) !!! i).


(** The neighbourhood in the words of the specification: the 3 x 3 block
    around the cell, each coordinate wrapped by the modulo rule, under which
    index -1 is cell 99 and index 100 is cell 0. *)
Definition wrapped_neighborhood (grid_x grid_y : Z) : list (Z * Z) :=
  dx ← neighbor_offsets;
  dy ← neighbor_offsets;
  [((grid_x + dx) `mod` GRID_SIZE, (grid_y + dy) `mod` GRID_SIZE)%Z].


(** The cell in which [SpatialGrid::Insert] files a position: [None] when a
    conversion to [int] is undefined, [Some None] when the guard drops the
    position. *)
Definition insert_cell (x y : float) : option (option (Z * Z)) :=
  gx ← cell_index x;
  gy ← cell_index y;
  let grid_x := Z.rem gx GRID_SIZE in
  let grid_y := Z.rem gy GRID_SIZE in
  Some (if in_grid grid_x && in_grid grid_y then Some (grid_x, grid_y)
        else None).

(** Entity [id] is alive and filed in cell [(cx, cy)]. *)
Definition filed_in (s : GameState) (cx cy : Z) (id : EntityID) : bool :=
  alive s id
  && match insert_cell (position_x (transforms s) !!! id)
                       (position_y (transforms s) !!! id) with
     | Some (Some (x, y)) => (x =? cx)%Z && (y =? cy)%Z
     | _ => false
     end.

(** The two checks made on an entity. *)
Definition entity_passes (s : GameState) (i : EntityID) : bool :=
  negb (F32.is_nan (position_x (transforms s) !!! i)
        || F32.is_inf (position_x (transforms s) !!! i))
  && negb (F32.is_nan (hunger (needs s) !!! i)
           || (hunger (needs s) !!! i <? f0)%f32
           || (hunger (needs s) !!! i >? f1)%f32).

(** The four comparisons of sizes. *)
Definition sizes_pass (s : GameState) : bool :=
  (TransformComponents_Size (transforms s) =? entity_count s)%nat
  && (PerceptionComponents_Size (perception s) =? entity_count s)%nat
  && (NeedsComponents_Size (needs s) =? entity_count s)%nat
  && (ActionComponents_Size (actions s) =? entity_count s)%nat.

(** A function in the place of [atan2] for the closed examples; the
    theorems hold for every function. *)
Definition atan2_zero (y x : float) : float := f0.

(** One agent of an example. *)
Record Agent := {
  agent_x : float;
  agent_y : float;
  agent_velocity_x : float;
  agent_velocity_y : float;
  agent_hunger : float;
  agent_energy : float;
  agent_safety : float;
  agent_curiosity : float;
  agent_action : ActionType;
  agent_alive : bool;
  agent_visible : list EntityID
}.

(** The state made of the agents of a list, in the order of the list, with
    orientation 0, view range 50 and view angle 1. *)
Definition population (agents : list Agent) : GameState :=
  let zeros := (fun _ => f0) <$> agents in
  {| entity_count := length agents;
     transforms :=
       {| position_x := agent_x <$> agents;
          position_y := agent_y <$> agents;
          position_z := zeros;
          velocity_x := agent_velocity_x <$> agents;
          velocity_y := agent_velocity_y <$> agents;
          velocity_z := zeros;
          orientation := zeros |};
     perception :=
       {| view_range := (fun _ => F32.of_int 50) <$> agents;
          view_angle := (fun _ => f1) <$> agents;
          visible_entity_count := (fun a => length (agent_visible a)) <$> agents |};
     needs :=
       {| hunger := agent_hunger <$> agents;
          energy := agent_energy <$> agents;
          safety := agent_safety <$> agents;
          curiosity := agent_curiosity <$> agents |};
     actions :=
       {| current_action := agent_action <$> agents;
          action_utility := zeros;
          target_entity := (fun _ => INVALID_ENTITY) <$> agents;
          target_x := zeros;
          target_y := zeros;
          target_z := zeros |};
     health :=
       {| health_value := (fun _ => F32.of_int 100) <$> agents;
          max_health := (fun _ => F32.of_int 100) <$> agents;
          armor_type := (fun _ => 0%Z) <$> agents;
          is_alive := agent_alive <$> agents |};
     spatial_grid := SpatialGrid_Clear;
     stimulus_buffer := {| visible_entities := agent_visible <$> agents |} |}.

(** An agent at rest at [(x, y)], content and alone. *)
Definition resting (x y : Z) : Agent :=
  {| agent_x := F32.of_int x; agent_y := F32.of_int y;
     agent_velocity_x := f0; agent_velocity_y := f0;
     agent_hunger := f0; agent_energy := f1; agent_safety := f1;
     agent_curiosity := f0; agent_action := IDLE; agent_alive := true;
     agent_visible := [] |}.

Definition with_velocity (vx vy : Z) (a : Agent) : Agent :=
  {| agent_x := agent_x a; agent_y := agent_y a;
     agent_velocity_x := F32.of_int vx; agent_velocity_y := F32.of_int vy;
     agent_hunger := agent_hunger a; agent_energy := agent_energy a;
     agent_safety := agent_safety a; agent_curiosity := agent_curiosity a;
     agent_action := agent_action a; agent_alive := agent_alive a;
     agent_visible := agent_visible a |}.

Definition with_drives (h e sf c : float) (a : Agent) : Agent :=
  {| agent_x := agent_x a; agent_y := agent_y a;
     agent_velocity_x := agent_velocity_x a;
     agent_velocity_y := agent_velocity_y a;
     agent_hunger := h; agent_energy := e; agent_safety := sf;
     agent_curiosity := c;
     agent_action := agent_action a; agent_alive := agent_alive a;
     agent_visible := agent_visible a |}.

Definition seeing (visible : list EntityID) (a : Agent) : Agent :=
  {| agent_x := agent_x a; agent_y := agent_y a;
     agent_velocity_x := agent_velocity_x a;
     agent_velocity_y := agent_velocity_y a;
     agent_hunger := agent_hunger a; agent_energy := agent_energy a;
     agent_safety := agent_safety a; agent_curiosity := agent_curiosity a;
     agent_action := agent_action a; agent_alive := agent_alive a;
     agent_visible := visible |}.

Definition dead (a : Agent) : Agent :=
  {| agent_x := agent_x a; agent_y := agent_y a;
     agent_velocity_x := agent_velocity_x a;
     agent_velocity_y := agent_velocity_y a;
     agent_hunger := agent_hunger a; agent_energy := agent_energy a;
     agent_safety := agent_safety a; agent_curiosity := agent_curiosity a;
     agent_action := agent_action a; agent_alive := false;
     agent_visible := agent_visible a |}.

(** The numbers of a linear congruential generator, for the examples. *)
Definition example_numbers (n : nat) : N := (N.of_nat n * 1103515245 + 12345) mod 32768.

Definition example_rand : RandGen :=
  {| rand_seq := example_numbers; rand_pos := 0 |}.

(** Draws for three entities close to each other. *)
Definition example_draws (i : nat) : EntityDraws :=
  {| draw_position_x := F32.of_int (500 + 3 * Z.of_nat (i mod 3));
     draw_position_y := F32.of_int (500 + 2 * Z.of_nat (i mod 3));
     draw_orientation := F32.of_int (Z.of_nat (i mod 3));
     draw_hunger := F32.dec (1 + Z.of_nat (i mod 3)) 4;
     draw_energy := F32.dec (3 - Z.of_nat (i mod 3)) 4;
     draw_safety := F32.dec 1 2;
     draw_curiosity := F32.dec (Z.of_nat (i mod 3)) 2 |}.


(** One idle agent with velocity (10, 0). *)
Definition gliding_agent : GameState :=
  population [with_velocity 10 0 (resting 500 500)].

(** One idle agent with velocity (3, 0): slow enough for the damped
    velocity to stay below [MAX_SPEED]. *)
Definition drifting_agent : GameState :=
  population [with_velocity 3 0 (resting 500 500)].

(** One agent with hunger 1 and energy 0, and the safety given. *)
Definition starving_agent (safety : float) : GameState :=
  population [with_drives f1 f0 safety f0 (resting 500 500)].

(** Two live agents on the same row, at [x = 999] and at [x = 1]. *)
Definition border_agents : GameState :=
  population [resting 999 500; resting 1 500].


(** A hungry agent at (40, 50) that sees agent 1, which glides from
    (50, 50). *)
Definition hunter_and_prey : GameState :=
  population
    [seeing [1] (with_drives (F32.dec 1 2) f1 f1 f0 (resting 40 50));
     with_velocity 3 0 (resting 50 50)].

(** A live agent next to a dead one. *)
Definition living_and_dead : GameState :=
  population
    [resting 500 500;
     dead (with_velocity 3 0
             (with_drives (F32.dec 1 2) (F32.dec 1 2) f0 f1
                          (resting 503 500)))].

(** A rested and curious agent. *)
Definition explorer : GameState :=
  population [with_drives f0 f1 f1 f1 (resting 500 500)].

(** A state that the validator accepts: the health arrays are empty,
    [position_y] is NaN and the energy is 2. *)
Definition unchecked_state : GameState :=
  with_health (Build_HealthComponents [] [] [] [])
    (set_energy 0 (F32.of_int 2)
       (set_position_y 0 S754_nan (population [resting 500 500]))).

(** A dead agent whose hunger is NaN: no system repairs it. *)
Definition poisoned_state : GameState :=
  population [dead (with_drives S754_nan f1 f1 f0 (resting 500 500))].


(** The sizes of the twenty-five arrays of a state. *)
Definition array_lengths (s : GameState) : list nat :=
  [length (position_x (transforms s)); length (position_y (transforms s));
   length (position_z (transforms s)); length (velocity_x (transforms s));
   length (velocity_y (transforms s)); length (velocity_z (transforms s));
   length (orientation (transforms s));
   length (view_range (perception s)); length (view_angle (perception s));
   length (visible_entity_count (perception s));
   length (hunger (needs s)); length (energy (needs s));
   length (safety (needs s)); length (curiosity (needs s));
   length (current_action (actions s)); length (action_utility (actions s));
   length (target_entity (actions s)); length (target_x (actions s));
   length (target_y (actions s)); length (target_z (actions s));
   length (health_value (health s)); length (max_health (health s));
   length (armor_type (health s)); length (is_alive (health s));
   length (visible_entities (stimulus_buffer s))].

(** The entity count and the sizes of the arrays. *)
Definition shape (s : GameState) : nat * list nat :=
  (entity_count s, array_lengths s).


(** The tests of the innermost loop of the perception system on a target:
    it is not the observer, it is alive, and it passes the distance and the
    angle checks. *)
Definition passes (atan2 : float -> float -> float) (fuel : nat)
    (s : GameState) (observer target : EntityID) : bool :=
  negb (Nat.eqb target observer)
  && alive s target
  && match in_view atan2 fuel
             (position_x (transforms s) !!! observer)
             (position_y (transforms s) !!! observer)
             (orientation (transforms s) !!! observer)
             (view_range (perception s) !!! observer)
             (view_angle (perception s) !!! observer)
             (position_x (transforms s) !!! target)
             (position_y (transforms s) !!! target) with
     | Some true => true
     | _ => false
     end.

(** The squared distance of the distance check. *)
Definition distance_sq (s : GameState) (observer target : EntityID) : float :=
  let dx_dist := (position_x (transforms s) !!! target
                  - position_x (transforms s) !!! observer)%f32 in
  let dy_dist := (position_y (transforms s) !!! target
                  - position_y (transforms s) !!! observer)%f32 in
  (dx_dist * dx_dist + dy_dist * dy_dist)%f32.

(** A live agent that sees nobody, next to a dead one whose count is 1. *)
Definition watcher_and_corpse : GameState :=
  population [resting 500 500; dead (seeing [0] (resting 503 500))].


(** The live entities for which the decision stage selects [EXPLORE]. *)
Definition explores (s : GameState) (i : EntityID) : bool :=
  alive s i
  && match (decide_action s i).2 with EXPLORE => true | _ => false end.

(** An agent outside the world: its position is NaN and its velocity is
    infinite. *)
Definition lost_agent : GameState :=
  set_velocity_x 0 (S754_infinity false)
    (set_position_y 0 (S754_infinity true)
       (set_position_x 0 S754_nan (population [resting 500 500]))).

(** A live agent whose four needs are NaN. *)
Definition numb_agent : GameState :=
  population [with_drives S754_nan S754_nan S754_nan S754_nan
                (resting 500 500)].

(** What [InitializeEntities] writes for entity [i]: the seven numbers drawn
    for it and the constants of the loop body. *)
Definition initial_entity (draws : nat -> EntityDraws) (s : GameState)
    (i : EntityID) : Prop :=
  position_x (transforms s) !!! i = draw_position_x (draws i)
  /\ position_y (transforms s) !!! i = draw_position_y (draws i)
  /\ orientation (transforms s) !!! i = draw_orientation (draws i)
  /\ velocity_x (transforms s) !!! i = f0
  /\ velocity_y (transforms s) !!! i = f0
  /\ hunger (needs s) !!! i = draw_hunger (draws i)
  /\ energy (needs s) !!! i = draw_energy (draws i)
  /\ safety (needs s) !!! i = draw_safety (draws i)
  /\ curiosity (needs s) !!! i = draw_curiosity (draws i)
  /\ view_range (perception s) !!! i
     = (F32.of_int 50 + F32.of_int (Z.of_nat (i mod 50)))%f32
  /\ view_angle (perception s) !!! i = F64.to_f32 (F64.div F64.M_PI f2)
  /\ visible_entity_count (perception s) !!! i = 0
  /\ current_action (actions s) !!! i = IDLE
  /\ action_utility (actions s) !!! i = f0
  /\ target_entity (actions s) !!! i = INVALID_ENTITY
  /\ health_value (health s) !!! i = F32.of_int 100
  /\ max_health (health s) !!! i = F32.of_int 100
  /\ armor_type (health s) !!! i = Z.of_nat (i mod 3)
  /\ alive s i = true.


(** The parts of a state that no system writes: the health group, the two
    view parameters and the third coordinate of positions, velocities and
    targets. *)
Definition fixed_parts (s : GameState)
  : HealthComponents * list float * list float * list float * list float
    * list float :=
  (health s, view_range (perception s), view_angle (perception s),
   position_z (transforms s), velocity_z (transforms s),
   target_z (actions s)).

(** [GameState::AddEntity]: the id is the old count converted to
    [EntityID], an unsigned integer of 32 bits. *)
Definition GameState_AddEntity (s : GameState) : N * GameState :=
  let id := (N.of_nat (entity_count s) mod 2 ^ 32)%N in
  let entity_count := S (entity_count s) in
  (id,
   {| entity_count := entity_count;
      transforms := TransformComponents_Resize entity_count (transforms s);
      perception := PerceptionComponents_Resize entity_count (perception s);
      needs := NeedsComponents_Resize entity_count (needs s);
      actions := ActionComponents_Resize entity_count (actions s);
      health := HealthComponents_Resize entity_count (health s);
      spatial_grid := spatial_grid s;
      stimulus_buffer :=
        StimulusBuffer_Resize entity_count (stimulus_buffer s) |}).

(** The eight counters of [PrintSimulationStats], which it prints. *)
Record Stats := {
  idle_count : Z;
  move_count : Z;
  eat_count : Z;
  sleep_count : Z;
  flee_count : Z;
  attack_count : Z;
  explore_count : Z;
  alive_count : Z
}.

(** [c++] on an [int]: the overflow is undefined. *)
Definition increment (c : Z) : option Z :=
  if (c <? F32.INT_MAX)%Z then Some (c + 1)%Z else None.

(** The body of the loop of [PrintSimulationStats]. *)
Definition PrintSimulationStats_step (state : GameState) (st : Stats)
    (i : EntityID) : option Stats :=
  if negb (alive state i) then Some st
  else
    alive_count' ← increment (alive_count st);
    let action : ActionType := current_action (actions state) !!! i in
    match action with
    | IDLE =>
        c ← increment (idle_count st);
        Some {| idle_count := c; move_count := move_count st;
                eat_count := eat_count st; sleep_count := sleep_count st;
                flee_count := flee_count st; attack_count := attack_count st;
                explore_count := explore_count st;
                alive_count := alive_count' |}
    | MOVE_TO_TARGET =>
        c ← increment (move_count st);
        Some {| idle_count := idle_count st; move_count := c;
                eat_count := eat_count st; sleep_count := sleep_count st;
                flee_count := flee_count st; attack_count := attack_count st;
                explore_count := explore_count st;
                alive_count := alive_count' |}
    | EAT =>
        c ← increment (eat_count st);
        Some {| idle_count := idle_count st; move_count := move_count st;
                eat_count := c; sleep_count := sleep_count st;
                flee_count := flee_count st; attack_count := attack_count st;
                explore_count := explore_count st;
                alive_count := alive_count' |}
    | SLEEP =>
        c ← increment (sleep_count st);
        Some {| idle_count := idle_count st; move_count := move_count st;
                eat_count := eat_count st; sleep_count := c;
                flee_count := flee_count st; attack_count := attack_count st;
                explore_count := explore_count st;
                alive_count := alive_count' |}
    | FLEE =>
        c ← increment (flee_count st);
        Some {| idle_count := idle_count st; move_count := move_count st;
                eat_count := eat_count st; sleep_count := sleep_count st;
                flee_count := c; attack_count := attack_count st;
                explore_count := explore_count st;
                alive_count := alive_count' |}
    | ATTACK =>
        c ← increment (attack_count st);
        Some {| idle_count := idle_count st; move_count := move_count st;
                eat_count := eat_count st; sleep_count := sleep_count st;
                flee_count := flee_count st; attack_count := c;
                explore_count := explore_count st;
                alive_count := alive_count' |}
    | EXPLORE =>
        c ← increment (explore_count st);
        Some {| idle_count := idle_count st; move_count := move_count st;
                eat_count := eat_count st; sleep_count := sleep_count st;
                flee_count := flee_count st; attack_count := attack_count st;
                explore_count := c;
                alive_count := alive_count' |}
    | COUNT =>
        Some {| idle_count := idle_count st; move_count := move_count st;
                eat_count := eat_count st; sleep_count := sleep_count st;
                flee_count := flee_count st; attack_count := attack_count st;
                explore_count := explore_count st;
                alive_count := alive_count' |}
    end.

(** [PrintSimulationStats], as the counters it prints. *)
Definition PrintSimulationStats (state : GameState) : option Stats :=
  foldM (PrintSimulationStats_step state) (entities state)
        {| idle_count := 0; move_count := 0; eat_count := 0;
           sleep_count := 0; flee_count := 0; attack_count := 0;
           explore_count := 0; alive_count := 0 |}.

(** Entity [i] is alive and holds action [a]. *)
Definition holds (s : GameState) (a : ActionType) (i : EntityID) : bool :=
  alive s i && bool_decide (current_action (actions s) !!! i = a).

(** The number of live entities that hold action [a], and the number of
    live entities. *)
Definition holders (s : GameState) (a : ActionType) : Z :=
  Z.of_nat (length (List.filter (holds s a) (entities s))).
Definition living (s : GameState) : Z :=
  Z.of_nat (length (List.filter (alive s) (entities s))).


(** Two live agents three units apart, in the same cell. *)
Definition cell_mates : GameState :=
  population [resting 500 500; resting 503 500].

(** [std::mt19937 rng] read through
    [std::uniform_real_distribution<float> dist(0.0f, 1.0f)]: a sequence of
    numbers and the position of the next one. *)
Record ChaosGen := {
  chaos_seq : nat -> float;
  chaos_pos : nat
}.

Definition dist (r : ChaosGen) : float * ChaosGen :=
  (chaos_seq r (chaos_pos r),
   {| chaos_seq := chaos_seq r; chaos_pos := S (chaos_pos r) |}).

Record ChaosMonkey := {
  rng : ChaosGen;
  corruption_probability : float;
  enabled : bool
}.

(** The body of the loop of [ChaosMonkey::MaybeCorrupt]. *)
Definition MaybeCorrupt_step (corruption_probability : float)
    (w : GameState * ChaosGen) (i : EntityID) : GameState * ChaosGen :=
  let '(state, r) := w in
  let '(d, r) := dist r in
  let state :=
    if (d <? corruption_probability)%f32
    then set_is_alive i false state else state in
  let '(d, r) := dist r in
  let '(state, r) :=
    if (d <? corruption_probability)%f32 then
      let '(x, r) := dist r in
      let state := set_position_x i (x * f1000)%f32 state in
      let '(y, r) := dist r in
      (set_position_y i (y * f1000)%f32 state, r)
    else (state, r) in
  let '(d, r) := dist r in
  if (d <? corruption_probability)%f32 then
    let '(h, r) := dist r in
    let state := set_hunger i h state in
    let '(e, r) := dist r in
    (set_energy i e state, r)
  else (state, r).

Definition ChaosMonkey_MaybeCorrupt (m : ChaosMonkey) (state : GameState)
  : GameState * ChaosMonkey :=
  if negb (enabled m) then (state, m)
  else
    let w :=
      fold_left (MaybeCorrupt_step (corruption_probability m))
                (entities state) (state, rng m) in
    (w.1, {| rng := w.2;
             corruption_probability := corruption_probability m;
             enabled := enabled m |}).

(** The states that differ from [s] in the alive flags, the first two
    coordinates of the positions, the hunger and the energy only. *)
Definition only_corrupted (s s' : GameState) : Prop :=
  s' = with_health
         {| health_value := health_value (health s);
            max_health := max_health (health s);
            armor_type := armor_type (health s);
            is_alive := is_alive (health s') |}
         (with_transforms
            {| position_x := position_x (transforms s');
               position_y := position_y (transforms s');
               position_z := position_z (transforms s);
               velocity_x := velocity_x (transforms s);
               velocity_y := velocity_y (transforms s);
               velocity_z := velocity_z (transforms s);
               orientation := orientation (transforms s) |}
            (with_needs
               {| hunger := hunger (needs s');
                  energy := energy (needs s');
                  safety := safety (needs s);
                  curiosity := curiosity (needs s) |} s)).


(** A generator that returns 1/4 and 3/4 in turn. *)
Definition example_chaos : ChaosGen :=
  {| chaos_seq := fun k => if Nat.even k then F32.dec 1 4 else F32.dec 3 4;
     chaos_pos := 0 |}.

(** An enabled monkey that corrupts with probability 1/2. *)
Definition example_monkey : ChaosMonkey :=
  {| rng := example_chaos; corruption_probability := F32.dec 1 2;
     enabled := true |}.

(** [hunter_and_prey] with other visible sets left from an earlier frame. *)
Definition hunter_and_prey_later : GameState :=
  with_stimulus_buffer {| visible_entities := [[1; 1; 1]; [0]] |}
    hunter_and_prey.


(** The curiosity that the needs system gives an agent out of the value
    [n] returned by [rand()]. *)
Definition fluctuated (delta_time : float) (curiosity : float) (n : N)
  : float :=
  F32.max f0
    (F32.min f1
       (curiosity
        + F32.of_int (Z.rem (Z.of_N n) 100 - 50) * F32.dec 1 1000
          * delta_time)%f32).

(** Two rested and curious agents. *)
Definition two_explorers : GameState :=
  population [with_drives f0 f1 f1 f1 (resting 500 500);
              with_drives f0 f1 f1 f1 (resting 700 700)].


(** Two live agents on the last row, at [x = 999] and at [x = 1], with
    [y = 1000]. *)
Definition corner_agents : GameState :=
  population [resting 999 1000; resting 1 1000].

(** The values of [atan2] at the points of the x axis: pi for a negative
    [x] and 0 for the others.  It stands for [atan2] in the examples with
    two agents on one row. *)
Definition atan2_on_axis (y x : float) : float :=
  if (x <? f0)%f32 then F64.to_f32 F64.M_PI else f0.

(** [border_agents] with an agent at [x = 999] that looks towards smaller
    [x] and sees as far as 2000. *)
Definition far_sighted_border_agents : GameState :=
  set_orientation 0 (F64.to_f32 F64.M_PI)
    (set_view_range 0 (F32.of_int 2000) border_agents).

(** * Properties *)

(** ** Facts on binary32 arithmetic *)

Section FloatFacts.
Local Open Scope Z_scope.

Lemma f1_eq : f1 = S754_finite false 8388608 (-23).
Proof. reflexivity. Qed.

Lemma ltb_leb x y : F32.ltb x y = true -> F32.leb x y = true.
Proof.
  unfold F32.ltb, F32.leb. destruct (F32.compare x y) as [[]|]; congruence.
Qed.

Lemma ltb_not_nan x y : F32.ltb x y = true -> F32.is_nan x = false.
Proof. destruct x; try reflexivity. discriminate. Qed.

(** A number that is neither NaN nor below zero is at least zero. *)
Lemma not_neg_leb x :
  F32.is_nan x = false -> F32.ltb x f0 = false -> F32.leb f0 x = true.
Proof. destruct x as [s|s| |s m e]; try destruct s; easy. Qed.

(** [max(lo, min(hi, x))] lies between [lo] and [hi] whatever [x] is, a
    NaN included. *)
Lemma clamp_range lo hi x :
  F32.leb lo lo = true -> F32.leb hi hi = true -> F32.leb lo hi = true ->
  F32.leb lo (F32.max lo (F32.min hi x)) = true
  /\ F32.leb (F32.max lo (F32.min hi x)) hi = true.
Proof.
  intros Hlo Hhi Hlh. unfold F32.max, F32.min.
  destruct (F32.ltb x hi) eqn:Hx.
  - destruct (F32.ltb lo x) eqn:Hl; auto using ltb_leb.
  - destruct (F32.ltb lo hi) eqn:Hl; auto using ltb_leb.
Qed.

(** The result of a rounding has the sign that was asked for. *)
Lemma binary_round_aux_pos m e l :
  F32.ltb (binary_round_aux F32.prec F32.emax false m e l) f0 = false.
Proof.
  unfold binary_round_aux.
  destruct (shr_fexp _ _ m e l) as [mrs' e'].
  destruct (shr_fexp _ _ _ e' loc_Exact) as [mrs'' e''].
  destruct (shr_m mrs''); [reflexivity| |reflexivity].
  destruct (e'' <=? _); reflexivity.
Qed.

Lemma binary_round_aux_neg m e l :
  F32.ltb f0 (binary_round_aux F32.prec F32.emax true m e l) = false.
Proof.
  unfold binary_round_aux.
  destruct (shr_fexp _ _ m e l) as [mrs' e'].
  destruct (shr_fexp _ _ _ e' loc_Exact) as [mrs'' e''].
  destruct (shr_m mrs''); [reflexivity| |reflexivity].
  destruct (e'' <=? _); reflexivity.
Qed.

Lemma binary_round_pos m e :
  F32.ltb (binary_round F32.prec F32.emax false m e) f0 = false.
Proof.
  unfold binary_round. destruct (shl_align _ _ _). apply binary_round_aux_pos.
Qed.

Lemma binary_round_neg m e :
  F32.ltb f0 (binary_round F32.prec F32.emax true m e) = false.
Proof.
  unfold binary_round. destruct (shl_align _ _ _). apply binary_round_aux_neg.
Qed.

(** A sum of two numbers that are not negative is not negative (it may be
    NaN when an operand is). *)
Lemma add_not_neg x c :
  F32.leb f0 x = true -> F32.ltb c f0 = false ->
  F32.ltb (x + c)%f32 f0 = false.
Proof.
  destruct x as [sx|sx| |sx mx ex], c as [sc|sc| |sc mc ec];
    try destruct sx; try destruct sc; try easy.
  intros _ _. unfold F32.add, SFadd. cbn [cond_Zopp].
  apply binary_round_pos.
Qed.

Lemma mul_not_neg k t :
  F32.leb f0 k = true -> F32.leb f0 t = true ->
  F32.ltb (k * t)%f32 f0 = false.
Proof.
  destruct k as [sk|sk| |sk mk ek], t as [st|st| |st mt et];
    try destruct sk; try destruct st; try easy.
  intros _ _. apply binary_round_aux_pos.
Qed.

Lemma digits2_pos_lower m : 2 ^ (Z.pos (digits2_pos m) - 1) <= Z.pos m.
Proof.
  induction m as [m IH|m IH|]; cbn [digits2_pos]; [| |simpl; lia].
  - rewrite Pos2Z.inj_succ. replace (Z.succ (Z.pos (digits2_pos m)) - 1) with (Z.succ (Z.pos (digits2_pos m) - 1)) by lia.
    rewrite Z.pow_succ_r by lia. lia.
  - rewrite Pos2Z.inj_succ. replace (Z.succ (Z.pos (digits2_pos m)) - 1) with (Z.succ (Z.pos (digits2_pos m) - 1)) by lia.
    rewrite Z.pow_succ_r by lia. lia.
Qed.

Lemma shr_1_spec mrs :
  0 <= shr_m mrs ->
  shr_m (shr_1 mrs) = shr_m mrs / 2
  /\ (exact mrs -> (2 | shr_m mrs) -> exact (shr_1 mrs)).
Proof.
  destruct mrs as [m r s]. cbn [shr_m]. intros Hm. unfold exact.
  destruct m as [|p|p]; [| |lia].
  - cbn. split; [reflexivity|]. intros [-> ->] _. auto.
  - destruct p as [p|p|]; cbn [shr_1 shr_m shr_r shr_s].
    + split. { rewrite Pos2Z.inj_xI. apply Z.div_unique with 1; lia. }
      intros _ [q Hq]. lia.
    + split. { rewrite Pos2Z.inj_xO. apply Z.div_unique with 0; lia. }
      intros [-> ->] _. auto.
    + split; [reflexivity|]. intros _ [q Hq]. lia.
Qed.

Lemma divide_pow_split a b m :
  0 <= a -> 0 <= b -> (2 ^ (a + b) | m) -> (2 ^ a | m) /\ (2 ^ b | m / 2 ^ a).
Proof.
  intros Ha Hb [q Hq]. rewrite Z.pow_add_r in Hq by lia.
  assert (0 < 2 ^ a) by (apply Z.pow_pos_nonneg; lia).
  split.
  - exists (q * 2 ^ b). lia.
  - exists q. replace m with (q * 2 ^ b * 2 ^ a) by lia.
    apply Z.div_mul. lia.
Qed.

Lemma pow2_xO p : 2 ^ Z.pos p~0 = 2 ^ Z.pos p * 2 ^ Z.pos p.
Proof. rewrite <- Z.pow_add_r by lia. f_equal. lia. Qed.

Lemma pow2_xI p : 2 ^ Z.pos p~1 = 2 * (2 ^ Z.pos p * 2 ^ Z.pos p).
Proof.
  rewrite <- Z.pow_add_r, <- Z.pow_succ_r by lia. f_equal. lia.
Qed.

Lemma iter_shr_1_spec p : forall mrs,
  0 <= shr_m mrs ->
  shr_m (SpecFloat.iter_pos shr_1 p mrs) = shr_m mrs / 2 ^ Z.pos p
  /\ (exact mrs -> (2 ^ Z.pos p | shr_m mrs) -> exact (SpecFloat.iter_pos shr_1 p mrs)).
Proof.
  induction p as [p IH|p IH|]; intros mrs Hm; cbn [SpecFloat.iter_pos].
  - destruct (shr_1_spec mrs Hm) as [H1 E1].
    assert (Hm1 : 0 <= shr_m (shr_1 mrs)) by (rewrite H1; apply Z.div_pos; lia).
    destruct (IH _ Hm1) as [H2 E2].
    assert (Hm2 : 0 <= shr_m (SpecFloat.iter_pos shr_1 p (shr_1 mrs))).
    { rewrite H2. apply Z.div_pos; [lia|]. apply Z.pow_pos_nonneg; lia. }
    destruct (IH _ Hm2) as [H3 E3].
    assert (Hpp : 0 < 2 ^ Z.pos p) by (apply Z.pow_pos_nonneg; lia).
    split.
    + rewrite H3, H2, H1. rewrite !Z.div_div by lia.
      f_equal. rewrite pow2_xI. lia.
    + intros Hex Hdiv.
      replace (Z.pos p~1) with (1 + (Z.pos p + Z.pos p)) in Hdiv by lia.
      apply divide_pow_split in Hdiv as [Hd1 Hd2]; [|lia..].
      change (2 ^ 1) with 2 in *.
      apply divide_pow_split in Hd2 as [Hd2 Hd3]; [|lia..].
      apply E3.
      * apply E2; [apply E1; assumption|]. rewrite H1. exact Hd2.
      * rewrite H2, H1. exact Hd3.
  - destruct (IH _ Hm) as [H2 E2].
    assert (Hm2 : 0 <= shr_m (SpecFloat.iter_pos shr_1 p mrs)).
    { rewrite H2. apply Z.div_pos; [lia|]. apply Z.pow_pos_nonneg; lia. }
    destruct (IH _ Hm2) as [H3 E3].
    assert (Hpp : 0 < 2 ^ Z.pos p) by (apply Z.pow_pos_nonneg; lia).
    split.
    + rewrite H3, H2. rewrite !Z.div_div by lia.
      f_equal. rewrite pow2_xO. lia.
    + intros Hex Hdiv.
      replace (Z.pos p~0) with (Z.pos p + Z.pos p) in Hdiv by lia.
      apply divide_pow_split in Hdiv as [Hd2 Hd3]; [|lia..].
      apply E3.
      * apply E2; assumption.
      * rewrite H2. exact Hd3.
  - destruct (shr_1_spec mrs Hm) as [H1 E1]. split.
    + rewrite H1. reflexivity.
    + intros Hex Hdiv. apply E1; assumption.
Qed.

Lemma Zdigits2_le_one m e : 0 <= m -> le_one m e -> Zdigits2 m + e <= 1.
Proof.
  intros Hm [He Hle]. destruct m as [|p|p]; [simpl; lia| |lia].
  cbn [Zdigits2]. pose proof (digits2_pos_lower p) as Hd.
  assert (Hp : 2 ^ (Z.pos (digits2_pos p) - 1) <= 2 ^ (- e)) by lia.
  apply Z.pow_le_mono_r_iff in Hp; lia.
Qed.

Lemma fexp_le_one d : d <= 1 -> fexp F32.prec F32.emax d <= -23.
Proof. unfold fexp, emin, F32.prec, F32.emax. lia. Qed.

Lemma pow2_split a b : 0 <= a -> 0 <= b -> 2 ^ (a + b) = 2 ^ a * 2 ^ b.
Proof. intros. apply Z.pow_add_r; lia. Qed.

Lemma shr_le_one mrs e n :
  0 <= shr_m mrs -> le_one (shr_m mrs) e -> e + n <= 0 ->
  0 <= shr_m (shr mrs e n).1
  /\ le_one (shr_m (shr mrs e n).1) (shr mrs e n).2
  /\ (exact mrs ->
      exact (shr mrs e n).1
      \/ shr_m (shr mrs e n).1 < 2 ^ (- (shr mrs e n).2)).
Proof.
  intros Hm [He Hle] Hn. destruct n as [|p|p]; cbn [shr fst snd];
    [unfold le_one; auto| |unfold le_one; auto].
  destruct (iter_shr_1_spec p mrs Hm) as [Hv Hex]. rewrite Hv.
  assert (Hpp : 0 < 2 ^ Z.pos p) by (apply Z.pow_pos_nonneg; lia).
  assert (Hsplit : 2 ^ (- e) = 2 ^ (- (e + Z.pos p)) * 2 ^ Z.pos p).
  { rewrite <- pow2_split by lia. f_equal. lia. }
  assert (Hq : 0 < 2 ^ (- (e + Z.pos p))) by (apply Z.pow_pos_nonneg; lia).
  split; [apply Z.div_pos; lia|]. split.
  - split; [lia|]. apply Z.div_le_upper_bound; lia.
  - intros Hexact.
    destruct (Z.eq_dec (shr_m mrs mod 2 ^ Z.pos p) 0) as [Hz|Hnz].
    + left. apply Hex; [assumption|]. apply Z.mod_divide; lia.
    + right. apply Z.div_lt_upper_bound; [lia|].
      pose proof (Z.mod_pos_bound (shr_m mrs) (2 ^ Z.pos p) Hpp).
      destruct (Z.eq_dec (shr_m mrs) (2 ^ (- e))) as [Heq|Hne]; [|lia].
      exfalso. apply Hnz. rewrite Heq, Hsplit. apply Z.mod_mul. lia.
Qed.

Lemma round_nearest_even_bounds m l :
  m <= round_nearest_even m l <= m + 1
  /\ (l = loc_Exact -> round_nearest_even m l = m).
Proof.
  destruct l as [|[]]; cbn [round_nearest_even];
    try destruct (Z.even m); split; try lia; try reflexivity; discriminate.
Qed.

Lemma loc_of_exact mrs : exact mrs -> loc_of_shr_record mrs = loc_Exact.
Proof. destruct mrs as [m r s]. intros [Hr Hs]. cbn in *. subst. reflexivity. Qed.

Lemma exact_of_loc m : exact (shr_record_of_loc m loc_Exact).
Proof. split; reflexivity. Qed.

(** Rounding a positive number that is at most one gives zero or a
    positive number that is at most one. *)
Lemma binary_round_aux_le_one m e :
  0 <= m -> le_one m e ->
  match binary_round_aux F32.prec F32.emax false m e loc_Exact with
  | S754_zero _ => True
  | S754_finite false m' e' => le_one (Z.pos m') e'
  | _ => False
  end.
Proof.
  intros Hm Hle. unfold binary_round_aux, shr_fexp.
  set (n1 := fexp F32.prec F32.emax (Zdigits2 m + e) - e).
  assert (Hn1 : e + n1 <= 0).
  { pose proof (fexp_le_one _ (Zdigits2_le_one m e Hm Hle)). lia. }
  pose proof (shr_le_one (shr_record_of_loc m loc_Exact) e n1) as H1.
  cbn [shr_record_of_loc shr_m] in H1. specialize (H1 Hm Hle Hn1).
  change {| shr_m := m; shr_r := false; shr_s := false |}
    with (shr_record_of_loc m loc_Exact) in H1.
  destruct (shr (shr_record_of_loc m loc_Exact) e n1) as [mrs1 e1].
  cbn [fst snd] in H1. destruct H1 as (Hm1 & Hle1 & Hex1).
  specialize (Hex1 (exact_of_loc m)).
  set (m2 := round_nearest_even (shr_m mrs1) (loc_of_shr_record mrs1)).
  assert (Hm2 : 0 <= m2 /\ le_one m2 e1).
  { destruct (round_nearest_even_bounds (shr_m mrs1)
                (loc_of_shr_record mrs1)) as [Hb Hx].
    fold m2 in Hb, Hx. destruct Hle1 as [He1 Hle1].
    split; [lia|]. split; [assumption|].
    destruct Hex1 as [Hex1|Hlt]; [|lia].
    rewrite (Hx (loc_of_exact _ Hex1)). assumption. }
  destruct Hm2 as [Hm2 Hle2].
  set (n2 := fexp F32.prec F32.emax (Zdigits2 m2 + e1) - e1).
  assert (Hn2 : e1 + n2 <= 0).
  { pose proof (fexp_le_one _ (Zdigits2_le_one m2 e1 Hm2 Hle2)). lia. }
  pose proof (shr_le_one (shr_record_of_loc m2 loc_Exact) e1 n2) as H2.
  cbn [shr_record_of_loc shr_m] in H2. specialize (H2 Hm2 Hle2 Hn2).
  change {| shr_m := m2; shr_r := false; shr_s := false |}
    with (shr_record_of_loc m2 loc_Exact) in H2.
  destruct (shr (shr_record_of_loc m2 loc_Exact) e1 n2) as [mrs3 e3].
  cbn [fst snd] in H2. destruct H2 as (Hm3 & Hle3 & _).
  destruct (shr_m mrs3) as [|p|p]; [exact I| |lia].
  destruct Hle3 as [He3 Hle3].
  replace (e3 <=? F32.emax - F32.prec) with true; [split; assumption|].
  symmetry. apply Z.leb_le. unfold F32.emax, F32.prec. lia.
Qed.

Lemma iter_xO_value d m : Z.pos (Pos.iter xO m d) = Z.pos m * 2 ^ Z.pos d.
Proof.
  induction d as [|d IH] using Pos.peano_ind.
  - cbn [Pos.iter]. rewrite Pos2Z.inj_xO. change (2 ^ 1) with 2. lia.
  - rewrite Pos.iter_succ, Pos2Z.inj_xO, IH, Pos2Z.inj_succ.
    rewrite Z.pow_succ_r by lia. lia.
Qed.

(** [shl_align] rewrites [m * 2^e] on a smaller exponent. *)
Lemma shl_align_value m e e' :
  Z.pos (shl_align m e e').1 = Z.pos m * 2 ^ (e - (shl_align m e e').2)
  /\ (shl_align m e e').2 <= e
  /\ (e' <= e -> (shl_align m e e').2 = e').
Proof.
  unfold shl_align. destruct (e' - e) as [|d|d] eqn:Hd; cbn [fst snd].
  - rewrite Z.sub_diag. change (2 ^ 0) with 1. lia.
  - rewrite Z.sub_diag. change (2 ^ 0) with 1. lia.
  - rewrite iter_xO_value. replace (e - e') with (Z.pos d) by lia. lia.
Qed.

Lemma shl_align_le_one m e e' :
  le_one (Z.pos m) e ->
  le_one (Z.pos (shl_align m e e').1) (shl_align m e e').2.
Proof.
  intros [He Hle]. destruct (shl_align_value m e e') as (Hv & Hs & _).
  split; [lia|]. rewrite Hv.
  replace (- (shl_align m e e').2) with (- e + (e - (shl_align m e e').2))
    by lia.
  rewrite pow2_split by lia.
  apply Z.mul_le_mono_nonneg_r; [|assumption].
  apply Z.pow_nonneg. lia.
Qed.

Lemma binary_round_le_one m e :
  le_one (Z.pos m) e ->
  match binary_round F32.prec F32.emax false m e with
  | S754_zero _ => True
  | S754_finite false m' e' => le_one (Z.pos m') e'
  | _ => False
  end.
Proof.
  intros Hle. unfold binary_round.
  pose proof (shl_align_le_one m e
                (fexp F32.prec F32.emax (Z.pos (digits2_pos m) + e)) Hle)
    as H.
  destruct (shl_align _ _ _) as [mz ez]. cbn [fst snd] in H.
  apply binary_round_aux_le_one; [lia|assumption].
Qed.

(** The comparison with [1.0f] read on mantissa and exponent. *)
Lemma leb_f1_le_one m e :
  F32.leb (S754_finite false m e) f1 = true <-> le_one (Z.pos m) e.
Proof.
  unfold F32.leb, le_one. rewrite f1_eq. cbn [F32.compare].
  unfold F32.cmp_mag. change (Z.pos 8388608) with (2 ^ 23).
  set (ez := Z.min e (-23)).
  assert (Hez : ez <= e /\ ez <= -23) by (unfold ez; lia).
  assert (H23 : 2 ^ 23 * 2 ^ (-23 - ez) = 2 ^ (- ez)).
  { rewrite <- pow2_split by lia. f_equal. lia. }
  rewrite H23.
  assert (Hp : 0 < 2 ^ (e - ez)) by (apply Z.pow_pos_nonneg; lia).
  destruct (Z.compare_spec (Z.pos m * 2 ^ (e - ez)) (2 ^ (- ez)))
    as [Hc|Hc|Hc].
  - split; [intros _|reflexivity].
    assert (He : e <= 0).
    { destruct (Z_le_gt_dec e 0) as [|Hgt]; [assumption|exfalso].
      assert (2 ^ (- ez) < 2 ^ (e - ez))
        by (apply Z.pow_lt_mono_r; lia). nia. }
    split; [assumption|].
    replace (- ez) with (- e + (e - ez)) in Hc by lia.
    rewrite pow2_split in Hc by lia. nia.
  - split; [intros _|reflexivity].
    assert (He : e <= 0).
    { destruct (Z_le_gt_dec e 0) as [|Hgt]; [assumption|exfalso].
      assert (2 ^ (- ez) < 2 ^ (e - ez))
        by (apply Z.pow_lt_mono_r; lia). nia. }
    split; [assumption|].
    replace (- ez) with (- e + (e - ez)) in Hc by lia.
    rewrite pow2_split in Hc by lia. nia.
  - split; [discriminate|]. intros [He Hle]. exfalso.
    replace (- ez) with (- e + (e - ez)) in Hc by lia.
    rewrite pow2_split in Hc by lia. nia.
Qed.

Lemma le_one_leb x :
  match x with
  | S754_zero _ => True
  | S754_finite false m e => le_one (Z.pos m) e
  | _ => False
  end -> F32.leb x f1 = true.
Proof.
  destruct x as [s|s| |s m e]; try easy.
  destruct s; [easy|]. apply leb_f1_le_one.
Qed.

(** Taking a number that is not negative away from a number of [0, 1]
    never gives more than one. *)
Lemma sub_le_one x c :
  F32.leb f0 x = true -> F32.leb x f1 = true -> F32.ltb c f0 = false ->
  F32.ltb f0 (x - c)%f32 = true -> F32.leb (x - c)%f32 f1 = true.
Proof.
  intros H0 H1 Hc Hpos.
  destruct x as [sx|sx| |sx mx ex]; [| destruct sx; discriminate
                                     | discriminate |].
  - destruct c as [sc|sc| |sc mc ec]; try destruct sx; try destruct sc;
      try discriminate.
  - destruct sx; [discriminate|].
    destruct c as [sc|sc| |sc mc ec]; try destruct sc; try discriminate;
      try assumption.
    apply leb_f1_le_one in H1.
    unfold F32.sub, SFsub in *. cbn [cond_Zopp] in *.
    set (ez := Z.min ex ec) in *.
    destruct (shl_align_value mx ex ez) as (Hvx & _ & _).
    destruct (shl_align_value mc ec ez) as (Hvc & _ & _).
    set (ax := Z.pos (shl_align mx ex ez).1) in *.
    set (ac := Z.pos (shl_align mc ec ez).1) in *.
    pose proof (shl_align_le_one mx ex ez H1) as Hx.
    assert (Hez : (shl_align mx ex ez).2 = ez).
    { apply shl_align_value. unfold ez. lia. }
    rewrite Hez in Hx. fold ax in Hx.
    destruct (ax - ac) as [|d|d] eqn:Hd; cbn [binary_normalize] in *.
    + discriminate.
    + apply le_one_leb, binary_round_le_one.
      destruct Hx as [He Hx]. split; [assumption|]. unfold ac in Hd. lia.
    + rewrite binary_round_neg in Hpos. discriminate.
Qed.
End FloatFacts.


Arguments F32.add : simpl never.
Arguments F32.sub : simpl never.
Arguments F32.mul : simpl never.
Arguments F32.div : simpl never.
Arguments F32.sqrt : simpl never.
Arguments F32.ltb : simpl never.
Arguments F32.leb : simpl never.
Arguments F32.gtb : simpl never.
Arguments F32.min : simpl never.
Arguments F32.max : simpl never.
Arguments F32.of_int : simpl never.
Arguments F32.dec : simpl never.

(** ** Loops and arrays *)

Lemma fold_left_invariant {S A : Type} (P : S -> Prop) (f : S -> A -> S)
    (l : list A) (s : S) :
  P s -> (forall s a, a ∈ l -> P s -> P (f s a)) -> P (fold_left f l s).
Proof.
  revert s. induction l as [|a l IH]; intros s Hs Hf; [exact Hs|].
  cbn [fold_left]. apply IH.
  - apply Hf; [left|exact Hs].
  - intros s' a' Ha'. apply Hf. right. exact Ha'.
Qed.

Lemma foldM_invariant {S A : Type} (P : S -> Prop) (f : S -> A -> option S)
    (l : list A) (s s' : S) :
  P s -> (forall s a s', a ∈ l -> P s -> f s a = Some s' -> P s') ->
  foldM f l s = Some s' -> P s'.
Proof.
  revert s. induction l as [|a l IH]; intros s Hs Hf Hrun; cbn [foldM] in Hrun.
  - congruence.
  - destruct (f s a) as [s1|] eqn:Hstep; [|discriminate]. cbn in Hrun.
    apply (IH s1); [|intros s2 a' s3 Ha'; apply Hf; right; exact Ha'|exact Hrun].
    apply (Hf s a); [left|exact Hs|exact Hstep].
Qed.

(** What holds of an element of an array and of the value written holds of
    the element after the write, in range or not. *)
Lemma lookup_total_insert_elim {A : Type} `{!Inhabited A} (P : A -> Prop)
    (l : list A) (i j : nat) (v : A) :
  P (l !!! j) -> P v -> P (<[i:=v]> l !!! j).
Proof.
  intros Hl Hv. destruct (decide (i < length l)) as [Hlt|Hge].
  - destruct (decide (i = j)) as [->|Hne].
    + rewrite list_lookup_total_insert_eq by exact Hlt. exact Hv.
    + rewrite list_lookup_total_insert_ne by exact Hne. exact Hl.
  - rewrite list_insert_ge by lia. exact Hl.
Qed.

Lemma lookup_total_insert_other {A : Type} `{!Inhabited A}
    (l : list A) (i j : nat) (v : A) :
  i ≠ j -> <[i:=v]> l !!! j = l !!! j.
Proof. apply list_lookup_total_insert_ne. Qed.

(** ** What each system leaves alone *)

Lemma only_transforms_refl s : only_transforms s s.
Proof. unfold only_transforms. destruct s; reflexivity. Qed.
Lemma only_needs_refl s : only_needs s s.
Proof. unfold only_needs. destruct s; reflexivity. Qed.
Lemma only_actions_refl s : only_actions s s.
Proof. unfold only_actions. destruct s; reflexivity. Qed.

Lemma only_transforms_with s s' t :
  only_transforms s s' -> only_transforms s (with_transforms t s').
Proof. unfold only_transforms. intros ->. reflexivity. Qed.
Lemma only_needs_with s s' n :
  only_needs s s' -> only_needs s (with_needs n s').
Proof. unfold only_needs. intros ->. reflexivity. Qed.
Lemma only_actions_with s s' a :
  only_actions s s' -> only_actions s (with_actions a s').
Proof. unfold only_actions. intros ->. reflexivity. Qed.

Lemma only_transforms_trans s1 s2 s3 :
  only_transforms s1 s2 -> only_transforms s2 s3 -> only_transforms s1 s3.
Proof. unfold only_transforms. intros H12 H23. rewrite H23, H12. reflexivity. Qed.
Lemma only_needs_trans s1 s2 s3 :
  only_needs s1 s2 -> only_needs s2 s3 -> only_needs s1 s3.
Proof. unfold only_needs. intros H12 H23. rewrite H23, H12. reflexivity. Qed.
Lemma only_actions_trans s1 s2 s3 :
  only_actions s1 s2 -> only_actions s2 s3 -> only_actions s1 s3.
Proof. unfold only_actions. intros H12 H23. rewrite H23, H12. reflexivity. Qed.

Lemma only_perceived_refl s : only_perceived s s.
Proof. unfold only_perceived. destruct s as [? ? [] ? ? ? ? ?]; reflexivity. Qed.
Lemma only_perceived_trans s1 s2 s3 :
  only_perceived s1 s2 -> only_perceived s2 s3 -> only_perceived s1 s3.
Proof.
  unfold only_perceived. intros H12 H23. rewrite H23, H12. reflexivity.
Qed.
Lemma only_perceived_grid s s' g :
  only_perceived s s' -> only_perceived s (with_spatial_grid g s').
Proof. unfold only_perceived. intros ->. reflexivity. Qed.
Lemma only_perceived_stimulus s s' b :
  only_perceived s s' -> only_perceived s (with_stimulus_buffer b s').
Proof. unfold only_perceived. intros ->. reflexivity. Qed.
Lemma only_perceived_count s s' i n :
  only_perceived s s' -> only_perceived s (set_visible_entity_count i n s').
Proof. unfold only_perceived. intros ->. reflexivity. Qed.

Ltac only_writes :=
  repeat first
    [ apply only_transforms_refl | apply only_needs_refl
    | apply only_actions_refl
    | apply only_transforms_with | apply only_needs_with
    | apply only_actions_with ].

Section FrameConditions.
Variable atan2 : float -> float -> float.

Lemma apply_movement_only dt s i :
  only_transforms s (apply_movement atan2 dt s i).
Proof. unfold apply_movement. repeat case_match; only_writes. Qed.

Lemma clamp_speed_only s i : only_transforms s (clamp_speed s i).
Proof. unfold clamp_speed. repeat case_match; only_writes. Qed.

Lemma integrate_position_only dt s i :
  only_transforms s (integrate_position dt s i).
Proof. unfold integrate_position. only_writes. Qed.

Lemma world_bounds_only s i : only_transforms s (world_bounds s i).
Proof. unfold world_bounds. only_writes. Qed.

Lemma KineticSystem_step_only dt s i :
  only_transforms s (KineticSystem_step atan2 dt s i).
Proof.
  unfold KineticSystem_step. destruct (negb (alive s i)).
  - apply only_transforms_refl.
  - eapply only_transforms_trans; [|apply world_bounds_only].
    eapply only_transforms_trans; [|apply integrate_position_only].
    eapply only_transforms_trans; [|apply clamp_speed_only].
    apply apply_movement_only.
Qed.

Lemma KineticSystem_Update_only s dt :
  only_transforms s (KineticSystem_Update atan2 s dt).
Proof.
  unfold KineticSystem_Update.
  apply (fold_left_invariant (only_transforms s)).
  - apply only_transforms_refl.
  - intros s' i _ H. eapply only_transforms_trans; [exact H|].
    apply KineticSystem_step_only.
Qed.

Lemma set_target_only a w i :
  only_actions w.1 (set_target a w i).1
  /\ rand_seq (set_target a w i).2 = rand_seq w.2.
Proof.
  destruct w as [s r]. unfold set_target, rand.
  destruct a, (visible_entities (stimulus_buffer s) !!! i);
    cbn [fst snd rand_seq]; split; first [reflexivity | only_writes].
Qed.

Lemma UtilitySystem_step_only w i :
  only_actions w.1 (UtilitySystem_step w i).1
  /\ rand_seq (UtilitySystem_step w i).2 = rand_seq w.2.
Proof.
  destruct w as [s r]. unfold UtilitySystem_step.
  destruct (negb (alive s i)); [split; [apply only_actions_refl|reflexivity]|].
  destruct (decide_action s i) as [u a].
  destruct (set_target_only a
              (set_action_utility i u (set_current_action i a s), r) i)
    as [Hs Hr].
  split; [|exact Hr].
  eapply only_actions_trans; [|exact Hs]. cbn [fst]. only_writes.
Qed.

Lemma UtilitySystem_Update_only w dt :
  only_actions w.1 (UtilitySystem_Update w dt).1
  /\ rand_seq (UtilitySystem_Update w dt).2 = rand_seq w.2.
Proof.
  unfold UtilitySystem_Update.
  apply (fold_left_invariant
           (fun w' => only_actions w.1 w'.1 /\ rand_seq w'.2 = rand_seq w.2)).
  - split; [apply only_actions_refl|reflexivity].
  - intros w' i _ [Hs Hr].
    destruct (UtilitySystem_step_only w' i) as [Hs' Hr'].
    split; [eapply only_actions_trans; eassumption|congruence].
Qed.

Lemma NeedsSystem_step_only dt w i :
  only_needs w.1 (NeedsSystem_step dt w i).1
  /\ rand_seq (NeedsSystem_step dt w i).2 = rand_seq w.2.
Proof.
  destruct w as [s r]. unfold NeedsSystem_step.
  destruct (negb (alive s i)); [split; [apply only_needs_refl|reflexivity]|].
  cbn [rand fst snd rand_seq]. split; [|reflexivity].
  unfold curiosity_fluctuates, safety_changes, eating_reduces_hunger,
    energy_changes, hunger_rises.
  repeat case_match; only_writes.
Qed.

Lemma NeedsSystem_Update_only w dt :
  only_needs w.1 (NeedsSystem_Update w dt).1
  /\ rand_seq (NeedsSystem_Update w dt).2 = rand_seq w.2.
Proof.
  unfold NeedsSystem_Update.
  apply (fold_left_invariant
           (fun w' => only_needs w.1 w'.1 /\ rand_seq w'.2 = rand_seq w.2)).
  - split; [apply only_needs_refl|reflexivity].
  - intros w' i _ [Hs Hr].
    destruct (NeedsSystem_step_only dt w' i) as [Hs' Hr'].
    split; [eapply only_needs_trans; eassumption|congruence].
Qed.

Lemma observe_only fuel s o s' :
  observe atan2 fuel s o = Some s' -> only_perceived s s'.
Proof.
  unfold observe. intros H.
  destruct (negb (alive s o));
    [injection H as Hs; subst s'; apply only_perceived_refl|].
  destruct (cell_index (position_x (transforms s) !!! o)) as [gx|];
    cbn [mbind option_bind] in H; [|discriminate].
  destruct (cell_index (position_y (transforms s) !!! o)) as [gy|];
    cbn [mbind option_bind] in H; [|discriminate].
  destruct (_ || _); [discriminate|].
  destruct (foldM _ _ _) as [seen|]; cbn [mbind option_bind] in H;
    [|discriminate].
  injection H as Hs. subst s'.
  apply only_perceived_count. unfold set_visible_entities.
  apply only_perceived_stimulus, only_perceived_refl.
Qed.

Lemma PerceptionSystem_Update_only fuel s dt s' :
  PerceptionSystem_Update atan2 fuel s dt = Some s' -> only_perceived s s'.
Proof.
  unfold PerceptionSystem_Update. intros H.
  destruct (rebuild_grid s) as [g|]; cbn [mbind option_bind] in H;
    [|discriminate].
  revert H. apply foldM_invariant.
  - apply only_perceived_stimulus, only_perceived_grid, only_perceived_refl.
  - intros s1 o s2 _ H1 H2. eapply only_perceived_trans; [exact H1|].
    eapply observe_only. exact H2.
Qed.
End FrameConditions.

(** ** Bounds of the needs and of the positions *)

Lemma between_refl_f0 : between f0 f1 f0 /\ between f0 f1000 f0.
Proof. repeat split; reflexivity. Qed.

Lemma clamp_between lo hi x :
  between lo hi lo -> between lo hi hi ->
  between lo hi (F32.max lo (F32.min hi x)).
Proof.
  intros [Hll Hlh] [_ Hhh]. apply clamp_range; assumption.
Qed.

Lemma min_one_add x c :
  unit_interval x -> F32.ltb c f0 = false ->
  unit_interval (F32.min f1 (x + c)%f32).
Proof.
  intros [H0 H1] Hc. unfold F32.min.
  destruct (F32.ltb (x + c)%f32 f1) eqn:Hlt; [|split; reflexivity].
  split; [|apply ltb_leb; exact Hlt].
  apply not_neg_leb; [eapply ltb_not_nan; exact Hlt|].
  apply add_not_neg; assumption.
Qed.

Lemma max_zero_sub x c :
  unit_interval x -> F32.ltb c f0 = false ->
  unit_interval (F32.max f0 (x - c)%f32).
Proof.
  intros [H0 H1] Hc. unfold F32.max.
  destruct (F32.ltb f0 (x - c)%f32) eqn:Hlt; [|split; reflexivity].
  split; [apply ltb_leb; exact Hlt|].
  apply sub_le_one; assumption.
Qed.

Lemma rate_not_neg n d dt :
  F32.leb f0 (F32.dec n d) = true -> F32.leb f0 dt = true ->
  F32.ltb (F32.dec n d * dt)%f32 f0 = false.
Proof. apply mul_not_neg. Qed.

Section Bounds.
Variable atan2 : float -> float -> float.
Variable delta_time : float.
Hypothesis delta_time_not_negative : F32.leb f0 delta_time = true.

Ltac rate := apply rate_not_neg; [reflexivity|exact delta_time_not_negative].

(** The six parts of [agent_in_bounds] after a write: a part that was not
    written is as before, a written part is left to the caller. *)
Ltac six_parts H i j :=
  destruct (H j) as (?Hh & ?He & ?Hs & ?Hc & ?Hx & ?Hy);
  destruct (H i) as (?Hh & ?He & ?Hs & ?Hc & ?Hx & ?Hy);
  unfold agent_in_bounds;
  (split; [|split; [|split; [|split; [|split]]]]);
  cbn; try assumption;
  apply lookup_total_insert_elim; try assumption.

Lemma hunger_rises_bounds s i :
  all_in_bounds s -> all_in_bounds (hunger_rises delta_time s i).
Proof. intros H j. six_parts H i j. apply min_one_add; [assumption|rate]. Qed.

Lemma energy_changes_bounds action s i :
  all_in_bounds s -> all_in_bounds (energy_changes delta_time action s i).
Proof.
  intros H j. destruct action; six_parts H i j;
    first [apply min_one_add|apply max_zero_sub]; first [assumption|rate].
Qed.

Lemma eating_reduces_hunger_bounds action s i :
  all_in_bounds s ->
  all_in_bounds (eating_reduces_hunger delta_time action s i).
Proof.
  intros H j. destruct action; try apply H. six_parts H i j.
  apply max_zero_sub; [assumption|rate].
Qed.

Lemma safety_changes_bounds s i :
  all_in_bounds s -> all_in_bounds (safety_changes delta_time s i).
Proof.
  intros H j. unfold safety_changes. case_match; six_parts H i j;
    first [apply min_one_add|apply max_zero_sub]; first [assumption|rate].
Qed.

Lemma curiosity_fluctuates_bounds n s i :
  all_in_bounds s -> all_in_bounds (curiosity_fluctuates delta_time n s i).
Proof.
  intros H j. destruct (H j) as (Hh & He & Hs & Hc & Hx & Hy).
  unfold agent_in_bounds, curiosity_fluctuates. cbn.
  rewrite list_insert_insert_eq.
  split; [|split; [|split; [|split; [|split]]]]; try assumption.
  apply lookup_total_insert_elim; [assumption|].
  apply clamp_between; split; reflexivity.
Qed.

Lemma NeedsSystem_step_bounds w i :
  all_in_bounds w.1 -> all_in_bounds (NeedsSystem_step delta_time w i).1.
Proof.
  destruct w as [s r]. cbn [fst]. intros H. unfold NeedsSystem_step.
  destruct (negb (alive s i)); [exact H|]. cbn [rand fst].
  apply curiosity_fluctuates_bounds, safety_changes_bounds,
    eating_reduces_hunger_bounds, energy_changes_bounds,
    hunger_rises_bounds, H.
Qed.

Lemma NeedsSystem_Update_bounds w :
  all_in_bounds w.1 -> all_in_bounds (NeedsSystem_Update w delta_time).1.
Proof.
  intros H. unfold NeedsSystem_Update.
  apply (fold_left_invariant (fun w => all_in_bounds w.1)); [exact H|].
  intros w' i _. apply NeedsSystem_step_bounds.
Qed.

Lemma all_in_bounds_ext s s' :
  needs s' = needs s -> transforms s' = transforms s ->
  all_in_bounds s -> all_in_bounds s'.
Proof.
  intros Hn Ht H j. unfold agent_in_bounds. rewrite Hn, Ht. apply H.
Qed.

Lemma world_bounds_bounds s0 s i :
  only_transforms s0 s -> all_in_bounds s0 ->
  position_x (transforms s) = <[i:=position_x (transforms s) !!! i]>
                                (position_x (transforms s0)) ->
  position_y (transforms s) = <[i:=position_y (transforms s) !!! i]>
                                (position_y (transforms s0)) ->
  all_in_bounds (world_bounds s i).
Proof.
  intros Hs H Hx Hy j. destruct (H j) as (Hh & He & Hsf & Hc & Hpx & Hpy).
  unfold agent_in_bounds, world_bounds. rewrite Hs in *. cbn in *.
  rewrite Hx, Hy, !list_insert_insert_eq.
  split; [|split; [|split; [|split; [|split]]]]; try assumption;
    (apply lookup_total_insert_elim; [assumption|]);
    apply clamp_between; split; reflexivity.
Qed.

Lemma insert_lookup_total_id {A : Type} `{!Inhabited A} (l : list A) i v :
  <[i:=v]> l = <[i:=(<[i:=v]> l) !!! i]> l.
Proof.
  destruct (decide (i < length l)) as [Hlt|Hge].
  - rewrite list_lookup_total_insert_eq by exact Hlt. reflexivity.
  - rewrite !list_insert_ge by lia. reflexivity.
Qed.

Lemma KineticSystem_step_bounds s i :
  all_in_bounds s -> all_in_bounds (KineticSystem_step atan2 delta_time s i).
Proof.
  intros H. unfold KineticSystem_step.
  destruct (negb (alive s i)); [exact H|].
  pose proof (apply_movement_only atan2 delta_time s i) as H1.
  set (s1 := apply_movement atan2 delta_time s i) in *.
  pose proof (clamp_speed_only s1 i) as H2.
  set (s2 := clamp_speed s1 i) in *.
  assert (H12 : only_transforms s s2)
    by (eapply only_transforms_trans; eassumption).
  assert (Hpx : position_x (transforms s2) = position_x (transforms s)
                /\ position_y (transforms s2) = position_y (transforms s)).
  { subst s2 s1. unfold clamp_speed, apply_movement.
    repeat case_match; split; reflexivity. }
  destruct Hpx as [Hpx Hpy].
  apply (world_bounds_bounds s).
  - eapply only_transforms_trans; [exact H12|].
    apply integrate_position_only.
  - exact H.
  - cbn. rewrite Hpx. apply insert_lookup_total_id.
  - cbn. rewrite Hpy. apply insert_lookup_total_id.
Qed.

Lemma KineticSystem_Update_bounds s :
  all_in_bounds s -> all_in_bounds (KineticSystem_Update atan2 s delta_time).
Proof.
  intros H. unfold KineticSystem_Update.
  apply (fold_left_invariant all_in_bounds); [exact H|].
  intros s' i _. apply KineticSystem_step_bounds.
Qed.

Lemma Frame_bounds fuel w w' :
  Frame atan2 fuel w delta_time = Some w' ->
  all_in_bounds w.1 -> all_in_bounds w'.1.
Proof.
  unfold Frame. intros Hrun H.
  destruct (PerceptionSystem_Update atan2 fuel w.1 delta_time) as [s1|] eqn:Hp;
    [|discriminate].
  cbn in Hrun. injection Hrun as <-.
  apply PerceptionSystem_Update_only in Hp.
  apply NeedsSystem_Update_bounds. cbn [fst].
  apply KineticSystem_Update_bounds.
  destruct (UtilitySystem_Update_only (s1, w.2) delta_time) as [Hu _].
  cbn [fst] in Hu.
  apply (all_in_bounds_ext s1); [rewrite Hu; reflexivity..|].
  apply (all_in_bounds_ext w.1); [rewrite Hp; reflexivity..|exact H].
Qed.

Lemma Frames_bounds fuel frames : forall w w',
  Frames atan2 fuel frames w delta_time = Some w' ->
  all_in_bounds w.1 -> all_in_bounds w'.1.
Proof.
  induction frames as [|n IH]; intros w w' Hrun H; cbn [Frames] in Hrun.
  - injection Hrun as <-. exact H.
  - destruct (Frame atan2 fuel w delta_time) as [w1|] eqn:Hf; [|discriminate].
    cbn in Hrun. eapply IH; [exact Hrun|].
    eapply Frame_bounds; eassumption.
Qed.

Lemma resize_nil_lookup (P : float -> Prop) count j :
  P f0 -> P (resize count f0 [] !!! j).
Proof.
  intros H. unfold resize. rewrite take_nil, app_nil_l. cbn [length].
  rewrite Nat.sub_0_r.
  destruct (decide (j < count)) as [Hlt|Hge].
  - rewrite lookup_total_replicate_2 by exact Hlt. exact H.
  - rewrite list_lookup_total_alt, lookup_ge_None_2
      by (rewrite length_replicate; lia).
    exact H.
Qed.

Lemma InitializeEntities_bounds count draws :
  (forall i, i < count -> draws_in_range (draws i)) ->
  all_in_bounds (InitializeEntities count draws).
Proof.
  intros Hd. unfold InitializeEntities.
  apply (fold_left_invariant all_in_bounds).
  - intros j. unfold agent_in_bounds. cbn.
    repeat split; apply resize_nil_lookup; reflexivity.
  - intros s i Hi H j. apply elem_of_seq in Hi.
    destruct (Hd i) as (Dx & Dy & Dh & De & Ds & Dc); [lia|].
    destruct (H j) as (Hh & He & Hs & Hc & Hx & Hy).
    unfold agent_in_bounds, InitializeEntities_step. cbn.
    split; [|split; [|split; [|split; [|split]]]];
      apply lookup_total_insert_elim; assumption.
Qed.
End Bounds.

(** C1.  From the state built by [InitializeEntities] out of draws that
    respect the ranges of their distributions, and with the time step of
    [main], every agent has its four needs in [0, 1] and its position in
    [0, 1000] x [0, 1000] at the end of every frame. *)
Theorem C1_needs_and_position_stay_in_bounds
    (atan2 : float -> float -> float) (fuel count frames : nat)
    (draws : nat -> EntityDraws) (rand_numbers : nat -> N)
    (w : GameState * RandGen) :
  (forall i, i < count -> draws_in_range (draws i)) ->
  Frames atan2 fuel frames
         (InitializeEntities count draws,
          {| rand_seq := rand_numbers; rand_pos := 0 |}) DELTA_TIME = Some w ->
  forall i, i < entity_count w.1 -> agent_in_bounds w.1 i.
Proof.
  intros Hd Hrun i _.
  eapply (Frames_bounds atan2 DELTA_TIME); [reflexivity|exact Hrun|].
  apply InitializeEntities_bounds. exact Hd.
Qed.



Lemma seq_split_at i n : i < n -> seq 0 n = seq 0 i ++ i :: seq (S i) (n - S i).
Proof.
  intros H. replace n with (i + S (n - S i)) at 1 by lia.
  rewrite seq_app. cbn [seq]. reflexivity.
Qed.

(** A loop over all entities, followed at entity [i]: [P] holds until the
    body runs at [i], which establishes [Q], and [Q] holds from there on. *)
Lemma fold_left_at {S : Type} (P Q : S -> Prop) (f : S -> nat -> S)
    (i n : nat) (s : S) :
  i < n -> P s ->
  (forall s j, j ≠ i -> P s -> P (f s j)) ->
  (forall s, P s -> Q (f s i)) ->
  (forall s j, j ≠ i -> Q s -> Q (f s j)) ->
  Q (fold_left f (seq 0 n) s).
Proof.
  intros Hi HP Hpre Hat Hpost. rewrite (seq_split_at i n Hi).
  rewrite fold_left_app. cbn [fold_left].
  apply fold_left_invariant.
  - apply Hat. apply fold_left_invariant; [exact HP|].
    intros s' j Hj. apply elem_of_seq in Hj. apply Hpre. lia.
  - intros s' j Hj. apply elem_of_seq in Hj. apply Hpost. lia.
Qed.

Ltac other_index :=
  repeat case_match; cbn;
  rewrite ?list_lookup_total_insert_ne, ?length_insert by assumption;
  reflexivity.

Section Kinetic.
Variable atan2 : float -> float -> float.

Lemma apply_movement_other dt s i j :
  j ≠ i -> body_at (apply_movement atan2 dt s j) i = body_at s i.
Proof. intros Hne. unfold body_at, apply_movement. other_index. Qed.

Lemma clamp_speed_other s i j :
  j ≠ i -> body_at (clamp_speed s j) i = body_at s i.
Proof. intros Hne. unfold body_at, clamp_speed. other_index. Qed.

Lemma integrate_position_other dt s i j :
  j ≠ i -> body_at (integrate_position dt s j) i = body_at s i.
Proof. intros Hne. unfold body_at, integrate_position. other_index. Qed.

Lemma world_bounds_other s i j :
  j ≠ i -> body_at (world_bounds s j) i = body_at s i.
Proof. intros Hne. unfold body_at, world_bounds. other_index. Qed.

Lemma KineticSystem_step_other dt s i j :
  j ≠ i ->
  body_at (KineticSystem_step atan2 dt s j) i = body_at s i.
Proof.
  intros Hne. unfold KineticSystem_step.
  destruct (negb (alive s j)); [reflexivity|].
  rewrite world_bounds_other, integrate_position_other, clamp_speed_other,
    apply_movement_other by exact Hne.
  reflexivity.
Qed.

Lemma apply_movement_lengths dt s j :
  body_lengths (apply_movement atan2 dt s j) = body_lengths s.
Proof. unfold body_lengths, apply_movement. other_index. Qed.

Lemma clamp_speed_lengths s j :
  body_lengths (clamp_speed s j) = body_lengths s.
Proof. unfold body_lengths, clamp_speed. other_index. Qed.

Lemma integrate_position_lengths dt s j :
  body_lengths (integrate_position dt s j) = body_lengths s.
Proof. unfold body_lengths, integrate_position. other_index. Qed.

Lemma world_bounds_lengths s j :
  body_lengths (world_bounds s j) = body_lengths s.
Proof. unfold body_lengths, world_bounds. other_index. Qed.

Lemma KineticSystem_step_lengths dt s j :
  body_lengths (KineticSystem_step atan2 dt s j) = body_lengths s.
Proof.
  unfold KineticSystem_step. destruct (negb (alive s j)); [reflexivity|].
  rewrite world_bounds_lengths, integrate_position_lengths,
    clamp_speed_lengths, apply_movement_lengths.
  reflexivity.
Qed.

Lemma KineticSystem_step_resting dt s i :
  alive s i = true ->
  current_action (actions s) !!! i = IDLE
  \/ current_action (actions s) !!! i = SLEEP ->
  i < length (velocity_x (transforms s)) ->
  i < length (velocity_y (transforms s)) ->
  (velocity_x (transforms (KineticSystem_step atan2 dt s i)) !!! i,
   velocity_y (transforms (KineticSystem_step atan2 dt s i)) !!! i)
  = damped_velocity (velocity_x (transforms s) !!! i)
                    (velocity_y (transforms s) !!! i).
Proof.
  intros Ha Hact Hx Hy.
  unfold KineticSystem_step. rewrite Ha. cbn [negb].
  unfold world_bounds, integrate_position. cbn.
  assert (Hm : apply_movement atan2 dt s i
               = set_velocity_y i
                   (velocity_y (transforms s) !!! i * F32.dec 9 10)%f32
                   (set_velocity_x i
                      (velocity_x (transforms s) !!! i * F32.dec 9 10)%f32
                      s)).
  { unfold apply_movement. destruct Hact as [-> | ->]; reflexivity. }
  rewrite Hm. unfold clamp_speed, damped_velocity. cbn.
  rewrite !list_lookup_total_insert_eq by assumption.
  case_match; cbn;
    rewrite !list_lookup_total_insert_eq by (rewrite ?length_insert; assumption);
    reflexivity.
Qed.

Lemma KineticSystem_Update_resting dt s i :
  well_formed s -> i < entity_count s -> alive s i = true ->
  current_action (actions s) !!! i = IDLE
  \/ current_action (actions s) !!! i = SLEEP ->
  (velocity_x (transforms (KineticSystem_Update atan2 s dt)) !!! i,
   velocity_y (transforms (KineticSystem_Update atan2 s dt)) !!! i)
  = damped_velocity (velocity_x (transforms s) !!! i)
                    (velocity_y (transforms s) !!! i).
Proof.
  intros Hwf Hi Ha Hact. unfold KineticSystem_Update.
  apply (fold_left_at
           (fun s' => only_transforms s s' /\ body_at s' i = body_at s i
                      /\ body_lengths s' = body_lengths s)
           (fun s' => (velocity_x (transforms s') !!! i,
                       velocity_y (transforms s') !!! i)
                      = damped_velocity (velocity_x (transforms s) !!! i)
                                        (velocity_y (transforms s) !!! i))
           _ i); [exact Hi| | | |].
  - split; [apply only_transforms_refl|split; reflexivity].
  - intros s' j Hne (Ho & Hb & Hl). split; [|split].
    + eapply only_transforms_trans; [exact Ho|].
      apply KineticSystem_step_only.
    + rewrite KineticSystem_step_other by exact Hne. exact Hb.
    + rewrite KineticSystem_step_lengths. exact Hl.
  - intros s' (Ho & Hb & Hl).
    unfold body_at in Hb. unfold body_lengths in Hl.
    injection Hb as _ _ Hvx Hvy _. injection Hl as _ _ Hlx Hly _.
    rewrite <- Hvx, <- Hvy. apply KineticSystem_step_resting.
    + unfold alive. rewrite Ho. exact Ha.
    + rewrite Ho. exact Hact.
    + rewrite Hlx, (wf_velocity_x s Hwf). exact Hi.
    + rewrite Hly, (wf_velocity_y s Hwf). exact Hi.
  - intros s' j Hne Hq.
    pose proof (KineticSystem_step_other dt s' i j Hne) as Hb.
    unfold body_at in Hb. injection Hb as _ _ Hvx Hvy _.
    rewrite Hvx, Hvy. exact Hq.
Qed.
End Kinetic.

(** C2, as the code has it.  For a live agent that is idle or asleep, one
    update of the kinetic system, whatever the time step, multiplies both
    components of the velocity by 0.9 and then limits the speed to
    [MAX_SPEED]: the velocity after the update is the damped velocity when
    its squared length is not above 25, and the damped velocity rescaled to
    [MAX_SPEED] otherwise.  For the velocity (10, 0) the damped velocity is
    (9, 0) exactly and the velocity after the update is (5, 0). *)
Theorem C2_damped_velocity_is_clamped
    (atan2 : float -> float -> float) (dt : float) (s : GameState)
    (i : EntityID) (vx vy : float) :
  well_formed s -> i < entity_count s -> alive s i = true ->
  current_action (actions s) !!! i = IDLE
  \/ current_action (actions s) !!! i = SLEEP ->
  velocity_x (transforms s) !!! i = vx ->
  velocity_y (transforms s) !!! i = vy ->
  let after := KineticSystem_Update atan2 s dt in
  let dx := (vx * F32.dec 9 10)%f32 in
  let dy := (vy * F32.dec 9 10)%f32 in
  let speed_sq := (dx * dx + dy * dy)%f32 in
  (velocity_x (transforms after) !!! i, velocity_y (transforms after) !!! i)
  = (if (speed_sq >? MAX_SPEED * MAX_SPEED)%f32
     then ((dx / F32.sqrt speed_sq * MAX_SPEED)%f32,
           (dy / F32.sqrt speed_sq * MAX_SPEED)%f32)
     else (dx, dy))
  /\ (vx = F32.of_int 10 -> vy = f0 ->
      dx = F32.of_int 9 /\ dy = f0
      /\ velocity_x (transforms after) !!! i = F32.of_int 5
      /\ velocity_y (transforms after) !!! i = f0).
Proof.
  intros Hwf Hi Ha Hact Hvx Hvy. cbv zeta.
  pose proof (KineticSystem_Update_resting atan2 dt s i Hwf Hi Ha Hact) as H.
  rewrite Hvx, Hvy in H. unfold damped_velocity in H.
  split; [exact H|].
  intros -> ->.
  split; [vm_compute; reflexivity|]. split; [vm_compute; reflexivity|].
  match type of H with
  | _ = ?rhs =>
      replace rhs with (F32.of_int 5, f0) in H by (vm_compute; reflexivity)
  end.
  injection H as -> ->. split; reflexivity.
Qed.


Lemma decide_action_only_actions s A i :
  decide_action (with_actions A s) i = decide_action s i.
Proof. reflexivity. Qed.

Lemma UtilitySystem_step_other w i j :
  j ≠ i -> decision_at (UtilitySystem_step w j).1 i = decision_at w.1 i.
Proof.
  intros Hne. destruct w as [s r].
  unfold decision_at, UtilitySystem_step, set_target.
  destruct (negb (alive s j)); [reflexivity|].
  destruct (decide_action s j) as [u a].
  repeat case_match; cbn;
    rewrite ?list_lookup_total_insert_ne by assumption; reflexivity.
Qed.

Lemma UtilitySystem_step_lengths w j :
  decision_lengths (UtilitySystem_step w j).1 = decision_lengths w.1.
Proof.
  destruct w as [s r].
  unfold decision_lengths, UtilitySystem_step, set_target.
  destruct (negb (alive s j)); [reflexivity|].
  destruct (decide_action s j) as [u a].
  repeat case_match; cbn; rewrite ?length_insert; reflexivity.
Qed.

Lemma UtilitySystem_step_at s A r i :
  alive s i = true ->
  i < length (current_action A) -> i < length (action_utility A) ->
  i < length (target_entity A) -> i < length (target_x A) ->
  i < length (target_y A) ->
  decision_at (UtilitySystem_step (with_actions A s, r) i).1 i
  = decision_of (with_actions A s) (rand_seq r) (rand_pos r) i.
Proof.
  intros Ha H1 H2 H3 H4 H5.
  unfold decision_at, decision_of, UtilitySystem_step, set_target.
  change (alive (with_actions A s) i) with (alive s i). rewrite Ha.
  cbn [negb]. destruct (decide_action (with_actions A s) i) as [u a].
  cbn [stimulus_buffer with_actions set_current_action set_action_utility].
  destruct a, (visible_entities (stimulus_buffer s) !!! i) as [|t ts];
    cbn; unfold explore_offset;
    rewrite ?list_lookup_total_insert_eq by (rewrite ?length_insert; assumption);
    reflexivity.
Qed.

(** The decision stage at a live entity: its five arrays hold the decision
    computed from the state at the start of the stage. *)
Lemma UtilitySystem_Update_at s r dt i :
  well_formed s -> i < entity_count s -> alive s i = true ->
  exists c,
    decision_at (UtilitySystem_Update (s, r) dt).1 i
    = decision_of s (rand_seq r) c i.
Proof.
  intros Hwf Hi Ha. unfold UtilitySystem_Update. cbn [fst].
  apply (fold_left_at
           (fun w => only_actions s w.1 /\ rand_seq w.2 = rand_seq r
                     /\ decision_at w.1 i = decision_at s i
                     /\ decision_lengths w.1 = decision_lengths s)
           (fun w => exists c,
                decision_at w.1 i = decision_of s (rand_seq r) c i)
           _ i); [exact Hi| | | |].
  - repeat split. apply only_actions_refl.
  - intros w j Hne (Ho & Hr & Hd & Hl).
    destruct (UtilitySystem_step_only w j) as [Ho' Hr'].
    split; [eapply only_actions_trans; eassumption|].
    split; [congruence|]. split.
    + rewrite UtilitySystem_step_other by exact Hne. exact Hd.
    + rewrite UtilitySystem_step_lengths. exact Hl.
  - intros [s' r'] (Ho & Hr & Hd & Hl). cbn [fst snd] in *.
    exists (rand_pos r').
    assert (exists A, s' = with_actions A s) as [A ->]
      by (eexists; exact Ho).
    unfold decision_lengths in Hl. cbn in Hl.
    injection Hl as L1 L2 L3 L4 L5.
    rewrite UtilitySystem_step_at; try assumption;
      rewrite ?L1, ?L2, ?L3, ?L4, ?L5, ?(wf_current_action s Hwf),
        ?(wf_action_utility s Hwf), ?(wf_target_entity s Hwf),
        ?(wf_target_x s Hwf), ?(wf_target_y s Hwf); try exact Hi.
    rewrite Hr. unfold decision_of, decision_at in *. cbn in *.
    injection Hd as D1 D2 D3 D4 D5. rewrite D3, D4, D5.
    change (decide_action (with_actions A s) i) with (decide_action s i).
    reflexivity.
  - intros w j Hne [c Hq]. exists c.
    rewrite UtilitySystem_step_other by exact Hne. exact Hq.
Qed.



Section Order.
Local Open Scope Z_scope.

Lemma cmp_mag_scaled E m1 e1 m2 e2 :
  E <= e1 -> E <= e2 ->
  F32.cmp_mag m1 e1 m2 e2 = (scaled E m1 e1 ?= scaled E m2 e2).
Proof.
  intros H1 H2. unfold F32.cmp_mag, scaled.
  set (ez := Z.min e1 e2).
  assert (Hez : E <= ez /\ ez <= e1 /\ ez <= e2) by (unfold ez; lia).
  replace (e1 - E) with ((e1 - ez) + (ez - E)) by lia.
  replace (e2 - E) with ((e2 - ez) + (ez - E)) by lia.
  rewrite !pow2_split by lia. rewrite !Z.mul_assoc.
  apply Zmult_compare_compat_r. apply Z.lt_gt.
  apply Z.pow_pos_nonneg; lia.
Qed.

Lemma scaled_pos E m e : 0 < scaled E m e \/ e < E.
Proof.
  destruct (Z_lt_le_dec e E); [right; assumption|left].
  unfold scaled. apply Z.mul_pos_pos; [lia|]. apply Z.pow_pos_nonneg; lia.
Qed.

Lemma compare_rank E x y :
  exponent_above E x -> exponent_above E y ->
  F32.compare x y
  = match rank_of E x, rank_of E y with
    | Some a, Some b => Some (rank_compare a b)
    | _, _ => None
    end.
Proof.
  destruct x as [sx|sx| |sx mx ex], y as [sy|sy| |sy my ey];
    cbn [exponent_above rank_of F32.compare rank_compare];
    intros Hx Hy;
    try (destruct sx, sy; reflexivity);
    try (destruct sx; reflexivity);
    try (destruct sy; reflexivity);
    try reflexivity.
  - destruct (scaled_pos E my ey) as [Hq|Hq]; [|lia].
    destruct sy; cbn [cond_Zopp]; f_equal; symmetry.
    + apply Z.compare_gt_iff. lia.
    + apply Z.compare_lt_iff. lia.
  - destruct (scaled_pos E mx ex) as [Hp|Hp]; [|lia].
    destruct sx; cbn [cond_Zopp]; f_equal; symmetry.
    + apply Z.compare_lt_iff. lia.
    + apply Z.compare_gt_iff. lia.
  - destruct (scaled_pos E mx ex) as [Hp|Hp]; [|lia].
    destruct (scaled_pos E my ey) as [Hq|Hq]; [|lia].
    rewrite (cmp_mag_scaled E) by assumption.
    destruct sx, sy; cbn [cond_Zopp]; f_equal; symmetry.
    + rewrite Z.compare_opp. apply Z.compare_antisym.
    + apply Z.compare_lt_iff. lia.
    + apply Z.compare_gt_iff. lia.
Qed.

Lemma exponent_above_min x y z :
  let E := Z.min (exponent_of x) (Z.min (exponent_of y) (exponent_of z)) in
  exponent_above E x /\ exponent_above E y /\ exponent_above E z.
Proof.
  destruct x, y, z; cbn [exponent_above exponent_of]; repeat split; lia.
Qed.

Lemma rank_compare_trans a b c :
  rank_compare a b <> Gt -> rank_compare b c = Lt -> rank_compare a c = Lt.
Proof.
  destruct a, b, c; cbn [rank_compare]; try congruence.
  intros H1 H2. change (z0 < z1) in H2. change (z < z1).
  destruct (Z.compare_spec z z0); [lia|lia|congruence].
Qed.

(** [x <= y] and [y < z] give [x < z]. *)
Lemma leb_ltb_trans x y z :
  F32.leb x y = true -> F32.ltb y z = true -> F32.ltb x z = true.
Proof.
  destruct (exponent_above_min x y z) as (Hx & Hy & Hz).
  set (E := Z.min _ _) in *.
  unfold F32.leb, F32.ltb.
  rewrite (compare_rank E x y), (compare_rank E y z), (compare_rank E x z)
    by assumption.
  destruct (rank_of E x) as [a|], (rank_of E y) as [b|],
    (rank_of E z) as [c|]; try discriminate.
  intros H1 H2.
  rewrite (rank_compare_trans a b c); [reflexivity| |].
  - destruct (rank_compare a b); congruence.
  - destruct (rank_compare b c); congruence.
Qed.

Lemma rank_compare_antisym a b :
  rank_compare b a = CompOpp (rank_compare a b).
Proof. destruct a, b; cbn [rank_compare CompOpp]; auto using Z.compare_antisym. Qed.

(** Two numbers that are not NaN are comparable. *)
Lemma not_gtb_leb x y :
  F32.is_nan x = false -> F32.is_nan y = false ->
  F32.gtb x y = false -> F32.leb x y = true.
Proof.
  destruct (exponent_above_min x y y) as (Hx & Hy & _).
  set (E := Z.min _ _) in *.
  unfold F32.gtb, F32.leb, F32.ltb.
  rewrite (compare_rank E x y), (compare_rank E y x) by assumption.
  intros Nx Ny.
  destruct (rank_of E x) as [a|] eqn:Ra; [|destruct x; discriminate].
  destruct (rank_of E y) as [b|] eqn:Rb; [|destruct y; discriminate].
  rewrite (rank_compare_antisym a b).
  destruct (rank_compare a b); cbn [CompOpp]; congruence.
Qed.
End Order.

(** ** The decision stage *)

Lemma ltb_not_nan_r x y : F32.ltb x y = true -> F32.is_nan y = false.
Proof. destruct x, y; try reflexivity; discriminate. Qed.

Lemma select_action_fold eat sleep flee explore attack :
  select_action eat sleep flee explore attack
  = fold_left (fun best p => consider p.1 p.2 best)
              (scored eat sleep flee explore attack) (f0, IDLE).
Proof. reflexivity. Qed.

(** A run of comparisons from the current maximum [M]: either nothing
    beats [M], or the winner is the first entry that nothing before it
    reaches and nothing after it exceeds. *)
Lemma consider_all_spec (cands : list (float * ActionType)) :
  forall M a0, F32.is_nan M = false ->
  let best := fold_left (fun best p => consider p.1 p.2 best) cands (M, a0) in
  (best = (M, a0) /\ Forall (fun p => F32.gtb p.1 M = false) cands)
  \/ (exists pre post,
        cands = pre ++ best :: post
        /\ F32.gtb best.1 M = true
        /\ Forall (fun p => F32.ltb p.1 best.1 = true
                            \/ F32.is_nan p.1 = true) pre
        /\ Forall (fun p => F32.gtb p.1 best.1 = false) post).
Proof.
  induction cands as [|[u a] rest IH]; intros M a0 HM; cbv zeta;
    cbn [fold_left].
  - left. split; [reflexivity|constructor].
  - assert (Hstep : consider (u, a).1 (u, a).2 (M, a0)
                    = if F32.gtb u M then (u, a) else (M, a0)) by reflexivity.
    rewrite Hstep. clear Hstep.
    destruct (F32.gtb u M) eqn:Hgt.
    + assert (Hu : F32.is_nan u = false) by (eapply ltb_not_nan_r; exact Hgt).
      right. specialize (IH u a Hu). cbv zeta in IH.
      set (best := fold_left _ rest (u, a)) in *.
      destruct IH as [[Hb Hall]|(pre & post & Hc & Hg & Hpre & Hpost)].
      * exists [], rest. rewrite Hb. cbn [fst app].
        repeat split; [exact Hgt|constructor|exact Hall].
      * exists ((u, a) :: pre), post. rewrite Hc at 1.
        split; [reflexivity|]. split; [|split; [|exact Hpost]].
        -- unfold F32.gtb in *. eapply leb_ltb_trans; [|exact Hg].
           apply ltb_leb. exact Hgt.
        -- constructor; [left; exact Hg|exact Hpre].
    + specialize (IH M a0 HM). cbv zeta in IH.
      set (best := fold_left _ rest (M, a0)) in *.
      destruct IH as [[Hb Hall]|(pre & post & Hc & Hg & Hpre & Hpost)].
      * left. split; [exact Hb|]. constructor; [exact Hgt|exact Hall].
      * right. exists ((u, a) :: pre), post. rewrite Hc at 1.
        split; [reflexivity|]. split; [exact Hg|]. split; [|exact Hpost].
        constructor; [|exact Hpre]. cbn [fst].
        destruct (F32.is_nan u) eqn:Hu; [right; reflexivity|left].
        unfold F32.gtb in Hg. eapply leb_ltb_trans; [|exact Hg].
        apply not_gtb_leb; assumption.
Qed.

Lemma consider_selectable u a best :
  selectable a -> selectable best.2 -> selectable (consider u a best).2.
Proof. intros Ha Hb. unfold consider. destruct (F32.gtb u best.1); assumption. Qed.

Lemma select_action_selectable eat sleep flee explore attack :
  selectable (select_action eat sleep flee explore attack).2.
Proof.
  unfold select_action.
  repeat (apply consider_selectable;
          [unfold selectable;
           repeat first [apply list_elem_of_here | apply list_elem_of_further]
          |]).
  apply list_elem_of_here.
Qed.

Lemma decide_action_selectable s i : selectable (decide_action s i).2.
Proof. apply select_action_selectable. Qed.

Lemma decision_of_action s numbers c i :
  (decision_of s numbers c i).1.1.1.1 = (decide_action s i).2
  /\ (decision_of s numbers c i).1.1.1.2 = (decide_action s i).1.
Proof.
  unfold decision_of. destruct (decide_action s i) as [u a].
  repeat case_match; split; reflexivity.
Qed.

(** After the decision stage a live entity holds the action and the score
    selected from the state at the start of the stage. *)
Lemma UtilitySystem_Update_action s r dt i :
  well_formed s -> i < entity_count s -> alive s i = true ->
  current_action (actions (UtilitySystem_Update (s, r) dt).1) !!! i
  = (decide_action s i).2
  /\ action_utility (actions (UtilitySystem_Update (s, r) dt).1) !!! i
     = (decide_action s i).1.
Proof.
  intros Hwf Hi Ha.
  destruct (UtilitySystem_Update_at s r dt i Hwf Hi Ha) as [c Hc].
  destruct (decision_of_action s (rand_seq r) c i) as [H1 H2].
  rewrite <- Hc in H1, H2. exact (conj H1 H2).
Qed.


Lemma mul_zero_r c sz : zero_or_nan (c * S754_zero sz)%f32.
Proof. destruct c; exact I. Qed.

Lemma zero_or_nan_not_above x M :
  zero_or_nan x -> M = f1 \/ F32.ltb f1 M = true -> F32.gtb x M = false.
Proof.
  intros Hx [-> | HM]; destruct x; try contradiction; try reflexivity;
    destruct M as [sm|sm| |sm mm em]; try destruct sm; try reflexivity;
    discriminate.
Qed.

Lemma select_action_full_hunger flee explore attack :
  zero_or_nan explore -> zero_or_nan attack ->
  select_action f1 f1 flee explore attack
  = if (flee >? f1)%f32 then (flee, FLEE) else (f1, EAT).
Proof.
  intros Hx Hk. unfold select_action.
  change (consider f1 SLEEP (consider f1 EAT (f0, IDLE))) with (f1, EAT).
  unfold consider at 3. cbn [fst].
  destruct (F32.gtb flee f1) eqn:Hf; unfold consider; cbn [fst];
    rewrite (zero_or_nan_not_above explore), (zero_or_nan_not_above attack);
    auto.
Qed.

Lemma decide_action_full_hunger s i sz :
  hunger (needs s) !!! i = f1 -> energy (needs s) !!! i = (S754_zero sz : float) ->
  CalculateEatUtility s i = f1 /\ CalculateSleepUtility s i = f1
  /\ decide_action s i
     = if (CalculateFleeUtility s i >? f1)%f32
       then (CalculateFleeUtility s i, FLEE) else (f1, EAT).
Proof.
  intros Hh He.
  assert (Heat : CalculateEatUtility s i = f1)
    by (unfold CalculateEatUtility; rewrite Hh; reflexivity).
  assert (Hsleep : CalculateSleepUtility s i = f1)
    by (unfold CalculateSleepUtility; rewrite He; destruct sz; reflexivity).
  split; [exact Heat|]. split; [exact Hsleep|].
  unfold decide_action. rewrite Heat, Hsleep.
  apply select_action_full_hunger.
  - unfold CalculateExploreUtility. rewrite He. apply mul_zero_r.
  - unfold CalculateAttackUtility. rewrite Hh, He.
    destruct (visible_entities (stimulus_buffer s) !!! i);
      [exact I|destruct sz; exact I].
Qed.

(** C3, as the code has it.  For a live agent with hunger 1 and energy 0
    the eat score and the sleep score are both 1, and the decision stage
    selects eat unless the flee score is above 1, in which case it selects
    flee; it never selects sleep.  In general the selected action is idle
    with score 0 when no score is strictly positive, and otherwise the first
    entry, in the order eat, sleep, flee, explore, attack, that is strictly
    above every entry before it and that no later entry exceeds. *)
Theorem C3_tie_break_by_priority :
  (forall s r dt i sz,
     well_formed s -> i < entity_count s -> alive s i = true ->
     hunger (needs s) !!! i = f1 -> energy (needs s) !!! i = (S754_zero sz : float) ->
     CalculateEatUtility s i = f1 /\ CalculateSleepUtility s i = f1
     /\ current_action (actions (UtilitySystem_Update (s, r) dt).1) !!! i
        = if (CalculateFleeUtility s i >? f1)%f32 then FLEE else EAT)
  /\ (forall eat sleep flee explore attack,
        let best := select_action eat sleep flee explore attack in
        (best = (f0, IDLE)
         /\ Forall (fun p => F32.gtb p.1 f0 = false)
                   (scored eat sleep flee explore attack))
        \/ (exists pre post,
              scored eat sleep flee explore attack = pre ++ best :: post
              /\ F32.gtb best.1 f0 = true
              /\ Forall (fun p => F32.ltb p.1 best.1 = true
                                  \/ F32.is_nan p.1 = true) pre
              /\ Forall (fun p => F32.gtb p.1 best.1 = false) post)).
Proof.
  split.
  - intros s r dt i sz Hwf Hi Ha Hh He.
    destruct (decide_action_full_hunger s i sz Hh He) as (Heat & Hsleep & Hd).
    split; [exact Heat|]. split; [exact Hsleep|].
    destruct (UtilitySystem_Update_action s r dt i Hwf Hi Ha) as [-> _].
    rewrite Hd. destruct (F32.gtb _ f1); reflexivity.
  - intros eat sleep flee explore attack. rewrite select_action_fold.
    apply consider_all_spec. reflexivity.
Qed.

(** C6.  When agent [A] selects attack and the first element of its visible
    set is [B], at position [(bx, by)] during the decision stage, that stage
    sets the target of [A] to [B] and its target position to [(bx, by)], and
    the target position is still [(bx, by)] after the kinetic system has run
    for every agent: the decision stage is complete before the kinetic
    system starts, and the kinetic system writes no target. *)
Theorem C6_attack_target_is_a_snapshot
    (atan2 : float -> float -> float) (s : GameState) (r : RandGen)
    (dt : float) (A B : EntityID) (rest : list EntityID) (bx by_ : float) :
  well_formed s -> A < entity_count s -> alive s A = true ->
  visible_entities (stimulus_buffer s) !!! A = B :: rest ->
  position_x (transforms s) !!! B = bx ->
  position_y (transforms s) !!! B = by_ ->
  let decided := (UtilitySystem_Update (s, r) dt).1 in
  let moved := KineticSystem_Update atan2 decided dt in
  current_action (actions decided) !!! A = ATTACK ->
  target_entity (actions decided) !!! A = N.of_nat B
  /\ target_x (actions decided) !!! A = bx
  /\ target_y (actions decided) !!! A = by_
  /\ target_x (actions moved) !!! A = bx
  /\ target_y (actions moved) !!! A = by_.
Proof.
  intros Hwf HA Ha Hvis Hbx Hby decided moved Hact.
  destruct (UtilitySystem_Update_at s r dt A Hwf HA Ha) as [c Hc].
  destruct (UtilitySystem_Update_action s r dt A Hwf HA Ha) as [Hsel _].
  fold decided in Hc, Hsel. rewrite Hact in Hsel.
  unfold decision_of in Hc. destruct (decide_action s A) as [u a].
  cbn [snd] in Hsel. subst a. rewrite Hvis, Hbx, Hby in Hc.
  unfold decision_at in Hc. injection Hc as _ _ Ht Hx Hy.
  assert (Hk : actions moved = actions decided).
  { unfold moved. rewrite (KineticSystem_Update_only atan2 decided dt).
    reflexivity. }
  rewrite Hk. auto.
Qed.

(** C8.  When the decision stage selects explore for a live agent, it sets
    the target position to the agent's position plus two offsets, one per
    axis, made of two successive numbers of the generator; each offset lies
    in [-10, 10]. *)
Theorem C8_explore_target_offsets
    (s : GameState) (r : RandGen) (dt : float) (i : EntityID) :
  well_formed s -> i < entity_count s -> alive s i = true ->
  let decided := (UtilitySystem_Update (s, r) dt).1 in
  current_action (actions decided) !!! i = EXPLORE ->
  exists c,
    let ox := explore_offset (rand_seq r) c in
    let oy := explore_offset (rand_seq r) (S c) in
    target_x (actions decided) !!! i
    = (position_x (transforms decided) !!! i + F32.of_int ox)%f32
    /\ target_y (actions decided) !!! i
       = (position_y (transforms decided) !!! i + F32.of_int oy)%f32
    /\ (-10 <= ox <= 10)%Z /\ (-10 <= oy <= 10)%Z.
Proof.
  intros Hwf Hi Ha decided Hact.
  destruct (UtilitySystem_Update_at s r dt i Hwf Hi Ha) as [c Hc].
  destruct (UtilitySystem_Update_action s r dt i Hwf Hi Ha) as [Hsel _].
  fold decided in Hc, Hsel. rewrite Hact in Hsel.
  unfold decision_of in Hc. destruct (decide_action s i) as [u a].
  cbn [snd] in Hsel. subst a.
  unfold decision_at in Hc. injection Hc as _ _ _ Hx Hy.
  assert (Ht : transforms decided = transforms s).
  { unfold decided.
    destruct (UtilitySystem_Update_only (s, r) dt) as [Ho _].
    cbn [fst] in Ho. rewrite Ho. reflexivity. }
  exists c. cbv zeta. rewrite Ht, Hx, Hy.
  split; [reflexivity|]. split; [reflexivity|].
  unfold explore_offset.
  pose proof (Z.rem_bound_pos (Z.of_N (rand_seq r c)) 20).
  pose proof (Z.rem_bound_pos (Z.of_N (rand_seq r (S c))) 20).
  lia.
Qed.


Section DeadAgents.
Variable atan2 : float -> float -> float.

Lemma hunger_rises_other dt s i j :
  j ≠ i -> needs_at (hunger_rises dt s j) i = needs_at s i.
Proof. intros Hne. unfold needs_at, hunger_rises. other_index. Qed.

Lemma energy_changes_other dt a s i j :
  j ≠ i -> needs_at (energy_changes dt a s j) i = needs_at s i.
Proof. intros Hne. unfold needs_at, energy_changes. other_index. Qed.

Lemma eating_reduces_hunger_other dt a s i j :
  j ≠ i -> needs_at (eating_reduces_hunger dt a s j) i = needs_at s i.
Proof. intros Hne. unfold needs_at, eating_reduces_hunger. other_index. Qed.

Lemma safety_changes_other dt s i j :
  j ≠ i -> needs_at (safety_changes dt s j) i = needs_at s i.
Proof. intros Hne. unfold needs_at, safety_changes. other_index. Qed.

Lemma curiosity_fluctuates_other dt n s i j :
  j ≠ i -> needs_at (curiosity_fluctuates dt n s j) i = needs_at s i.
Proof. intros Hne. unfold needs_at, curiosity_fluctuates. other_index. Qed.

Lemma NeedsSystem_step_other dt w i j :
  j ≠ i -> needs_at (NeedsSystem_step dt w j).1 i = needs_at w.1 i.
Proof.
  intros Hne. destruct w as [s r]. unfold NeedsSystem_step, rand.
  destruct (negb (alive s j)); [reflexivity|]. cbn [fst].
  rewrite curiosity_fluctuates_other, safety_changes_other,
    eating_reduces_hunger_other, energy_changes_other, hunger_rises_other
    by exact Hne.
  reflexivity.
Qed.

(** The systems skip an entity that is not alive. *)
Lemma NeedsSystem_step_dead dt w d j :
  alive w.1 d = false ->
  needs_at (NeedsSystem_step dt w j).1 d = needs_at w.1 d.
Proof.
  intros Hd. destruct (decide (j = d)) as [->|Hne].
  - destruct w as [s r]. unfold NeedsSystem_step. cbn [fst] in Hd.
    rewrite Hd. reflexivity.
  - apply NeedsSystem_step_other. exact Hne.
Qed.

Lemma UtilitySystem_step_dead w d j :
  alive w.1 d = false ->
  decision_at (UtilitySystem_step w j).1 d = decision_at w.1 d.
Proof.
  intros Hd. destruct (decide (j = d)) as [->|Hne].
  - destruct w as [s r]. unfold UtilitySystem_step. cbn [fst] in Hd.
    rewrite Hd. reflexivity.
  - apply UtilitySystem_step_other. exact Hne.
Qed.

Lemma KineticSystem_step_dead dt s d j :
  alive s d = false ->
  body_at (KineticSystem_step atan2 dt s j) d = body_at s d.
Proof.
  intros Hd. destruct (decide (j = d)) as [->|Hne].
  - unfold KineticSystem_step. rewrite Hd. reflexivity.
  - apply KineticSystem_step_other. exact Hne.
Qed.

Lemma NeedsSystem_Update_dead dt w d :
  alive w.1 d = false ->
  needs_at (NeedsSystem_Update w dt).1 d = needs_at w.1 d.
Proof.
  intros Hd. unfold NeedsSystem_Update.
  apply (fold_left_invariant
           (fun w' => health w'.1 = health w.1
                      /\ needs_at w'.1 d = needs_at w.1 d)); [auto|].
  intros w' j _ [Hh Hn]. split.
  - destruct (NeedsSystem_step_only dt w' j) as [Ho _].
    rewrite Ho. exact Hh.
  - rewrite NeedsSystem_step_dead; [exact Hn|].
    unfold alive. rewrite Hh. exact Hd.
Qed.

Lemma UtilitySystem_Update_dead dt w d :
  alive w.1 d = false ->
  decision_at (UtilitySystem_Update w dt).1 d = decision_at w.1 d.
Proof.
  intros Hd. unfold UtilitySystem_Update.
  apply (fold_left_invariant
           (fun w' => health w'.1 = health w.1
                      /\ decision_at w'.1 d = decision_at w.1 d)); [auto|].
  intros w' j _ [Hh Hn]. split.
  - destruct (UtilitySystem_step_only w' j) as [Ho _].
    rewrite Ho. exact Hh.
  - rewrite UtilitySystem_step_dead; [exact Hn|].
    unfold alive. rewrite Hh. exact Hd.
Qed.

Lemma KineticSystem_Update_dead dt s d :
  alive s d = false ->
  body_at (KineticSystem_Update atan2 s dt) d = body_at s d.
Proof.
  intros Hd. unfold KineticSystem_Update.
  apply (fold_left_invariant
           (fun s' => health s' = health s
                      /\ body_at s' d = body_at s d)); [auto|].
  intros s' j _ [Hh Hn]. split.
  - rewrite (KineticSystem_step_only atan2 dt s' j). exact Hh.
  - rewrite KineticSystem_step_dead; [exact Hn|].
    unfold alive. rewrite Hh. exact Hd.
Qed.

(** ** The visible sets hold live entities only *)

Lemma scan_target_alive fuel s o seen t seen' :
  (forall x, x ∈ seen -> alive s x = true) ->
  scan_target atan2 fuel s o seen t = Some seen' ->
  forall x, x ∈ seen' -> alive s x = true.
Proof.
  intros Hseen. unfold scan_target.
  destruct (Nat.eqb t o); [intros [= <-]; exact Hseen|].
  destruct (alive s t) eqn:Ht; cbn [negb]; [|intros [= <-]; exact Hseen].
  destruct (in_view _ _ _ _ _ _ _ _ _) as [[]|];
    cbn [mbind option_bind]; intros [= <-]; [|exact Hseen].
  intros x Hx. apply elem_of_app in Hx as [Hx|Hx]; [auto|].
  apply list_elem_of_singleton in Hx. subst x. exact Ht.
Qed.

Lemma observe_alive fuel s o s' :
  sees_only_alive s -> observe atan2 fuel s o = Some s' ->
  sees_only_alive s'.
Proof.
  intros Hs Hrun. pose proof (observe_only atan2 fuel s o s' Hrun) as Ho.
  unfold observe in Hrun.
  destruct (negb (alive s o)); [injection Hrun as <-; exact Hs|].
  destruct (cell_index (position_x (transforms s) !!! o)) as [gx|];
    cbn [mbind option_bind] in Hrun; [|discriminate].
  destruct (cell_index (position_y (transforms s) !!! o)) as [gy|];
    cbn [mbind option_bind] in Hrun; [|discriminate].
  destruct (_ || _); [discriminate|].
  destruct (foldM _ _ _) as [seen|] eqn:Hscan;
    cbn [mbind option_bind] in Hrun; [|discriminate].
  injection Hrun as Hs'. subst s'.
  assert (Hseen : forall x, x ∈ seen -> alive s x = true).
  { revert Hscan.
    apply (foldM_invariant (fun l => forall x, x ∈ l -> alive s x = true));
      [apply Hs|].
    intros l t l' _. apply scan_target_alive. }
  intros o' t. cbn.
  apply (lookup_total_insert_elim
           (fun l => t ∈ l -> alive s t = true)); [apply Hs|apply Hseen].
Qed.

Lemma cleared_lookup (l : list (list EntityID)) o :
  ((fun _ => []) <$> l) !!! o = ([] : list EntityID).
Proof.
  rewrite list_lookup_total_alt, list_lookup_fmap.
  destruct (l !! o); reflexivity.
Qed.

Lemma PerceptionSystem_Update_alive fuel s dt s' :
  PerceptionSystem_Update atan2 fuel s dt = Some s' -> sees_only_alive s'.
Proof.
  unfold PerceptionSystem_Update.
  destruct (rebuild_grid s) as [g|]; cbn [mbind option_bind];
    [|discriminate].
  apply (foldM_invariant sees_only_alive).
  - intros o t. cbn. rewrite cleared_lookup. intros Ht.
    apply elem_of_nil in Ht. contradiction.
  - intros s1 o s2 _. apply observe_alive.
Qed.
End DeadAgents.



(** C7.  In every frame, an agent whose alive flag is false appears in no
    visible set at the end of the frame, and no stage writes its action, its
    needs or its body: the values it had at the start of the frame are the
    values it has at the end, and it is still not alive. *)
Theorem C7_dead_agents_are_left_alone
    (atan2 : float -> float -> float) (fuel : nat) (dt : float)
    (w w' : GameState * RandGen) (d : EntityID) :
  Frame atan2 fuel w dt = Some w' -> alive w.1 d = false ->
  (forall o, d ∉ visible_entities (stimulus_buffer w'.1) !!! o)
  /\ decision_at w'.1 d = decision_at w.1 d
  /\ needs_at w'.1 d = needs_at w.1 d
  /\ body_at w'.1 d = body_at w.1 d
  /\ alive w'.1 d = false.
Proof.
  unfold Frame. intros Hrun Hd.
  destruct (PerceptionSystem_Update atan2 fuel w.1 dt) as [s1|] eqn:Hp;
    cbn [mbind option_bind] in Hrun; [|discriminate].
  injection Hrun as <-.
  pose proof (PerceptionSystem_Update_alive atan2 fuel _ _ _ Hp) as Hsee.
  apply PerceptionSystem_Update_only in Hp.
  set (w2 := UtilitySystem_Update (s1, w.2) dt).
  destruct (UtilitySystem_Update_only (s1, w.2) dt) as [Hu _].
  fold w2 in Hu. cbn [fst] in Hu.
  set (s3 := KineticSystem_Update atan2 w2.1 dt).
  pose proof (KineticSystem_Update_only atan2 w2.1 dt) as Hk. fold s3 in Hk.
  set (w4 := NeedsSystem_Update (s3, w2.2) dt).
  destruct (NeedsSystem_Update_only (s3, w2.2) dt) as [Hn _].
  fold w4 in Hn. cbn [fst] in Hn.
  assert (H1 : alive s1 d = false) by (unfold alive; rewrite Hp; exact Hd).
  assert (H2 : alive w2.1 d = false) by (unfold alive; rewrite Hu; exact H1).
  assert (H3 : alive s3 d = false) by (unfold alive; rewrite Hk; exact H2).
  assert (H4 : alive w4.1 d = false) by (unfold alive; rewrite Hn; exact H3).
  split; [|split; [|split; [|split]]].
  - intros o Ho.
    assert (Hv : stimulus_buffer w4.1 = stimulus_buffer s1)
      by (rewrite Hn, Hk, Hu; reflexivity).
    rewrite Hv in Ho. apply Hsee in Ho. congruence.
  - transitivity (decision_at w2.1 d).
    + unfold decision_at. rewrite Hn, Hk. reflexivity.
    + unfold w2. rewrite UtilitySystem_Update_dead by exact H1.
      unfold decision_at. cbn [fst]. rewrite Hp. reflexivity.
  - unfold w4. rewrite NeedsSystem_Update_dead by exact H3. cbn [fst].
    unfold needs_at. rewrite Hk, Hu, Hp. reflexivity.
  - transitivity (body_at s3 d).
    + unfold body_at. rewrite Hn. reflexivity.
    + unfold s3. rewrite KineticSystem_Update_dead by exact H2.
      unfold body_at. rewrite Hu, Hp. reflexivity.
  - exact H4.
Qed.

(** ** No move-to-target *)

Lemma resize_nil_lookup_total {A : Type} `{!Inhabited A} (P : A -> Prop)
    count (v : A) j :
  P v -> P inhabitant -> P (resize count v [] !!! j).
Proof.
  intros Hv Hi. unfold resize. rewrite take_nil, app_nil_l. cbn [length].
  rewrite Nat.sub_0_r.
  destruct (decide (j < count)) as [Hlt|Hge].
  - rewrite lookup_total_replicate_2 by exact Hlt. exact Hv.
  - rewrite list_lookup_total_alt, lookup_ge_None_2
      by (rewrite length_replicate; lia).
    exact Hi.
Qed.

Lemma selectable_IDLE : selectable IDLE.
Proof. apply list_elem_of_here. Qed.

Lemma InitializeEntities_selectable count draws :
  all_selectable (InitializeEntities count draws).
Proof.
  unfold InitializeEntities. apply (fold_left_invariant all_selectable).
  - intros j. cbn. apply resize_nil_lookup_total; apply selectable_IDLE.
  - intros s i _ H j. unfold InitializeEntities_step. cbn.
    apply lookup_total_insert_elim; [apply H|apply selectable_IDLE].
Qed.

Lemma set_target_current_action a w i :
  current_action (actions (set_target a w i).1) = current_action (actions w.1).
Proof.
  destruct w as [s r]. unfold set_target, rand.
  destruct a, (visible_entities (stimulus_buffer s) !!! i); reflexivity.
Qed.

Lemma UtilitySystem_step_selectable w i :
  all_selectable w.1 -> all_selectable (UtilitySystem_step w i).1.
Proof.
  destruct w as [s r]. cbn [fst]. intros H. unfold UtilitySystem_step.
  destruct (negb (alive s i)); [exact H|].
  pose proof (decide_action_selectable s i) as Hsel.
  destruct (decide_action s i) as [u a]. cbn [snd] in Hsel.
  intros j. rewrite set_target_current_action. cbn.
  apply lookup_total_insert_elim; [apply H|exact Hsel].
Qed.

Section NoMoveToTarget.
Variable atan2 : float -> float -> float.

Lemma Frame_selectable fuel w dt w' :
  Frame atan2 fuel w dt = Some w' ->
  all_selectable w.1 -> all_selectable w'.1.
Proof.
  unfold Frame. intros Hrun H.
  destruct (PerceptionSystem_Update atan2 fuel w.1 dt) as [s1|] eqn:Hp;
    cbn [mbind option_bind] in Hrun; [|discriminate].
  injection Hrun as <-.
  apply PerceptionSystem_Update_only in Hp.
  destruct (NeedsSystem_Update_only
              (KineticSystem_Update atan2
                 (UtilitySystem_Update (s1, w.2) dt).1 dt,
               (UtilitySystem_Update (s1, w.2) dt).2) dt) as [Hn _].
  cbn [fst] in Hn.
  intros j. rewrite Hn. cbn.
  rewrite (KineticSystem_Update_only atan2 _ dt). cbn.
  revert j. change (all_selectable (UtilitySystem_Update (s1, w.2) dt).1).
  unfold UtilitySystem_Update.
  apply (fold_left_invariant (fun w => all_selectable w.1)).
  - cbn [fst]. intros j. rewrite Hp. apply H.
  - intros w' i _. apply UtilitySystem_step_selectable.
Qed.

Lemma Frames_selectable fuel frames dt : forall w w',
  Frames atan2 fuel frames w dt = Some w' ->
  all_selectable w.1 -> all_selectable w'.1.
Proof.
  induction frames as [|n IH]; intros w w' Hrun H; cbn [Frames] in Hrun.
  - injection Hrun as <-. exact H.
  - destruct (Frame atan2 fuel w dt) as [w1|] eqn:Hf;
      cbn [mbind option_bind] in Hrun; [|discriminate].
    eapply IH; [exact Hrun|]. eapply Frame_selectable; eassumption.
Qed.
End NoMoveToTarget.

(** C10.  After a decision pass every live agent holds one of idle, eat,
    sleep, flee, explore, attack.  Since [InitializeEntities] sets every
    action to idle, after any number of frames from the initial state no
    agent holds move-to-target: the kinetic system reaches its
    target-seeking branch through attack and explore only. *)
Theorem C10_move_to_target_is_never_assigned :
  (forall s r dt i,
     well_formed s -> i < entity_count s -> alive s i = true ->
     selectable
       (current_action (actions (UtilitySystem_Update (s, r) dt).1) !!! i))
  /\ (forall atan2 fuel count frames draws rand_numbers dt w,
        Frames atan2 fuel frames
               (InitializeEntities count draws,
                {| rand_seq := rand_numbers; rand_pos := 0 |}) dt = Some w ->
        forall i,
          selectable (current_action (actions w.1) !!! i)
          /\ current_action (actions w.1) !!! i <> MOVE_TO_TARGET).
Proof.
  split.
  - intros s r dt i Hwf Hi Ha.
    destruct (UtilitySystem_Update_action s r dt i Hwf Hi Ha) as [-> _].
    apply decide_action_selectable.
  - intros atan2 fuel count frames draws rand_numbers dt w Hrun i.
    assert (Hsel : selectable (current_action (actions w.1) !!! i)).
    { eapply (Frames_selectable atan2); [exact Hrun|].
      apply InitializeEntities_selectable. }
    split; [exact Hsel|]. intros Heq. rewrite Heq in Hsel.
    unfold selectable in Hsel.
    repeat (apply elem_of_cons in Hsel as [Hsel|Hsel]; [discriminate|]).
    apply elem_of_nil in Hsel. exact Hsel.
Qed.


Section Neighborhood.
Local Open Scope Z_scope.

Lemma in_grid_rem a : in_grid (Z.rem a GRID_SIZE) = true <-> 0 <= Z.rem a GRID_SIZE.
Proof.
  unfold in_grid, GRID_SIZE. rewrite andb_true_iff, Z.leb_le, Z.ltb_lt.
  pose proof (Z.rem_bound_abs a 100). lia.
Qed.

Lemma neighborhood_spec gx gy cx cy :
  (cx, cy) ∈ neighborhood gx gy
  <-> exists dx dy,
        dx ∈ neighbor_offsets /\ dy ∈ neighbor_offsets
        /\ cx = Z.rem (gx + dx) GRID_SIZE /\ cy = Z.rem (gy + dy) GRID_SIZE
        /\ 0 <= cx /\ 0 <= cy.
Proof.
  unfold neighborhood. rewrite list_elem_of_bind. split.
  - intros (dx & Hin & Hdx). apply list_elem_of_bind in Hin as (dy & Hin & Hdy).
    destruct (in_grid (Z.rem (gx + dx) GRID_SIZE)) eqn:Hx;
      [|apply elem_of_nil in Hin; contradiction].
    destruct (in_grid (Z.rem (gy + dy) GRID_SIZE)) eqn:Hy;
      [|apply elem_of_nil in Hin; contradiction].
    cbn [andb] in Hin. apply list_elem_of_singleton in Hin.
    injection Hin as -> ->. exists dx, dy.
    apply in_grid_rem in Hx, Hy. auto 10.
  - intros (dx & dy & Hdx & Hdy & -> & -> & Hx & Hy).
    exists dx. split; [|exact Hdx]. apply list_elem_of_bind.
    exists dy. split; [|exact Hdy].
    apply in_grid_rem in Hx, Hy. rewrite Hx, Hy. cbn [andb].
    apply list_elem_of_singleton. reflexivity.
Qed.

Lemma wrap_nonneg a :
  0 <= a ->
  Z.rem a GRID_SIZE = a `mod` GRID_SIZE
  /\ in_grid (a `mod` GRID_SIZE) = true.
Proof.
  intros Ha. split; [apply Z.rem_mod_nonneg; unfold GRID_SIZE; lia|].
  unfold in_grid, GRID_SIZE. pose proof (Z.mod_pos_bound a 100).
  apply andb_true_iff. rewrite Z.leb_le, Z.ltb_lt. lia.
Qed.

Lemma neighborhood_wrapped gx gy :
  1 <= gx -> 1 <= gy -> neighborhood gx gy = wrapped_neighborhood gx gy.
Proof.
  intros Hx Hy. unfold neighborhood, wrapped_neighborhood, neighbor_offsets.
  cbn [mbind list_bind list_fmap mjoin list_join app].
  repeat match goal with
         | |- context [Z.rem (?g + ?d) GRID_SIZE] =>
             let H1 := fresh in let H2 := fresh in
             destruct (wrap_nonneg (g + d)) as [H1 H2]; [lia|];
             rewrite H1, ?H2; clear H1 H2
         end.
  reflexivity.
Qed.

Lemma neighborhood_skips_below gy cy : (99, cy) ∉ neighborhood 0 gy.
Proof.
  intros H. apply neighborhood_spec in H
    as (dx & dy & Hdx & _ & Hcx & _ & _ & _).
  unfold neighbor_offsets in Hdx.
  repeat (apply elem_of_cons in Hdx as [->|Hdx]; [discriminate|]).
  apply elem_of_nil in Hdx. exact Hdx.
Qed.

Lemma candidates_spec g gx gy t :
  t ∈ candidates g gx gy
  <-> exists cx cy, (cx, cy) ∈ neighborhood gx gy /\ t ∈ g cx cy.
Proof.
  unfold candidates. rewrite list_elem_of_bind. split.
  - intros ([cx cy] & Ht & Hc). exists cx, cy. auto.
  - intros (cx & cy & Hc & Ht). exists (cx, cy). auto.
Qed.
End Neighborhood.

(** C4, as the code has it.  The targets examined for an observer whose
    cell indices are [gx] and [gy] are those of the buckets of the cells
    [((gx + dx) % 100, (gy + dy) % 100)], for [dx] and [dy] in [-1, 0, 1],
    whose two remainders are not negative.  For indices from 1 on this is
    the 3 x 3 block wrapped by the modulo rule, so index 100 is cell 0; an
    index -1 is skipped and is not cell 99. *)
Theorem C4_neighborhood_of_an_observer (g : SpatialGrid) (gx gy : Z) :
  (forall t, t ∈ candidates g gx gy
             <-> exists cx cy, (cx, cy) ∈ neighborhood gx gy /\ t ∈ g cx cy)
  /\ (forall cx cy,
        (cx, cy) ∈ neighborhood gx gy
        <-> exists dx dy,
              dx ∈ neighbor_offsets /\ dy ∈ neighbor_offsets
              /\ cx = Z.rem (gx + dx) GRID_SIZE
              /\ cy = Z.rem (gy + dy) GRID_SIZE
              /\ (0 <= cx)%Z /\ (0 <= cy)%Z)
  /\ ((1 <= gx)%Z -> (1 <= gy)%Z ->
      neighborhood gx gy = wrapped_neighborhood gx gy)
  /\ (forall cy, (99, cy)%Z ∉ neighborhood 0 gy).
Proof.
  split; [intros t; apply candidates_spec|].
  split; [intros cx cy; apply neighborhood_spec|].
  split; [apply neighborhood_wrapped|].
  intros cy. apply neighborhood_skips_below.
Qed.


Lemma SpatialGrid_Insert_cell id x y g :
  SpatialGrid_Insert id x y g
  = c ← insert_cell x y;
    Some (match c with
          | Some (cx, cy) => push_cell g cx cy id
          | None => g
          end).
Proof.
  unfold SpatialGrid_Insert, insert_cell.
  destruct (cell_index x) as [gx|]; [|reflexivity].
  destruct (cell_index y) as [gy|]; [|reflexivity].
  cbn [mbind option_bind].
  destruct (in_grid _ && in_grid _); reflexivity.
Qed.

Lemma rebuild_grid_from s ids : forall g0 g,
  foldM (fun g (i : EntityID) =>
           if alive s i
           then SpatialGrid_Insert i (position_x (transforms s) !!! i)
                                     (position_y (transforms s) !!! i) g
           else Some g) ids g0 = Some g ->
  forall cx cy, g cx cy = g0 cx cy ++ List.filter (filed_in s cx cy) ids.
Proof.
  induction ids as [|i ids IH]; intros g0 g Hrun cx cy; cbn [foldM] in Hrun.
  - injection Hrun as <-. cbn [List.filter]. rewrite app_nil_r. reflexivity.
  - cbn [List.filter]. unfold filed_in at 1.
    destruct (alive s i).
    + rewrite SpatialGrid_Insert_cell in Hrun.
      destruct (insert_cell _ _) as [[[x y]|]|];
        cbn [mbind option_bind] in Hrun; [| |discriminate].
      * rewrite (IH _ _ Hrun). unfold push_cell. cbn [andb].
        rewrite (Z.eqb_sym x cx), (Z.eqb_sym y cy).
        destruct ((cx =? x)%Z && (cy =? y)%Z);
          [rewrite <- app_assoc|]; reflexivity.
      * rewrite (IH _ _ Hrun). reflexivity.
    + cbn [andb]. apply IH. exact Hrun.
Qed.

(** After the rebuild a bucket holds the live entities filed in its cell, in
    ascending order of their ids. *)
Lemma rebuild_grid_buckets s g :
  rebuild_grid s = Some g ->
  forall cx cy, g cx cy = List.filter (filed_in s cx cy) (entities s).
Proof.
  intros Hrun cx cy. unfold rebuild_grid in Hrun.
  rewrite (rebuild_grid_from s _ _ _ Hrun cx cy). reflexivity.
Qed.

Lemma filed_in_bucket s g cx cy id :
  rebuild_grid s = Some g ->
  id ∈ g cx cy
  <-> id < entity_count s /\ filed_in s cx cy id = true.
Proof.
  intros Hrun. rewrite (rebuild_grid_buckets s g Hrun).
  rewrite list_elem_of_In, filter_In, <- list_elem_of_In.
  unfold entities. rewrite elem_of_seq. intuition lia.
Qed.

Section Boundary.
Local Open Scope Z_scope.

Lemma cell_index_999 : cell_index (F32.of_int 999) = Some 99.
Proof. vm_compute. reflexivity. Qed.

Lemma cell_index_1 : cell_index (F32.of_int 1) = Some 0.
Proof. vm_compute. reflexivity. Qed.

Lemma in_grid_rem_id gy :
  0 <= gy < GRID_SIZE ->
  Z.rem gy GRID_SIZE = gy /\ in_grid gy = true.
Proof.
  intros H. split; [apply Z.rem_small; exact H|].
  unfold in_grid. apply andb_true_iff. rewrite Z.leb_le, Z.ltb_lt. exact H.
Qed.
End Boundary.

(** ** The validator *)

Lemma ValidateState_entities s ids : forall valid,
  fold_left (ValidateState_entity s) ids valid
  = valid && forallb (entity_passes s) ids.
Proof.
  induction ids as [|i ids IH]; intros valid; cbn [fold_left forallb].
  - rewrite andb_true_r. reflexivity.
  - rewrite IH. unfold ValidateState_entity, entity_passes.
    destruct (_ || F32.is_inf _), (_ || _ || _), valid; reflexivity.
Qed.

Lemma ValidateState_checks s :
  ValidateState s = sizes_pass s && forallb (entity_passes s) (entities s).
Proof.
  unfold ValidateState. rewrite ValidateState_entities. unfold sizes_pass.
  destruct (_ =? _)%nat, (_ =? _)%nat, (_ =? _)%nat, (_ =? _)%nat;
    reflexivity.
Qed.

(** C9, as the code has it.  The state check fails exactly when the size of
    the transforms, perception, needs or actions group differs from the
    entity count, or some entity has a NaN or infinite [position_x] or a
    hunger that is NaN or outside [0, 1]; the health group, [position_y]
    and the three other needs are not looked at.  A failure is fatal: the
    driver returns at once, before the main loop when the initial state
    fails and with the number of the frame when a later state fails. *)
Theorem C9_validator_and_fatal_failure :
  (forall s,
     ValidateState s = false
     <-> sizes_pass s = false
         \/ exists i, i < entity_count s /\ entity_passes s i = false)
  /\ (forall atan2 fuel dt frames frame w w',
        Frame atan2 fuel w dt = Some w' -> ValidateState w'.1 = false ->
        main_loop atan2 fuel dt (S frames) frame w
        = Some (ValidationFailedAtFrame frame w'.1))
  /\ (forall atan2 fuel draws rand_numbers,
        ValidateState (InitializeEntities ENTITY_COUNT draws) = false ->
        main atan2 fuel draws rand_numbers = Some InitialValidationFailed).
Proof.
  split; [|split].
  - intros s. rewrite ValidateState_checks, andb_false_iff.
    split; (intros [H|H]; [left; exact H|right]).
    + apply not_true_iff_false in H. rewrite forallb_forall in H.
      destruct (existsb (fun i => negb (entity_passes s i)) (entities s))
        eqn:He.
      * apply existsb_exists in He as (i & Hi & Hp).
        exists i. apply list_elem_of_In, elem_of_seq in Hi.
        split; [lia|]. apply negb_true_iff. exact Hp.
      * exfalso. apply H. intros i Hi.
        destruct (entity_passes s i) eqn:Hp; [reflexivity|].
        assert (existsb (fun i => negb (entity_passes s i)) (entities s)
                = true); [|congruence].
        apply existsb_exists. exists i. rewrite Hp. auto.
    + destruct H as (i & Hi & Hp). apply not_true_iff_false.
      rewrite forallb_forall. intros Hall.
      rewrite (Hall i) in Hp; [discriminate|].
      apply list_elem_of_In, elem_of_seq. lia.
  - intros atan2 fuel dt frames frame w w' Hf Hv. cbn [main_loop].
    rewrite Hf. cbn [mbind option_bind]. rewrite Hv. reflexivity.
  - intros atan2 fuel draws rand_numbers Hv. unfold main. rewrite Hv.
    reflexivity.
Qed.



(** ** States for the examples *)

Lemma population_well_formed agents : well_formed (population agents).
Proof. constructor; cbn; apply length_fmap. Qed.

Lemma example_draws_in_range i : draws_in_range (example_draws i).
Proof.
  unfold example_draws.
  assert (H : i mod 3 < 3) by (apply Nat.mod_upper_bound; lia).
  destruct (i mod 3) as [|[|[|n]]]; [| | |lia];
    vm_compute; repeat split; reflexivity.
Qed.

Lemma C1_witness :
  is_Some (Frames atan2_zero 4 3 (InitializeEntities 3 example_draws,
                                  example_rand) DELTA_TIME)
  /\ forall w,
       Frames atan2_zero 4 3 (InitializeEntities 3 example_draws,
                              example_rand) DELTA_TIME = Some w ->
       forall i, i < entity_count w.1 -> agent_in_bounds w.1 i.
Proof.
  split.
  - eexists. vm_compute. reflexivity.
  - intros w Hw.
    apply (C1_needs_and_position_stay_in_bounds atan2_zero 4 3 3
             example_draws example_numbers w).
    + intros i _. apply example_draws_in_range.
    + exact Hw.
Defined.


Lemma C2_counterexample :
  alive gliding_agent 0 = true
  /\ current_action (actions gliding_agent) !!! 0 = IDLE
  /\ velocity_x (transforms gliding_agent) !!! 0 = F32.of_int 10
  /\ velocity_y (transforms gliding_agent) !!! 0 = f0
  /\ velocity_x (transforms
                   (KineticSystem_Update atan2_zero gliding_agent DELTA_TIME))
       !!! 0 <> F32.of_int 9.
Proof. vm_compute. repeat split; discriminate. Qed.

Lemma C2_witness :
  let fast := KineticSystem_Update atan2_zero gliding_agent DELTA_TIME in
  let slow := KineticSystem_Update atan2_zero drifting_agent DELTA_TIME in
  (F32.of_int 10 * F32.dec 9 10)%f32 = F32.of_int 9
  /\ velocity_x (transforms fast) !!! 0 = F32.of_int 5
  /\ velocity_y (transforms fast) !!! 0 = f0
  /\ velocity_x (transforms slow) !!! 0 = (F32.of_int 3 * F32.dec 9 10)%f32
  /\ velocity_x (transforms slow) !!! 0 <> F32.of_int 3.
Proof.
  cbv zeta.
  destruct (C2_damped_velocity_is_clamped atan2_zero DELTA_TIME
              gliding_agent 0 (F32.of_int 10) f0) as [_ Hfast].
  - apply population_well_formed.
  - vm_compute. lia.
  - reflexivity.
  - left. reflexivity.
  - reflexivity.
  - reflexivity.
  - destruct (Hfast eq_refl eq_refl) as (H9 & _ & H5 & H0).
    destruct (C2_damped_velocity_is_clamped atan2_zero DELTA_TIME
                drifting_agent 0 (F32.of_int 3) f0) as [Hslow _].
    + apply population_well_formed.
    + vm_compute. lia.
    + reflexivity.
    + left. reflexivity.
    + reflexivity.
    + reflexivity.
    + cbv zeta in Hslow.
      assert (Hbelow : ((F32.of_int 3 * F32.dec 9 10
                         * (F32.of_int 3 * F32.dec 9 10)
                         + f0 * F32.dec 9 10 * (f0 * F32.dec 9 10))
                        >? MAX_SPEED * MAX_SPEED)%f32 = false)
        by (vm_compute; reflexivity).
      rewrite Hbelow in Hslow.
      pose proof (f_equal fst Hslow) as Hsx. cbn [fst] in Hsx.
      split; [exact H9|]. split; [exact H5|]. split; [exact H0|].
      split; [exact Hsx|]. rewrite Hsx. vm_compute. discriminate.
Defined.

Lemma C3_counterexample :
  alive (starving_agent f0) 0 = true
  /\ hunger (needs (starving_agent f0)) !!! 0 = f1
  /\ energy (needs (starving_agent f0)) !!! 0 = f0
  /\ current_action
       (actions (UtilitySystem_Update (starving_agent f0, example_rand)
                                      DELTA_TIME).1) !!! 0 = FLEE.
Proof. vm_compute. repeat split; reflexivity. Qed.

Lemma C3_witness :
  CalculateEatUtility (starving_agent f1) 0 = f1
  /\ CalculateSleepUtility (starving_agent f1) 0 = f1
  /\ current_action
       (actions (UtilitySystem_Update (starving_agent f1, example_rand)
                                      DELTA_TIME).1) !!! 0 = EAT.
Proof.
  destruct C3_tie_break_by_priority as [H _].
  apply (H (starving_agent f1) example_rand DELTA_TIME 0 false).
  - apply population_well_formed.
  - vm_compute. lia.
  - reflexivity.
  - reflexivity.
  - reflexivity.
Defined.

Lemma C4_counterexample :
  ~ (forall x y gx gy,
       cell_index x = Some gx -> cell_index y = Some gy ->
       forall c, c ∈ neighborhood gx gy <-> c ∈ wrapped_neighborhood gx gy).
Proof.
  intros H.
  assert (Hc : cell_index (F32.of_int 5) = Some 0%Z) by reflexivity.
  specialize (H _ _ _ _ Hc Hc (99, 99)%Z).
  apply (neighborhood_skips_below 0 99). apply H.
  vm_compute. apply list_elem_of_here.
Qed.

Lemma C4_witness :
  neighborhood 100 100 = wrapped_neighborhood 100 100
  /\ (0, 0)%Z ∈ neighborhood 100 100.
Proof.
  destruct (C4_neighborhood_of_an_observer SpatialGrid_Clear 100 100)
    as (_ & _ & H & _).
  split; [apply H; lia|].
  vm_compute. do 4 apply list_elem_of_further. apply list_elem_of_here.
Defined.

Lemma C5_counterexample :
  cell_index (position_x (transforms border_agents) !!! 0) = Some 99%Z
  /\ cell_index (position_y (transforms border_agents) !!! 0) = Some 50%Z
  /\ exists g,
       rebuild_grid border_agents = Some g
       /\ 1 ∈ g 0%Z 50%Z
       /\ (0, 50)%Z ∈ neighborhood 99 50.
Proof.
  split; [reflexivity|]. split; [reflexivity|].
  eexists. split; [reflexivity|]. split.
  - vm_compute. apply list_elem_of_here.
  - vm_compute. do 7 apply list_elem_of_further. apply list_elem_of_here.
Qed.

Lemma C6_witness :
  let decided :=
    (UtilitySystem_Update (hunter_and_prey, example_rand) DELTA_TIME).1 in
  let moved := KineticSystem_Update atan2_zero decided DELTA_TIME in
  (target_entity (actions decided) !!! 0 = 1%N
   /\ target_x (actions decided) !!! 0 = F32.of_int 50
   /\ target_y (actions decided) !!! 0 = F32.of_int 50
   /\ target_x (actions moved) !!! 0 = F32.of_int 50
   /\ target_y (actions moved) !!! 0 = F32.of_int 50)
  /\ position_x (transforms moved) !!! 1 <> F32.of_int 50.
Proof.
  split.
  - apply (C6_attack_target_is_a_snapshot atan2_zero hunter_and_prey
             example_rand DELTA_TIME 0 1 []).
    + apply population_well_formed.
    + vm_compute. lia.
    + reflexivity.
    + reflexivity.
    + reflexivity.
    + reflexivity.
    + vm_compute. reflexivity.
  - vm_compute. discriminate.
Defined.

Lemma C7_witness :
  is_Some (Frame atan2_zero 4 (living_and_dead, example_rand) DELTA_TIME)
  /\ forall w',
       Frame atan2_zero 4 (living_and_dead, example_rand) DELTA_TIME
       = Some w' ->
       (forall o, 1 ∉ visible_entities (stimulus_buffer w'.1) !!! o)
       /\ decision_at w'.1 1 = decision_at living_and_dead 1
       /\ needs_at w'.1 1 = needs_at living_and_dead 1
       /\ body_at w'.1 1 = body_at living_and_dead 1
       /\ alive w'.1 1 = false.
Proof.
  split.
  - eexists. vm_compute. reflexivity.
  - intros w' Hw.
    apply (C7_dead_agents_are_left_alone atan2_zero 4 DELTA_TIME
             (living_and_dead, example_rand) w' 1 Hw).
    reflexivity.
Defined.

Lemma C8_witness :
  let decided :=
    (UtilitySystem_Update (explorer, example_rand) DELTA_TIME).1 in
  exists c,
    let ox := explore_offset example_numbers c in
    let oy := explore_offset example_numbers (S c) in
    target_x (actions decided) !!! 0
    = (position_x (transforms decided) !!! 0 + F32.of_int ox)%f32
    /\ target_y (actions decided) !!! 0
       = (position_y (transforms decided) !!! 0 + F32.of_int oy)%f32
    /\ (-10 <= ox <= 10)%Z /\ (-10 <= oy <= 10)%Z.
Proof.
  apply (C8_explore_target_offsets explorer example_rand DELTA_TIME 0).
  - apply population_well_formed.
  - vm_compute. lia.
  - reflexivity.
  - vm_compute. reflexivity.
Defined.

Lemma C9_counterexample :
  HealthComponents_Size (health unchecked_state)
    <> entity_count unchecked_state
  /\ F32.is_nan (position_y (transforms unchecked_state) !!! 0) = true
  /\ (energy (needs unchecked_state) !!! 0 >? f1)%f32 = true
  /\ ValidateState unchecked_state = true.
Proof. vm_compute. repeat split; discriminate. Qed.

Lemma C9_witness :
  exists s',
    main_loop atan2_zero 4 DELTA_TIME SIMULATION_FRAMES 0
              (poisoned_state, example_rand)
    = Some (ValidationFailedAtFrame 0 s')
    /\ sizes_pass s' = true
    /\ entity_passes s' 0 = false.
Proof.
  assert (exists w', Frame atan2_zero 4 (poisoned_state, example_rand)
                           DELTA_TIME = Some w'
                     /\ ValidateState w'.1 = false
                     /\ sizes_pass w'.1 = true
                     /\ entity_passes w'.1 0 = false)
    as (w' & Hf & Hv & Hs & He)
    by (eexists; repeat split; vm_compute; reflexivity).
  exists w'.1. split; [|split; assumption].
  destruct C9_validator_and_fatal_failure as (_ & H & _).
  apply (H atan2_zero 4 DELTA_TIME 99 0 (poisoned_state, example_rand) w');
    assumption.
Defined.

Lemma C10_witness :
  selectable
    (current_action
       (actions (UtilitySystem_Update (explorer, example_rand) DELTA_TIME).1)
       !!! 0)
  /\ forall w,
       Frames atan2_zero 4 3 (InitializeEntities 3 example_draws,
                              example_rand) DELTA_TIME = Some w ->
       forall i,
         selectable (current_action (actions w.1) !!! i)
         /\ current_action (actions w.1) !!! i <> MOVE_TO_TARGET.
Proof.
  destruct C10_move_to_target_is_never_assigned as [H1 H2]. split.
  - apply H1; [apply population_well_formed|vm_compute; lia|reflexivity].
  - intros w Hw.
    apply (H2 atan2_zero 4 3 3 example_draws example_numbers DELTA_TIME w Hw).
Defined.


Lemma well_formed_shape s :
  well_formed s
  <-> array_lengths s = replicate 25 (entity_count s).
Proof.
  unfold array_lengths. split.
  - intros []. cbn [replicate]. congruence.
  - cbn [replicate]. intros H0.
    injection H0; intros.
    constructor; assumption.
Qed.

Lemma same_shape_well_formed s s' :
  shape s' = shape s -> well_formed s -> well_formed s'.
Proof.
  intros Hs Hw.
  assert (He : entity_count s' = entity_count s) by exact (f_equal fst Hs).
  assert (Hl : array_lengths s' = array_lengths s) by exact (f_equal snd Hs).
  apply well_formed_shape.
  rewrite Hl, He. apply well_formed_shape. exact Hw.
Qed.

Ltac same_shape :=
  unfold shape, array_lengths; repeat case_match; cbn;
  rewrite ?length_insert, ?length_fmap; reflexivity.

Section Shape.
Variable atan2 : float -> float -> float.

Lemma apply_movement_shape dt s i :
  shape (apply_movement atan2 dt s i) = shape s.
Proof. unfold apply_movement. same_shape. Qed.

Lemma clamp_speed_shape s i : shape (clamp_speed s i) = shape s.
Proof. unfold clamp_speed. same_shape. Qed.

Lemma integrate_position_shape dt s i :
  shape (integrate_position dt s i) = shape s.
Proof. unfold integrate_position. same_shape. Qed.

Lemma world_bounds_shape s i : shape (world_bounds s i) = shape s.
Proof. unfold world_bounds. same_shape. Qed.

Lemma KineticSystem_step_shape dt s i :
  shape (KineticSystem_step atan2 dt s i) = shape s.
Proof.
  unfold KineticSystem_step. destruct (negb (alive s i)); [reflexivity|].
  rewrite world_bounds_shape, integrate_position_shape, clamp_speed_shape,
    apply_movement_shape.
  reflexivity.
Qed.

Lemma KineticSystem_Update_shape s dt :
  shape (KineticSystem_Update atan2 s dt) = shape s.
Proof.
  unfold KineticSystem_Update.
  apply (fold_left_invariant (fun s' => shape s' = shape s)); [reflexivity|].
  intros s' i _ H. rewrite KineticSystem_step_shape. exact H.
Qed.

Lemma set_target_shape a w i : shape (set_target a w i).1 = shape w.1.
Proof.
  destruct w as [s r]. unfold set_target, rand.
  destruct a, (visible_entities (stimulus_buffer s) !!! i);
    cbn [fst]; same_shape.
Qed.

Lemma UtilitySystem_step_shape w i :
  shape (UtilitySystem_step w i).1 = shape w.1.
Proof.
  destruct w as [s r]. unfold UtilitySystem_step.
  destruct (negb (alive s i)); [reflexivity|].
  destruct (decide_action s i) as [u a]. rewrite set_target_shape.
  cbn [fst]. same_shape.
Qed.

Lemma UtilitySystem_Update_shape w dt :
  shape (UtilitySystem_Update w dt).1 = shape w.1.
Proof.
  unfold UtilitySystem_Update.
  apply (fold_left_invariant (fun w' => shape w'.1 = shape w.1));
    [reflexivity|].
  intros w' i _ H. rewrite UtilitySystem_step_shape. exact H.
Qed.

Lemma hunger_rises_shape dt s i : shape (hunger_rises dt s i) = shape s.
Proof. unfold hunger_rises. same_shape. Qed.
Lemma energy_changes_shape dt a s i :
  shape (energy_changes dt a s i) = shape s.
Proof. unfold energy_changes. same_shape. Qed.
Lemma eating_reduces_hunger_shape dt a s i :
  shape (eating_reduces_hunger dt a s i) = shape s.
Proof. unfold eating_reduces_hunger. same_shape. Qed.
Lemma safety_changes_shape dt s i : shape (safety_changes dt s i) = shape s.
Proof. unfold safety_changes. same_shape. Qed.
Lemma curiosity_fluctuates_shape dt n s i :
  shape (curiosity_fluctuates dt n s i) = shape s.
Proof. unfold curiosity_fluctuates. same_shape. Qed.

Lemma NeedsSystem_step_shape dt w i :
  shape (NeedsSystem_step dt w i).1 = shape w.1.
Proof.
  destruct w as [s r]. unfold NeedsSystem_step, rand.
  destruct (negb (alive s i)); [reflexivity|]. cbn [fst].
  rewrite curiosity_fluctuates_shape, safety_changes_shape,
    eating_reduces_hunger_shape, energy_changes_shape, hunger_rises_shape.
  reflexivity.
Qed.

Lemma NeedsSystem_Update_shape w dt :
  shape (NeedsSystem_Update w dt).1 = shape w.1.
Proof.
  unfold NeedsSystem_Update.
  apply (fold_left_invariant (fun w' => shape w'.1 = shape w.1));
    [reflexivity|].
  intros w' i _ H. rewrite NeedsSystem_step_shape. exact H.
Qed.

Lemma observe_shape fuel s o s' :
  observe atan2 fuel s o = Some s' -> shape s' = shape s.
Proof.
  unfold observe. intros H.
  destruct (negb (alive s o)); [injection H as <-; reflexivity|].
  destruct (cell_index (position_x (transforms s) !!! o)) as [gx|];
    cbn [mbind option_bind] in H; [|discriminate].
  destruct (cell_index (position_y (transforms s) !!! o)) as [gy|];
    cbn [mbind option_bind] in H; [|discriminate].
  destruct (_ || _); [discriminate|].
  destruct (foldM _ _ _) as [seen|]; cbn [mbind option_bind] in H;
    [|discriminate].
  injection H as <-. same_shape.
Qed.

Lemma PerceptionSystem_Update_shape fuel s dt s' :
  PerceptionSystem_Update atan2 fuel s dt = Some s' -> shape s' = shape s.
Proof.
  unfold PerceptionSystem_Update.
  destruct (rebuild_grid s) as [g|]; cbn [mbind option_bind];
    [|discriminate].
  apply (foldM_invariant (fun s' => shape s' = shape s)).
  - same_shape.
  - intros s1 o s2 _ H1 H2. rewrite (observe_shape _ _ _ _ H2). exact H1.
Qed.

Lemma Frame_shape fuel w dt w' :
  Frame atan2 fuel w dt = Some w' -> shape w'.1 = shape w.1.
Proof.
  unfold Frame. intros H.
  destruct (PerceptionSystem_Update atan2 fuel w.1 dt) as [s1|] eqn:Hp;
    cbn [mbind option_bind] in H; [|discriminate].
  injection H as <-.
  rewrite NeedsSystem_Update_shape. cbn [fst].
  rewrite KineticSystem_Update_shape, UtilitySystem_Update_shape. cbn [fst].
  eapply PerceptionSystem_Update_shape. exact Hp.
Qed.

Lemma Frames_shape fuel frames dt : forall w w',
  Frames atan2 fuel frames w dt = Some w' -> shape w'.1 = shape w.1.
Proof.
  induction frames as [|n IH]; intros w w' H; cbn [Frames] in H.
  - injection H as <-. reflexivity.
  - destruct (Frame atan2 fuel w dt) as [w1|] eqn:Hf;
      cbn [mbind option_bind] in H; [|discriminate].
    rewrite (IH _ _ H). eapply Frame_shape. exact Hf.
Qed.
End Shape.

Lemma resize_length {A : Type} count (v : A) l :
  length (resize count v l) = count.
Proof.
  unfold resize. rewrite length_app, length_take, length_replicate. lia.
Qed.

Lemma GameState_Initialize_well_formed count s :
  well_formed (GameState_Initialize count s)
  /\ entity_count (GameState_Initialize count s) = count.
Proof. split; [constructor; cbn; apply resize_length|reflexivity]. Qed.

Lemma InitializeEntities_step_shape draws s i :
  shape (InitializeEntities_step draws s i) = shape s.
Proof. unfold InitializeEntities_step. same_shape. Qed.

Lemma InitializeEntities_shape count draws :
  shape (InitializeEntities count draws)
  = shape (GameState_Initialize count GameState_empty).
Proof.
  unfold InitializeEntities.
  apply (fold_left_invariant
           (fun s => shape s = shape (GameState_Initialize count GameState_empty)));
    [reflexivity|].
  intros s i _ H. rewrite InitializeEntities_step_shape. exact H.
Qed.

Lemma InitializeEntities_well_formed count draws :
  well_formed (InitializeEntities count draws)
  /\ entity_count (InitializeEntities count draws) = count.
Proof.
  pose proof (InitializeEntities_shape count draws) as H.
  destruct (GameState_Initialize_well_formed count GameState_empty) as [Hw Hc].
  split.
  - eapply same_shape_well_formed; [exact H|exact Hw].
  - rewrite <- Hc. exact (f_equal fst H).
Qed.


Lemma foldM_seq_invariant {St : Type} (P : nat -> St -> Prop)
    (body : St -> nat -> option St) n :
  forall a s s', P a s ->
  (forall k s s', a <= k < a + n -> P k s -> body s k = Some s' -> P (S k) s') ->
  foldM body (seq a n) s = Some s' -> P (a + n) s'.
Proof.
  induction n as [|n IH]; intros a s s' H0 Hstep Hrun; cbn [seq foldM] in Hrun.
  - injection Hrun as <-. rewrite Nat.add_0_r. exact H0.
  - destruct (body s a) as [s1|] eqn:Hb; cbn [mbind option_bind] in Hrun;
      [|discriminate].
    rewrite <- Nat.add_succ_comm. apply (IH (S a) s1 s'); [| |exact Hrun].
    + apply (Hstep a s s1); [lia|exact H0|exact Hb].
    + intros k s2 s3 Hk. apply Hstep. lia.
Qed.

Section Sight.
Variable atan2 : float -> float -> float.

Lemma scan_target_passes fuel s o seen t seen' :
  scan_target atan2 fuel s o seen t = Some seen' ->
  seen' = seen ++ (if passes atan2 fuel s o t then [t] else []).
Proof.
  unfold scan_target, passes.
  destruct (Nat.eqb t o); cbn [negb andb];
    [intros [= <-]; rewrite app_nil_r; reflexivity|].
  destruct (alive s t); cbn [negb andb];
    [|intros [= <-]; rewrite app_nil_r; reflexivity].
  destruct (in_view _ _ _ _ _ _ _ _ _) as [[]|];
    cbn [mbind option_bind]; intros [= <-];
    rewrite ?app_nil_r; reflexivity.
Qed.

Lemma scan_targets_passes fuel s o cands : forall seen seen',
  foldM (scan_target atan2 fuel s o) cands seen = Some seen' ->
  seen' = seen ++ List.filter (passes atan2 fuel s o) cands.
Proof.
  induction cands as [|t cands IH]; intros seen seen' Hrun;
    cbn [foldM] in Hrun.
  - injection Hrun as <-. cbn. rewrite app_nil_r. reflexivity.
  - destruct (scan_target atan2 fuel s o seen t) as [seen1|] eqn:Ht;
      cbn [mbind option_bind] in Hrun; [|discriminate].
    apply scan_target_passes in Ht. apply IH in Hrun. subst seen1 seen'.
    cbn [List.filter]. destruct (passes atan2 fuel s o t);
      rewrite <- app_assoc; reflexivity.
Qed.

(** What the body of the observer loop does. *)
Lemma observe_spec fuel s o s' :
  observe atan2 fuel s o = Some s' ->
  if alive s o
  then exists gx gy,
      cell_index (position_x (transforms s) !!! o) = Some gx
      /\ cell_index (position_y (transforms s) !!! o) = Some gy
      /\ let seen :=
           visible_entities (stimulus_buffer s) !!! o
           ++ List.filter (passes atan2 fuel s o)
                (candidates (spatial_grid s) gx gy) in
         s' = set_visible_entity_count o (length seen)
                (set_visible_entities o seen s)
  else s' = s.
Proof.
  unfold observe. intros H.
  destruct (alive s o); cbn [negb] in H; [|injection H as <-; reflexivity].
  destruct (cell_index (position_x (transforms s) !!! o)) as [gx|];
    cbn [mbind option_bind] in H; [|discriminate].
  destruct (cell_index (position_y (transforms s) !!! o)) as [gy|];
    cbn [mbind option_bind] in H; [|discriminate].
  destruct (_ || _); [discriminate|].
  destruct (foldM _ _ _) as [seen|] eqn:Hscan;
    cbn [mbind option_bind] in H; [|discriminate].
  injection H as <-. apply scan_targets_passes in Hscan. subst seen.
  exists gx, gy. auto.
Qed.

Lemma passes_ext fuel s s' o t :
  transforms s' = transforms s -> health s' = health s ->
  view_range (perception s') = view_range (perception s) ->
  view_angle (perception s') = view_angle (perception s) ->
  passes atan2 fuel s' o t = passes atan2 fuel s o t.
Proof.
  intros Ht Hh Hr Ha. unfold passes, alive. rewrite Ht, Hh, Hr, Ha.
  reflexivity.
Qed.

(** The visible sets and the counts at the end of the perception system. *)
Lemma PerceptionSystem_Update_spec fuel s dt s' :
  well_formed s ->
  PerceptionSystem_Update atan2 fuel s dt = Some s' ->
  exists g, rebuild_grid s = Some g /\
  forall o, o < entity_count s ->
    if alive s o
    then exists gx gy,
        cell_index (position_x (transforms s) !!! o) = Some gx
        /\ cell_index (position_y (transforms s) !!! o) = Some gy
        /\ visible_entities (stimulus_buffer s') !!! o
           = List.filter (passes atan2 fuel s o) (candidates g gx gy)
        /\ visible_entity_count (perception s') !!! o
           = length (visible_entities (stimulus_buffer s') !!! o)
    else visible_entities (stimulus_buffer s') !!! o = []
         /\ visible_entity_count (perception s') !!! o
            = visible_entity_count (perception s) !!! o.
Proof.
  intros Hwf. unfold PerceptionSystem_Update.
  destruct (rebuild_grid s) as [g|]; cbn [mbind option_bind];
    [|discriminate].
  intros Hrun. exists g. split; [reflexivity|].
  set (post := fun (sk : GameState) (o : nat) =>
    if alive s o
    then exists gx gy,
        cell_index (position_x (transforms s) !!! o) = Some gx
        /\ cell_index (position_y (transforms s) !!! o) = Some gy
        /\ visible_entities (stimulus_buffer sk) !!! o
           = List.filter (passes atan2 fuel s o) (candidates g gx gy)
        /\ visible_entity_count (perception sk) !!! o
           = length (visible_entities (stimulus_buffer sk) !!! o)
    else visible_entities (stimulus_buffer sk) !!! o = []
         /\ visible_entity_count (perception sk) !!! o
            = visible_entity_count (perception s) !!! o).
  set (inv := fun (k : nat) (sk : GameState) =>
    transforms sk = transforms s /\ health sk = health s
    /\ view_range (perception sk) = view_range (perception s)
    /\ view_angle (perception sk) = view_angle (perception s)
    /\ spatial_grid sk = g /\ shape sk = shape s
    /\ (forall o, k <= o ->
          visible_entities (stimulus_buffer sk) !!! o = []
          /\ visible_entity_count (perception sk) !!! o
             = visible_entity_count (perception s) !!! o)
    /\ (forall o, o < k -> post sk o)).
  assert (Hinv : inv (0 + entity_count s) s').
  { revert Hrun. unfold entities. cbn [entity_count with_stimulus_buffer
      with_spatial_grid].
    apply (foldM_seq_invariant inv).
    - unfold inv. do 5 (split; [reflexivity|]). split; [same_shape|]. split.
      + intros o _. split; [apply cleared_lookup|reflexivity].
      + intros o Ho. lia.
    - clear s'. intros k sk sk' Hk (Ht & Hh & Hr & Ha & Hg & Hsh & Hnew & Hold)
        Hstep.
      pose proof (observe_shape atan2 _ _ _ _ Hstep) as Hsh'.
      apply observe_spec in Hstep. unfold alive in Hstep. rewrite Hh in Hstep.
      fold (alive s k) in Hstep.
      destruct (alive s k) eqn:Hlive.
      + destruct Hstep as (gx & gy & Hgx & Hgy & Hs'). cbn zeta in Hs'.
        destruct (Hnew k (Nat.le_refl k)) as [Hnil Hcount].
        rewrite Hnil, app_nil_l, Hg in Hs'.
        assert (Hf : List.filter (passes atan2 fuel sk k) (candidates g gx gy)
                     = List.filter (passes atan2 fuel s k)
                         (candidates g gx gy)).
        { apply filter_ext. intros t. apply passes_ext; assumption. }
        rewrite Hf in Hs'. clear Hf. rewrite Ht in Hgx, Hgy.
        pose proof (same_shape_well_formed _ _ Hsh Hwf) as Hwk.
        assert (He : entity_count sk = entity_count s)
          by exact (f_equal fst Hsh).
        subst sk'. unfold inv. cbn.
        repeat split; try assumption.
        * rewrite <- Hsh. exact Hsh'.
        * rewrite list_lookup_total_insert_ne by lia. apply Hnew. lia.
        * rewrite list_lookup_total_insert_ne by lia. apply Hnew. lia.
        * intros o Ho. unfold post. cbn.
          destruct (decide (o = k)) as [->|Hne].
          -- rewrite Hlive. exists gx, gy.
             rewrite !list_lookup_total_insert_eq.
             ++ auto.
             ++ rewrite (wf_visible_entity_count _ Hwk). lia.
             ++ rewrite (wf_visible_entities _ Hwk). lia.
          -- rewrite !list_lookup_total_insert_ne by lia.
             apply Hold. lia.
      + subst sk'. unfold inv. repeat split; try assumption.
        * apply Hnew. lia.
        * apply Hnew. lia.
        * intros o Ho. destruct (decide (o = k)) as [->|Hne].
          -- unfold post. rewrite Hlive. apply Hnew. lia.
          -- apply Hold. lia. }
  intros o Ho. destruct Hinv as (_ & _ & _ & _ & _ & _ & _ & Hpost).
  apply Hpost. lia.
Qed.
End Sight.



(** ** The buckets of the grid *)

Lemma filter_seq_sorted (f : nat -> bool) n : forall a,
  StronglySorted lt (List.filter f (seq a n)).
Proof.
  induction n as [|n IH]; intros a; cbn [seq List.filter]; [constructor|].
  destruct (f a); [|apply IH]. constructor; [apply IH|].
  apply List.Forall_forall. intros x Hx. apply filter_In in Hx as [Hx _].
  apply in_seq in Hx. lia.
Qed.

Lemma filed_in_cell s cx cy id :
  filed_in s cx cy id = true ->
  alive s id = true
  /\ insert_cell (position_x (transforms s) !!! id)
                 (position_y (transforms s) !!! id) = Some (Some (cx, cy))
  /\ in_grid cx = true /\ in_grid cy = true.
Proof.
  unfold filed_in. intros H. apply andb_true_iff in H as [Ha H].
  split; [exact Ha|].
  destruct (insert_cell _ _) as [[[x y]|]|] eqn:Hc; try discriminate.
  apply andb_true_iff in H as [Hx Hy].
  apply Z.eqb_eq in Hx, Hy. subst x y. split; [reflexivity|].
  unfold insert_cell in Hc.
  destruct (cell_index (position_x _ !!! id)) as [gx|];
    cbn [mbind option_bind] in Hc; [|discriminate].
  destruct (cell_index (position_y _ !!! id)) as [gy|];
    cbn [mbind option_bind] in Hc; [|discriminate].
  destruct (in_grid (Z.rem gx GRID_SIZE)) eqn:Hgx; cbn [andb] in Hc;
    [|discriminate].
  destruct (in_grid (Z.rem gy GRID_SIZE)) eqn:Hgy; [|discriminate].
  injection Hc as <- <-. auto.
Qed.

(** X1.  After the rebuild of the grid, a bucket holds live entities only,
    in strictly ascending order of their ids; no entity is in two buckets;
    and a bucket with an index outside the [GRID_SIZE x GRID_SIZE] array is
    empty: the insertion never writes outside the array. *)
Theorem rebuild_grid_partitions_the_living (s : GameState) (g : SpatialGrid) :
  rebuild_grid s = Some g ->
  (forall cx cy, StronglySorted lt (g cx cy))
  /\ (forall cx cy id,
        id ∈ g cx cy -> id < entity_count s /\ alive s id = true)
  /\ (forall cx cy cx' cy' id,
        id ∈ g cx cy -> id ∈ g cx' cy' -> cx = cx' /\ cy = cy')
  /\ (forall cx cy, in_grid cx && in_grid cy = false -> g cx cy = []).
Proof.
  intros Hg. split; [|split; [|split]].
  - intros cx cy. rewrite (rebuild_grid_buckets s g Hg).
    apply filter_seq_sorted.
  - intros cx cy id Hid. apply (filed_in_bucket s g cx cy id Hg) in Hid.
    destruct Hid as [Hlt Hf]. apply filed_in_cell in Hf. tauto.
  - intros cx cy cx' cy' id H1 H2.
    apply (filed_in_bucket s g _ _ id Hg) in H1 as [_ H1].
    apply (filed_in_bucket s g _ _ id Hg) in H2 as [_ H2].
    apply filed_in_cell in H1 as (_ & H1 & _).
    apply filed_in_cell in H2 as (_ & H2 & _).
    rewrite H1 in H2. injection H2 as -> ->. auto.
  - intros cx cy Hout. destruct (g cx cy) as [|id l] eqn:Hb; [reflexivity|].
    assert (Hid : id ∈ g cx cy) by (rewrite Hb; left).
    apply (filed_in_bucket s g _ _ id Hg) in Hid as [_ Hid].
    apply filed_in_cell in Hid as (_ & _ & Hx & Hy).
    rewrite Hx, Hy in Hout. discriminate.
Qed.

Lemma rebuild_grid_partitions_the_living_witness :
  exists g,
    rebuild_grid living_and_dead = Some g
    /\ g 50%Z 50%Z = [0]
    /\ (forall cx cy, StronglySorted lt (g cx cy))
    /\ (forall cx cy id,
          id ∈ g cx cy
          -> id < entity_count living_and_dead
             /\ alive living_and_dead id = true)
    /\ (forall cx cy cx' cy' id,
          id ∈ g cx cy -> id ∈ g cx' cy' -> cx = cx' /\ cy = cy')
    /\ (forall cx cy, in_grid cx && in_grid cy = false -> g cx cy = []).
Proof.
  destruct (rebuild_grid living_and_dead) as [g|] eqn:Hg;
    [|vm_compute in Hg; discriminate].
  exists g. split; [reflexivity|]. split.
  - rewrite (rebuild_grid_buckets _ _ Hg). vm_compute. reflexivity.
  - apply (rebuild_grid_partitions_the_living living_and_dead g Hg).
Defined.

(** ** The cells an observer visits *)

Section Visits.
Local Open Scope Z_scope.

Lemma rem_offsets_injective g d d' :
  -1 <= d <= 1 -> -1 <= d' <= 1 ->
  Z.rem (g + d) GRID_SIZE = Z.rem (g + d') GRID_SIZE -> d = d'.
Proof.
  unfold GRID_SIZE. intros Hd Hd' H.
  pose proof (Z.quot_rem' (g + d) 100) as H1.
  pose proof (Z.quot_rem' (g + d') 100) as H2. lia.
Qed.

Lemma neighbor_offsets_range d : d ∈ neighbor_offsets -> -1 <= d <= 1.
Proof.
  unfold neighbor_offsets. intros H.
  repeat (apply elem_of_cons in H as [->|H]; [lia|]).
  apply elem_of_nil in H. contradiction.
Qed.

Lemma neighbor_offsets_NoDup : NoDup neighbor_offsets.
Proof.
  unfold neighbor_offsets.
  repeat (apply NoDup_cons; split;
          [rewrite ?elem_of_cons, elem_of_nil; lia|]).
  apply NoDup_nil. exact I.
Qed.

Lemma neighborhood_NoDup gx gy : NoDup (neighborhood gx gy).
Proof.
  unfold neighborhood. apply NoDup_bind; [| |apply neighbor_offsets_NoDup].
  - intros dx dx' [cx cy] Hdx Hdx' H1 H2.
    apply list_elem_of_bind in H1 as (dy & H1 & _).
    apply list_elem_of_bind in H2 as (dy' & H2 & _).
    cbn zeta in H1, H2.
    destruct (in_grid (Z.rem (gx + dx) GRID_SIZE)
              && in_grid (Z.rem (gy + dy) GRID_SIZE));
      [|apply elem_of_nil in H1; contradiction].
    destruct (in_grid (Z.rem (gx + dx') GRID_SIZE)
              && in_grid (Z.rem (gy + dy') GRID_SIZE));
      [|apply elem_of_nil in H2; contradiction].
    apply list_elem_of_singleton in H1, H2.
    injection H1 as Hx _. injection H2 as Hx' _.
    apply (rem_offsets_injective gx);
      [apply neighbor_offsets_range; exact Hdx
      |apply neighbor_offsets_range; exact Hdx'|congruence].
  - intros dx Hdx. apply NoDup_bind; [| |apply neighbor_offsets_NoDup].
    + intros dy dy' [cx cy] Hdy Hdy' H1 H2. cbn zeta in H1, H2.
      destruct (in_grid (Z.rem (gx + dx) GRID_SIZE)
                && in_grid (Z.rem (gy + dy) GRID_SIZE));
        [|apply elem_of_nil in H1; contradiction].
      destruct (in_grid (Z.rem (gx + dx) GRID_SIZE)
                && in_grid (Z.rem (gy + dy') GRID_SIZE));
        [|apply elem_of_nil in H2; contradiction].
      apply list_elem_of_singleton in H1, H2.
      injection H1 as _ Hy. injection H2 as _ Hy'.
      apply (rem_offsets_injective gy);
        [apply neighbor_offsets_range; exact Hdy
        |apply neighbor_offsets_range; exact Hdy'|congruence].
    + intros dy Hdy. cbn zeta. destruct (_ && _);
        [apply NoDup_singleton|apply NoDup_nil; exact I].
Qed.

Lemma neighborhood_in_grid gx gy cx cy :
  (cx, cy) ∈ neighborhood gx gy ->
  0 <= cx < GRID_SIZE /\ 0 <= cy < GRID_SIZE.
Proof.
  intros H. apply neighborhood_spec in H
    as (dx & dy & _ & _ & -> & -> & Hx & Hy).
  unfold GRID_SIZE in *.
  pose proof (Z.rem_bound_pos_pos (gx + dx) 100).
  pose proof (Z.rem_bound_abs (gx + dx) 100).
  pose proof (Z.rem_bound_abs (gy + dy) 100). lia.
Qed.
End Visits.

Lemma candidates_NoDup s g gx gy :
  rebuild_grid s = Some g -> NoDup (candidates g gx gy).
Proof.
  intros Hg. unfold candidates.
  apply NoDup_bind; [| |apply neighborhood_NoDup].
  - intros [cx cy] [cx' cy'] id _ _ H1 H2. cbn [fst snd] in H1, H2.
    apply (filed_in_bucket s g _ _ id Hg) in H1 as [_ H1].
    apply (filed_in_bucket s g _ _ id Hg) in H2 as [_ H2].
    apply filed_in_cell in H1 as (_ & H1 & _).
    apply filed_in_cell in H2 as (_ & H2 & _).
    rewrite H1 in H2. injection H2 as -> ->. reflexivity.
  - intros [cx cy] _. cbn [fst snd]. rewrite (rebuild_grid_buckets s g Hg).
    apply NoDup_ListNoDup, List.NoDup_filter, List.seq_NoDup.
Qed.

(** X2.  The two nested loops over [dx] and [dy] visit at most nine cells,
    no cell twice, and every index they use lies inside the
    [GRID_SIZE x GRID_SIZE] array, whatever the cell of the observer. *)
Theorem neighborhood_stays_inside_the_grid (gx gy : Z) :
  NoDup (neighborhood gx gy)
  /\ length (neighborhood gx gy) <= 9
  /\ forall cx cy,
       (cx, cy) ∈ neighborhood gx gy ->
       (0 <= cx < GRID_SIZE)%Z /\ (0 <= cy < GRID_SIZE)%Z.
Proof.
  split; [apply neighborhood_NoDup|]. split.
  - unfold neighborhood, neighbor_offsets.
    cbn [mbind list_bind list_fmap mjoin list_join app].
    rewrite !length_app.
    repeat match goal with
           | |- context [if ?b then _ else _] => destruct b
           end; cbn [length]; lia.
  - apply neighborhood_in_grid.
Qed.



Lemma passes_true atan2 fuel s o t :
  passes atan2 fuel s o t = true ->
  t <> o /\ alive s t = true
  /\ (distance_sq s o t
      >? view_range (perception s) !!! o * view_range (perception s) !!! o)%f32
     = false.
Proof.
  unfold passes, distance_sq, in_view. intros H.
  apply andb_true_iff in H as [H Hv]. apply andb_true_iff in H as [Hne Ha].
  split; [|split; [exact Ha|]].
  - intros ->. rewrite Nat.eqb_refl in Hne. discriminate.
  - destruct (_ >? _)%f32; [discriminate|reflexivity].
Qed.

(** X3.  At the end of the perception system the visible-entity count of a
    live agent is the length of its visible set.  A dead agent has an empty
    visible set and keeps the count it had before. *)
Theorem visible_count_of_the_living_and_the_dead
    (atan2 : float -> float -> float) (fuel : nat) (s s' : GameState)
    (dt : float) (o : EntityID) :
  well_formed s ->
  PerceptionSystem_Update atan2 fuel s dt = Some s' ->
  o < entity_count s ->
  if alive s o
  then visible_entity_count (perception s') !!! o
       = length (visible_entities (stimulus_buffer s') !!! o)
  else visible_entities (stimulus_buffer s') !!! o = []
       /\ visible_entity_count (perception s') !!! o
          = visible_entity_count (perception s) !!! o.
Proof.
  intros Hwf Hrun Ho.
  destruct (PerceptionSystem_Update_spec atan2 fuel s dt s' Hwf Hrun)
    as (g & _ & H).
  specialize (H o Ho). destruct (alive s o); [|exact H].
  destruct H as (gx & gy & _ & _ & _ & H). exact H.
Qed.

Lemma visible_count_of_the_living_and_the_dead_witness :
  exists s',
    PerceptionSystem_Update atan2_zero 4 watcher_and_corpse DELTA_TIME
    = Some s'
    /\ visible_entity_count (perception s') !!! 0
       = length (visible_entities (stimulus_buffer s') !!! 0)
    /\ visible_entities (stimulus_buffer s') !!! 1 = []
    /\ visible_entity_count (perception s') !!! 1 = 1.
Proof.
  destruct (PerceptionSystem_Update atan2_zero 4 watcher_and_corpse
              DELTA_TIME) as [s'|] eqn:Hrun;
    [|vm_compute in Hrun; discriminate].
  exists s'. split; [reflexivity|].
  pose proof (visible_count_of_the_living_and_the_dead atan2_zero 4
                watcher_and_corpse s' DELTA_TIME 0
                (population_well_formed _) Hrun) as H0.
  pose proof (visible_count_of_the_living_and_the_dead atan2_zero 4
                watcher_and_corpse s' DELTA_TIME 1
                (population_well_formed _) Hrun) as H1.
  split; [apply H0; vm_compute; lia|].
  apply H1. vm_compute. lia.
Defined.

(** X4.  The visible set of a live observer is made of the ids of the
    buckets of the cells it visits, in the order of the visits, that pass
    the tests of the innermost loop: nothing else is in it, nothing that
    passes is left out, and the order is that of the buckets. *)
Theorem visible_set_is_the_passing_candidates
    (atan2 : float -> float -> float) (fuel : nat) (s s' : GameState)
    (dt : float) (o : EntityID) :
  well_formed s ->
  PerceptionSystem_Update atan2 fuel s dt = Some s' ->
  o < entity_count s -> alive s o = true ->
  exists g gx gy,
    rebuild_grid s = Some g
    /\ cell_index (position_x (transforms s) !!! o) = Some gx
    /\ cell_index (position_y (transforms s) !!! o) = Some gy
    /\ visible_entities (stimulus_buffer s') !!! o
       = List.filter (passes atan2 fuel s o) (candidates g gx gy).
Proof.
  intros Hwf Hrun Ho Hlive.
  destruct (PerceptionSystem_Update_spec atan2 fuel s dt s' Hwf Hrun)
    as (g & Hg & H).
  specialize (H o Ho). rewrite Hlive in H.
  destruct H as (gx & gy & Hgx & Hgy & H & _).
  exists g, gx, gy. auto.
Qed.

Lemma visible_set_is_the_passing_candidates_witness :
  exists s' g,
    PerceptionSystem_Update atan2_zero 4 hunter_and_prey DELTA_TIME = Some s'
    /\ rebuild_grid hunter_and_prey = Some g
    /\ visible_entities (stimulus_buffer s') !!! 0
       = List.filter (passes atan2_zero 4 hunter_and_prey 0)
           (candidates g 4 5)
    /\ visible_entities (stimulus_buffer s') !!! 0 = [1].
Proof.
  destruct (PerceptionSystem_Update atan2_zero 4 hunter_and_prey DELTA_TIME)
    as [s'|] eqn:Hrun; [|vm_compute in Hrun; discriminate].
  destruct (visible_set_is_the_passing_candidates atan2_zero 4
              hunter_and_prey s' DELTA_TIME 0 (population_well_formed _) Hrun)
    as (g & gx & gy & Hg & Hgx & Hgy & Hv);
    [vm_compute; lia|reflexivity|].
  exists s', g. split; [reflexivity|]. split; [exact Hg|].
  assert (Hx : gx = 4%Z) by (vm_compute in Hgx; congruence).
  assert (Hy : gy = 5%Z) by (vm_compute in Hgy; congruence).
  subst gx gy. split; [exact Hv|].
  vm_compute in Hrun. injection Hrun as <-. reflexivity.
Defined.

(** X5.  Whoever is in a visible set at the end of the perception system is
    seen by a live observer, is alive, is not the observer, is an entity of
    the state, is filed in one of the cells the observer visits, and is not
    farther away than the view range of the observer; and no id is in a
    visible set twice. *)
Theorem seen_targets_are_live_neighbours_in_range
    (atan2 : float -> float -> float) (fuel : nat) (s s' : GameState)
    (dt : float) (o t : EntityID) :
  well_formed s ->
  PerceptionSystem_Update atan2 fuel s dt = Some s' ->
  o < entity_count s ->
  t ∈ visible_entities (stimulus_buffer s') !!! o ->
  alive s o = true /\ alive s t = true /\ t <> o /\ t < entity_count s
  /\ (distance_sq s o t
      >? view_range (perception s) !!! o * view_range (perception s) !!! o)%f32
     = false
  /\ (exists gx gy cx cy,
        cell_index (position_x (transforms s) !!! o) = Some gx
        /\ cell_index (position_y (transforms s) !!! o) = Some gy
        /\ (cx, cy) ∈ neighborhood gx gy
        /\ filed_in s cx cy t = true)
  /\ NoDup (visible_entities (stimulus_buffer s') !!! o).
Proof.
  intros Hwf Hrun Ho Ht.
  destruct (PerceptionSystem_Update_spec atan2 fuel s dt s' Hwf Hrun)
    as (g & Hg & H).
  specialize (H o Ho). destruct (alive s o).
  - destruct H as (gx & gy & Hgx & Hgy & Hv & _). rewrite Hv in Ht |- *.
    apply list_elem_of_In, filter_In in Ht as [Hc Hp].
    apply list_elem_of_In, candidates_spec in Hc as (cx & cy & Hc & Hb).
    apply (filed_in_bucket s g cx cy t Hg) in Hb as [Hlt Hf].
    apply passes_true in Hp as (Hne & Ha & Hd).
    repeat split; try assumption.
    + exists gx, gy, cx, cy. auto.
    + apply NoDup_ListNoDup, List.NoDup_filter, NoDup_ListNoDup.
      apply (candidates_NoDup s g gx gy Hg).
  - destruct H as [Hnil _]. rewrite Hnil in Ht.
    apply elem_of_nil in Ht. contradiction.
Qed.

Lemma seen_targets_are_live_neighbours_in_range_witness :
  exists s',
    PerceptionSystem_Update atan2_zero 4 hunter_and_prey DELTA_TIME = Some s'
    /\ 1 ∈ visible_entities (stimulus_buffer s') !!! 0
    /\ alive hunter_and_prey 1 = true
    /\ (distance_sq hunter_and_prey 0 1
        >? view_range (perception hunter_and_prey) !!! 0
           * view_range (perception hunter_and_prey) !!! 0)%f32 = false
    /\ NoDup (visible_entities (stimulus_buffer s') !!! 0).
Proof.
  destruct (PerceptionSystem_Update atan2_zero 4 hunter_and_prey DELTA_TIME)
    as [s'|] eqn:Hrun; [|vm_compute in Hrun; discriminate].
  exists s'. split; [reflexivity|].
  assert (Hin : 1 ∈ visible_entities (stimulus_buffer s') !!! 0).
  { vm_compute in Hrun. injection Hrun as <-. cbn. left. }
  split; [exact Hin|].
  destruct (seen_targets_are_live_neighbours_in_range atan2_zero 4
              hunter_and_prey s' DELTA_TIME 0 1 (population_well_formed _)
              Hrun) as (_ & Ha & _ & _ & Hd & _ & Hn);
    [vm_compute; lia|exact Hin|].
  auto.
Defined.


(** ** The score that is stored *)

Lemma above_zero_not_below x : F32.ltb f0 x = true -> F32.ltb x f0 = false.
Proof. destruct x as [s|s| |s m e]; try destruct s; easy. Qed.

(** The best of the first four comparisons is idle with the score 0 or one
    of the four actions with a score above 0. *)
Lemma best_of_four eat sleep flee explore :
  let best :=
    consider explore EXPLORE
      (consider flee FLEE (consider sleep SLEEP (consider eat EAT (f0, IDLE))))
  in
  (best = (f0, IDLE) \/ (F32.ltb f0 best.1 = true /\ best.2 <> IDLE))
  /\ best.2 <> ATTACK.
Proof.
  cbv zeta. unfold consider. cbn [fst snd].
  destruct (F32.gtb eat f0) eqn:He; cbn [fst snd].
  - destruct (F32.gtb sleep eat) eqn:Hs; cbn [fst snd].
    + assert (H0s : F32.ltb f0 sleep = true).
      { unfold F32.gtb in *. eapply leb_ltb_trans; [apply ltb_leb|]; eassumption. }
      destruct (F32.gtb flee sleep) eqn:Hf; cbn [fst snd].
      * assert (H0f : F32.ltb f0 flee = true).
        { unfold F32.gtb in *.
          eapply leb_ltb_trans; [apply ltb_leb|]; eassumption. }
        destruct (F32.gtb explore flee) eqn:Hx; cbn [fst snd];
          (split; [right; split; [|discriminate]|discriminate]);
          [|exact H0f].
        unfold F32.gtb in *.
        eapply leb_ltb_trans; [apply ltb_leb|]; eassumption.
      * destruct (F32.gtb explore sleep) eqn:Hx; cbn [fst snd];
          (split; [right; split; [|discriminate]|discriminate]);
          [|exact H0s].
        unfold F32.gtb in *.
        eapply leb_ltb_trans; [apply ltb_leb|]; eassumption.
    + destruct (F32.gtb flee eat) eqn:Hf; cbn [fst snd].
      * assert (H0f : F32.ltb f0 flee = true).
        { unfold F32.gtb in *.
          eapply leb_ltb_trans; [apply ltb_leb|]; eassumption. }
        destruct (F32.gtb explore flee) eqn:Hx; cbn [fst snd];
          (split; [right; split; [|discriminate]|discriminate]);
          [|exact H0f].
        unfold F32.gtb in *.
        eapply leb_ltb_trans; [apply ltb_leb|]; eassumption.
      * destruct (F32.gtb explore eat) eqn:Hx; cbn [fst snd];
          (split; [right; split; [|discriminate]|discriminate]);
          [|exact He].
        unfold F32.gtb in *.
        eapply leb_ltb_trans; [apply ltb_leb|]; eassumption.
  - destruct (F32.gtb sleep f0) eqn:Hs; cbn [fst snd].
    + destruct (F32.gtb flee sleep) eqn:Hf; cbn [fst snd].
      * assert (H0f : F32.ltb f0 flee = true).
        { unfold F32.gtb in *.
          eapply leb_ltb_trans; [apply ltb_leb|]; eassumption. }
        destruct (F32.gtb explore flee) eqn:Hx; cbn [fst snd];
          (split; [right; split; [|discriminate]|discriminate]);
          [|exact H0f].
        unfold F32.gtb in *.
        eapply leb_ltb_trans; [apply ltb_leb|]; eassumption.
      * destruct (F32.gtb explore sleep) eqn:Hx; cbn [fst snd];
          (split; [right; split; [|discriminate]|discriminate]);
          [|exact Hs].
        unfold F32.gtb in *.
        eapply leb_ltb_trans; [apply ltb_leb|]; eassumption.
    + destruct (F32.gtb flee f0) eqn:Hf; cbn [fst snd].
      * destruct (F32.gtb explore flee) eqn:Hx; cbn [fst snd];
          (split; [right; split; [|discriminate]|discriminate]);
          [|exact Hf].
        unfold F32.gtb in *.
        eapply leb_ltb_trans; [apply ltb_leb|]; eassumption.
      * destruct (F32.gtb explore f0) eqn:Hx; cbn [fst snd].
        -- split; [right; split; [exact Hx|discriminate]|discriminate].
        -- split; [left; reflexivity|discriminate].
Qed.

Lemma select_action_score eat sleep flee explore attack :
  let best := select_action eat sleep flee explore attack in
  best = (f0, IDLE) \/ (F32.ltb f0 best.1 = true /\ best.2 <> IDLE).
Proof.
  cbv zeta. unfold select_action.
  pose proof (best_of_four eat sleep flee explore) as [H _]. cbv zeta in H.
  set (best := consider explore EXPLORE _) in *.
  assert (Hc : consider attack ATTACK best
               = if F32.gtb attack best.1 then (attack, ATTACK) else best)
    by reflexivity.
  rewrite Hc. clear Hc.
  destruct (F32.gtb attack best.1) eqn:Ha; [|exact H].
  right. cbn [fst snd]. split; [|discriminate].
  destruct H as [Hb|[Hb _]].
  - rewrite Hb in Ha. exact Ha.
  - unfold F32.gtb in Ha. eapply leb_ltb_trans; [apply ltb_leb|]; eassumption.
Qed.

(** Without anybody in sight the attack score is 0 and attack is not
    selected. *)
Lemma decide_action_attack s i :
  (decide_action s i).2 = ATTACK ->
  visible_entities (stimulus_buffer s) !!! i <> [].
Proof.
  unfold decide_action, CalculateAttackUtility. intros H Hnil.
  rewrite Hnil in H. unfold select_action in H.
  pose proof (best_of_four (CalculateEatUtility s i)
                (CalculateSleepUtility s i) (CalculateFleeUtility s i)
                (CalculateExploreUtility s i)) as [Hb Hne].
  cbv zeta in Hb, Hne. set (best := consider _ EXPLORE _) in *.
  assert (Hc : consider f0 ATTACK best
               = if F32.gtb f0 best.1 then (f0, ATTACK) else best)
    by reflexivity.
  rewrite Hc in H. clear Hc.
  assert (Hgt : F32.gtb f0 best.1 = false).
  { destruct Hb as [->|[Hb _]]; [reflexivity|].
    apply above_zero_not_below. exact Hb. }
  rewrite Hgt in H. contradiction.
Qed.

(** X6.  After the decision stage a live agent is idle with the stored
    utility [0.0f], or it holds another action with a stored utility that
    is strictly positive: a score that is NaN, zero or negative is never
    stored. *)
Theorem stored_utility_is_zero_only_for_idle
    (s : GameState) (r : RandGen) (dt : float) (i : EntityID) :
  well_formed s -> i < entity_count s -> alive s i = true ->
  let s' := (UtilitySystem_Update (s, r) dt).1 in
  (current_action (actions s') !!! i = IDLE
   /\ action_utility (actions s') !!! i = f0)
  \/ (current_action (actions s') !!! i <> IDLE
      /\ (f0 <? action_utility (actions s') !!! i)%f32 = true).
Proof.
  intros Hwf Hi Ha. cbv zeta.
  destruct (UtilitySystem_Update_action s r dt i Hwf Hi Ha) as [-> ->].
  unfold decide_action.
  destruct (select_action_score (CalculateEatUtility s i)
              (CalculateSleepUtility s i) (CalculateFleeUtility s i)
              (CalculateExploreUtility s i) (CalculateAttackUtility s i))
    as [->|[H1 H2]]; [left|right]; auto.
Qed.

Lemma stored_utility_is_zero_only_for_idle_witness :
  let rested := (UtilitySystem_Update (gliding_agent, example_rand)
                                      DELTA_TIME).1 in
  let curious := (UtilitySystem_Update (explorer, example_rand)
                                       DELTA_TIME).1 in
  current_action (actions rested) !!! 0 = IDLE
  /\ action_utility (actions rested) !!! 0 = f0
  /\ current_action (actions curious) !!! 0 = EXPLORE
  /\ (f0 <? action_utility (actions curious) !!! 0)%f32 = true.
Proof.
  cbv zeta.
  pose proof (stored_utility_is_zero_only_for_idle gliding_agent example_rand
                DELTA_TIME 0 (population_well_formed _)) as H1.
  pose proof (stored_utility_is_zero_only_for_idle explorer example_rand
                DELTA_TIME 0 (population_well_formed _)) as H2.
  cbv zeta in H1, H2.
  assert (E1 : 0 < entity_count gliding_agent) by (vm_compute; lia).
  assert (E2 : 0 < entity_count explorer) by (vm_compute; lia).
  specialize (H1 E1 eq_refl). specialize (H2 E2 eq_refl).
  destruct H1 as [[A B]|[A _]];
    [|exfalso; apply A; vm_compute; reflexivity].
  destruct H2 as [[C _]|[_ D]].
  - exfalso. vm_compute in C. discriminate C.
  - split; [exact A|]. split; [exact B|]. split; [reflexivity|exact D].
Defined.

(** X7.  A live agent for which the decision stage selects [ATTACK] sees
    somebody, and its target entity is the first id of its visible set: the
    test [!visible_entities[i].empty()] never fails under [ATTACK].  An
    agent with another action keeps the target entity it had: the stage
    never resets it. *)
Theorem target_entity_follows_attack
    (s : GameState) (r : RandGen) (dt : float) (i : EntityID) :
  well_formed s -> i < entity_count s -> alive s i = true ->
  let s' := (UtilitySystem_Update (s, r) dt).1 in
  if decide (current_action (actions s') !!! i = ATTACK)
  then exists t rest,
      visible_entities (stimulus_buffer s) !!! i = t :: rest
      /\ target_entity (actions s') !!! i = N.of_nat t
  else target_entity (actions s') !!! i = target_entity (actions s) !!! i.
Proof.
  intros Hwf Hi Ha. cbv zeta.
  destruct (UtilitySystem_Update_at s r dt i Hwf Hi Ha) as [c Hc].
  unfold decision_at in Hc.
  set (s' := (UtilitySystem_Update (s, r) dt).1) in *.
  assert (Hact : current_action (actions s') !!! i = (decide_action s i).2
                 /\ target_entity (actions s') !!! i
                    = (decision_of s (rand_seq r) c i).1.1.2).
  { rewrite <- Hc. cbn [fst snd].
    split; [|reflexivity].
    apply (UtilitySystem_Update_action s r dt i Hwf Hi Ha). }
  destruct Hact as [Hact Htgt]. rewrite Hact, Htgt. clear Hc Hact Htgt.
  pose proof (decide_action_attack s i) as Hsee.
  unfold decision_of. destruct (decide_action s i) as [u a]. cbn [snd] in *.
  destruct (decide (a = ATTACK)) as [->|Hne].
  - destruct (visible_entities (stimulus_buffer s) !!! i) as [|t rest];
      [exfalso; apply Hsee; reflexivity|].
    exists t, rest. split; reflexivity.
  - destruct a, (visible_entities (stimulus_buffer s) !!! i);
      try reflexivity; contradiction.
Qed.

Lemma target_entity_follows_attack_witness :
  let s' := (UtilitySystem_Update (hunter_and_prey, example_rand)
                                  DELTA_TIME).1 in
  current_action (actions s') !!! 0 = ATTACK
  /\ target_entity (actions s') !!! 0 = 1%N
  /\ current_action (actions s') !!! 1 = IDLE
  /\ target_entity (actions s') !!! 1 = INVALID_ENTITY.
Proof.
  cbv zeta.
  pose proof (target_entity_follows_attack hunter_and_prey example_rand
                DELTA_TIME 0 (population_well_formed _)) as H0.
  pose proof (target_entity_follows_attack hunter_and_prey example_rand
                DELTA_TIME 1 (population_well_formed _)) as H1.
  cbv zeta in H0, H1.
  assert (E0 : 0 < entity_count hunter_and_prey) by (vm_compute; lia).
  assert (E1 : 1 < entity_count hunter_and_prey) by (vm_compute; lia).
  specialize (H0 E0 eq_refl). specialize (H1 E1 eq_refl).
  destruct (decide (current_action _ !!! 0 = ATTACK)) as [A0|A0];
    [|exfalso; apply A0; vm_compute; reflexivity].
  destruct (decide (current_action _ !!! 1 = ATTACK)) as [A1|A1];
    [vm_compute in A1; discriminate A1|].
  destruct H0 as (t & rest & Hv & Ht). vm_compute in Hv.
  injection Hv as <- <-.
  split; [exact A0|]. split; [exact Ht|]. split; [reflexivity|exact H1].
Defined.

(** ** The numbers taken from the generator *)

Lemma fold_left_seq_invariant {St : Type} (P : nat -> St -> Prop)
    (f : St -> nat -> St) n :
  forall a s, P a s ->
  (forall k s, a <= k < a + n -> P k s -> P (S k) (f s k)) ->
  P (a + n) (fold_left f (seq a n) s).
Proof.
  induction n as [|n IH]; intros a s H0 Hstep; cbn [seq fold_left].
  - rewrite Nat.add_0_r. exact H0.
  - rewrite <- Nat.add_succ_comm. apply IH.
    + apply Hstep; [lia|exact H0].
    + intros k s' Hk. apply Hstep. lia.
Qed.

Lemma filter_seq_snoc (f : nat -> bool) k :
  length (List.filter f (seq 0 (S k)))
  = length (List.filter f (seq 0 k)) + (if f k then 1 else 0).
Proof.
  rewrite seq_S, List.filter_app, length_app. cbn [List.filter Nat.add].
  destruct (f k); reflexivity.
Qed.

Lemma UtilitySystem_step_draws s r i :
  rand_pos (UtilitySystem_step (s, r) i).2
  = rand_pos r + 2 * (if explores s i then 1 else 0).
Proof.
  unfold UtilitySystem_step, explores.
  destruct (alive s i); cbn [negb andb]; [|cbn; lia].
  destruct (decide_action s i) as [u a]. cbn [snd].
  unfold set_target, rand.
  destruct a; try case_match; cbn [snd rand_pos]; lia.
Qed.

Lemma UtilitySystem_Update_draws (s : GameState) (r : RandGen) (dt : float) :
  rand_seq (UtilitySystem_Update (s, r) dt).2 = rand_seq r
  /\ rand_pos (UtilitySystem_Update (s, r) dt).2
     = rand_pos r + 2 * length (List.filter (explores s) (entities s)).
Proof.
  split; [apply (UtilitySystem_Update_only (s, r) dt)|].
  unfold UtilitySystem_Update, entities. cbn [fst].
  pose proof (fold_left_seq_invariant
    (fun k (w : GameState * RandGen) =>
       only_actions s w.1
       /\ rand_pos w.2
          = rand_pos r + 2 * length (List.filter (explores s) (seq 0 k)))
    UtilitySystem_step (entity_count s) 0 (s, r)) as H.
  cbn [Nat.add] in H. apply H.
  - split; [apply only_actions_refl|cbn; lia].
  - clear H. intros k [sk rk] _ [Ho Hp]. cbn [fst snd] in *. split.
    + eapply only_actions_trans; [exact Ho|].
      apply (UtilitySystem_step_only (sk, rk) k).
    + rewrite UtilitySystem_step_draws, filter_seq_snoc, Hp.
      assert (exists A, sk = with_actions A s) as [A ->]
        by (eexists; exact Ho).
      change (explores (with_actions A s) k) with (explores s k).
      destruct (explores s k); lia.
Qed.



(** ** What the clamps repair *)

Lemma min_not_nan hi x : F32.is_nan hi = false -> F32.is_nan (F32.min hi x) = false.
Proof.
  intros Hhi. unfold F32.min. destruct (F32.ltb x hi) eqn:H; [|exact Hhi].
  eapply ltb_not_nan. exact H.
Qed.

Lemma max_not_nan lo x : F32.is_nan lo = false -> F32.is_nan (F32.max lo x) = false.
Proof.
  intros Hlo. unfold F32.max. destruct (F32.ltb lo x) eqn:H; [|exact Hlo].
  eapply ltb_not_nan_r. exact H.
Qed.

Section Repairs.
Variable atan2 : float -> float -> float.

Lemma world_bounds_at s i :
  i < length (position_x (transforms s)) ->
  i < length (position_y (transforms s)) ->
  in_world (position_x (transforms (world_bounds s i)) !!! i)
  /\ in_world (position_y (transforms (world_bounds s i)) !!! i).
Proof.
  intros Hx Hy. unfold world_bounds. cbn.
  rewrite !list_lookup_total_insert_eq by assumption.
  split; apply clamp_between; split; reflexivity.
Qed.

Lemma KineticSystem_step_at dt s i :
  alive s i = true ->
  i < length (position_x (transforms s)) ->
  i < length (position_y (transforms s)) ->
  in_world (position_x (transforms (KineticSystem_step atan2 dt s i)) !!! i)
  /\ in_world (position_y (transforms (KineticSystem_step atan2 dt s i))
               !!! i).
Proof.
  intros Ha Hx Hy. unfold KineticSystem_step. rewrite Ha. cbn [negb].
  set (s3 := integrate_position dt _ i).
  assert (Hl : body_lengths s3 = body_lengths s).
  { unfold s3. rewrite integrate_position_lengths, clamp_speed_lengths,
      apply_movement_lengths. reflexivity. }
  clearbody s3. unfold body_lengths in Hl. injection Hl as L1 L2 _ _ _.
  apply world_bounds_at; congruence.
Qed.
End Repairs.

(** X8.  After the kinetic system every live agent is inside the world,
    whatever its position, its velocity and the time step were before: a
    position that is NaN or infinite is repaired by the clamp as well. *)
Theorem kinetic_system_puts_the_living_in_the_world
    (atan2 : float -> float -> float) (s : GameState) (dt : float)
    (i : EntityID) :
  well_formed s -> i < entity_count s -> alive s i = true ->
  in_world (position_x (transforms (KineticSystem_Update atan2 s dt)) !!! i)
  /\ in_world (position_y (transforms (KineticSystem_Update atan2 s dt))
               !!! i).
Proof.
  intros Hwf Hi Ha. unfold KineticSystem_Update, entities.
  apply (fold_left_at
           (fun s' => health s' = health s
                      /\ body_lengths s' = body_lengths s)
           (fun s' => (health s' = health s
                       /\ body_lengths s' = body_lengths s)
                      /\ in_world (position_x (transforms s') !!! i)
                      /\ in_world (position_y (transforms s') !!! i))
           _ i); [exact Hi|auto| | |].
  - intros s' j _ [Hh Hl]. split.
    + rewrite (KineticSystem_step_only atan2 dt s' j). exact Hh.
    + rewrite KineticSystem_step_lengths. exact Hl.
  - intros s' [Hh Hl]. split; [split|].
    + rewrite (KineticSystem_step_only atan2 dt s' i). exact Hh.
    + rewrite KineticSystem_step_lengths. exact Hl.
    + unfold body_lengths in Hl. injection Hl as L1 L2 _ _ _.
      apply KineticSystem_step_at.
      * unfold alive. rewrite Hh. exact Ha.
      * rewrite L1, (wf_position_x s Hwf). exact Hi.
      * rewrite L2, (wf_position_y s Hwf). exact Hi.
  - intros s' j Hne [[Hh Hl] [Hx Hy]]. split; [split|].
    + rewrite (KineticSystem_step_only atan2 dt s' j). exact Hh.
    + rewrite KineticSystem_step_lengths. exact Hl.
    + pose proof (KineticSystem_step_other atan2 dt s' i j Hne) as Hb.
      unfold body_at in Hb. injection Hb as -> -> _ _ _. auto.
Qed.

Lemma kinetic_system_puts_the_living_in_the_world_witness :
  F32.is_nan (position_x (transforms lost_agent) !!! 0) = true
  /\ in_world (position_x (transforms
                 (KineticSystem_Update atan2_zero lost_agent DELTA_TIME))
               !!! 0)
  /\ in_world (position_y (transforms
                 (KineticSystem_Update atan2_zero lost_agent DELTA_TIME))
               !!! 0).
Proof.
  split; [reflexivity|].
  apply (kinetic_system_puts_the_living_in_the_world atan2_zero lost_agent
           DELTA_TIME 0).
  - constructor; reflexivity.
  - vm_compute. lia.
  - reflexivity.
Defined.

Lemma NeedsSystem_step_at dt s r i :
  alive s i = true ->
  i < length (hunger (needs s)) -> i < length (energy (needs s)) ->
  i < length (safety (needs s)) -> i < length (curiosity (needs s)) ->
  let s' := (NeedsSystem_step dt (s, r) i).1 in
  F32.is_nan (hunger (needs s') !!! i) = false
  /\ F32.is_nan (energy (needs s') !!! i) = false
  /\ F32.is_nan (safety (needs s') !!! i) = false
  /\ unit_interval (curiosity (needs s') !!! i).
Proof.
  intros Ha Lh Le Ls Lc. cbv zeta. unfold NeedsSystem_step, rand.
  rewrite Ha. cbn [negb fst].
  unfold curiosity_fluctuates, safety_changes, eating_reduces_hunger,
    energy_changes, hunger_rises.
  destruct (current_action (actions s) !!! i);
    match goal with
    | |- context [(3 <? ?n)%nat] => destruct (3 <? n)%nat
    end; cbn;
    rewrite ?list_lookup_total_insert_eq
      by (rewrite ?length_insert; assumption);
    (split; [|split; [|split]]);
    first [ apply clamp_between; split; reflexivity
          | apply min_not_nan; reflexivity
          | apply max_not_nan; reflexivity ].
Qed.

(** X9.  After the needs system the hunger, the energy and the safety of a
    live agent are numbers, and its curiosity is in [0, 1], whatever the
    four values and the time step were before: a NaN is repaired by the
    clamps. *)
Theorem needs_system_repairs_the_living
    (s : GameState) (r : RandGen) (dt : float) (i : EntityID) :
  well_formed s -> i < entity_count s -> alive s i = true ->
  let s' := (NeedsSystem_Update (s, r) dt).1 in
  F32.is_nan (hunger (needs s') !!! i) = false
  /\ F32.is_nan (energy (needs s') !!! i) = false
  /\ F32.is_nan (safety (needs s') !!! i) = false
  /\ unit_interval (curiosity (needs s') !!! i).
Proof.
  intros Hwf Hi Ha. cbv zeta. unfold NeedsSystem_Update, entities. cbn [fst].
  apply (fold_left_at
           (fun w : GameState * RandGen =>
              health w.1 = health s /\ shape w.1 = shape s)
           (fun w : GameState * RandGen =>
              (health w.1 = health s /\ shape w.1 = shape s)
              /\ F32.is_nan (hunger (needs w.1) !!! i) = false
              /\ F32.is_nan (energy (needs w.1) !!! i) = false
              /\ F32.is_nan (safety (needs w.1) !!! i) = false
              /\ unit_interval (curiosity (needs w.1) !!! i))
           _ i); [exact Hi|auto| | |].
  - intros w j _ [Hh Hl]. split.
    + destruct (NeedsSystem_step_only dt w j) as [Ho _]. rewrite Ho. exact Hh.
    + rewrite NeedsSystem_step_shape. exact Hl.
  - intros [s' r'] [Hh Hl]. cbn [fst] in Hh, Hl. split; [split|].
    + destruct (NeedsSystem_step_only dt (s', r') i) as [Ho _].
      rewrite Ho. exact Hh.
    + rewrite NeedsSystem_step_shape. exact Hl.
    + pose proof (same_shape_well_formed _ _ Hl Hwf) as Hw.
      assert (He : entity_count s' = entity_count s)
        by exact (f_equal fst Hl).
      apply NeedsSystem_step_at.
      * unfold alive. rewrite Hh. exact Ha.
      * rewrite (wf_hunger _ Hw). lia.
      * rewrite (wf_energy _ Hw). lia.
      * rewrite (wf_safety _ Hw). lia.
      * rewrite (wf_curiosity _ Hw). lia.
  - intros w j Hne [[Hh Hl] Hq]. split; [split|].
    + destruct (NeedsSystem_step_only dt w j) as [Ho _]. rewrite Ho. exact Hh.
    + rewrite NeedsSystem_step_shape. exact Hl.
    + pose proof (NeedsSystem_step_other dt w i j Hne) as Hn.
      unfold needs_at in Hn. injection Hn as -> -> -> ->. exact Hq.
Qed.

Lemma needs_system_repairs_the_living_witness :
  let s' := (NeedsSystem_Update (numb_agent, example_rand) DELTA_TIME).1 in
  F32.is_nan (hunger (needs numb_agent) !!! 0) = true
  /\ F32.is_nan (hunger (needs s') !!! 0) = false
  /\ F32.is_nan (energy (needs s') !!! 0) = false
  /\ F32.is_nan (safety (needs s') !!! 0) = false
  /\ unit_interval (curiosity (needs s') !!! 0).
Proof.
  cbv zeta. split; [reflexivity|].
  apply (needs_system_repairs_the_living numb_agent example_rand
           DELTA_TIME 0).
  - apply population_well_formed.
  - vm_compute. lia.
  - reflexivity.
Defined.

Lemma NeedsSystem_step_draws dt s r i :
  rand_pos (NeedsSystem_step dt (s, r) i).2
  = rand_pos r + (if alive s i then 1 else 0).
Proof.
  unfold NeedsSystem_step, rand. destruct (alive s i); cbn; lia.
Qed.

Lemma NeedsSystem_Update_draws (s : GameState) (r : RandGen) (dt : float) :
  rand_seq (NeedsSystem_Update (s, r) dt).2 = rand_seq r
  /\ rand_pos (NeedsSystem_Update (s, r) dt).2
     = rand_pos r + length (List.filter (alive s) (entities s))
  /\ health (NeedsSystem_Update (s, r) dt).1 = health s.
Proof.
  split; [apply (NeedsSystem_Update_only (s, r) dt)|].
  split; [|destruct (NeedsSystem_Update_only (s, r) dt) as [-> _]; reflexivity].
  unfold NeedsSystem_Update, entities. cbn [fst].
  pose proof (fold_left_seq_invariant
    (fun k (w : GameState * RandGen) =>
       only_needs s w.1
       /\ rand_pos w.2
          = rand_pos r + length (List.filter (alive s) (seq 0 k)))
    (NeedsSystem_step dt) (entity_count s) 0 (s, r)) as H.
  cbn [Nat.add] in H. apply H.
  - split; [apply only_needs_refl|cbn; lia].
  - clear H. intros k [sk rk] _ [Ho Hp]. cbn [fst snd] in *. split.
    + eapply only_needs_trans; [exact Ho|].
      apply (NeedsSystem_step_only dt (sk, rk) k).
    + rewrite NeedsSystem_step_draws, filter_seq_snoc, Hp.
      assert (exists A, sk = with_needs A s) as [A ->]
        by (eexists; exact Ho).
      change (alive (with_needs A s) k) with (alive s k).
      destruct (alive s k); lia.
Qed.



(** ** The validator on the states of a run *)

Lemma between_passes lo hi x :
  between lo hi x ->
  F32.is_nan x = false /\ F32.ltb x lo = false /\ F32.gtb x hi = false.
Proof.
  intros [H1 H2]. split; [|split].
  - destruct x; try reflexivity. destruct lo; discriminate.
  - destruct (F32.ltb x lo) eqn:H; [|reflexivity].
    pose proof (leb_ltb_trans lo x lo H1 H) as Hc.
    unfold F32.ltb, F32.leb in *.
    destruct lo as [s|s| |s m e]; try destruct s; cbn in *;
      try discriminate; try (destruct x; discriminate).
    all: unfold F32.cmp_mag in Hc; rewrite Z.compare_refl in Hc;
      discriminate.
  - unfold F32.gtb. destruct (F32.ltb hi x) eqn:H; [|reflexivity].
    pose proof (leb_ltb_trans x hi x H2 H) as Hc.
    unfold F32.ltb, F32.leb in *.
    destruct x as [s|s| |s m e]; try destruct s; cbn in *;
      try discriminate.
    all: unfold F32.cmp_mag in Hc; rewrite Z.compare_refl in Hc;
      discriminate.
Qed.

Lemma in_world_finite x : in_world x -> F32.is_inf x = false.
Proof.
  intros [H1 H2]. destruct x as [s|s| |s m e]; try reflexivity.
  destruct s; discriminate.
Qed.

Lemma in_bounds_passes s i : agent_in_bounds s i -> entity_passes s i = true.
Proof.
  intros (Hh & _ & _ & _ & Hx & _). unfold entity_passes.
  destruct (between_passes _ _ _ Hh) as (N1 & L1 & G1).
  destruct (between_passes _ _ _ Hx) as (N2 & _ & _).
  rewrite N1, L1, G1, N2, (in_world_finite _ Hx). reflexivity.
Qed.

Lemma well_formed_sizes_pass s : well_formed s -> sizes_pass s = true.
Proof.
  intros Hwf. unfold sizes_pass, TransformComponents_Size,
    PerceptionComponents_Size, NeedsComponents_Size, ActionComponents_Size.
  rewrite (wf_position_x s Hwf), (wf_view_range s Hwf), (wf_hunger s Hwf),
    (wf_current_action s Hwf), Nat.eqb_refl.
  reflexivity.
Qed.

Lemma in_bounds_validated s :
  well_formed s -> all_in_bounds s -> ValidateState s = true.
Proof.
  intros Hwf Hb. rewrite ValidateState_checks, well_formed_sizes_pass
    by exact Hwf.
  apply forallb_forall. intros i _. apply in_bounds_passes, Hb.
Qed.

Section Driver.
Variable atan2 : float -> float -> float.

(** The main loop against the frames it runs. *)
Lemma main_loop_spec fuel dt frames : forall frame w e,
  main_loop atan2 fuel dt frames frame w = Some e ->
  match e with
  | SimulationComplete final =>
      exists w', Frames atan2 fuel frames w dt = Some w' /\ w'.1 = final
                 /\ forall j w'', j <= frames ->
                      0 < j -> Frames atan2 fuel j w dt = Some w'' ->
                      ValidateState w''.1 = true
  | ValidationFailedAtFrame k bad =>
      exists j w', k = frame + j /\ j < frames
                   /\ Frames atan2 fuel (S j) w dt = Some w'
                   /\ w'.1 = bad /\ ValidateState bad = false
                   /\ forall i w'', 0 < i <= j ->
                        Frames atan2 fuel i w dt = Some w'' ->
                        ValidateState w''.1 = true
  | InitialValidationFailed => False
  end.
Proof.
  induction frames as [|n IH]; intros frame w e Hrun;
    cbn [main_loop] in Hrun.
  - injection Hrun as <-. exists w. split; [reflexivity|].
    split; [reflexivity|]. intros j w'' Hj Hpos. lia.
  - destruct (Frame atan2 fuel w dt) as [w1|] eqn:Hf;
      cbn [mbind option_bind] in Hrun; [|discriminate].
    destruct (ValidateState w1.1) eqn:Hv; cbn [negb] in Hrun.
    + apply IH in Hrun. destruct e as [final| |k bad].
      * destruct Hrun as (w' & Hw' & Hfin & Hall). exists w'.
        cbn [Frames]. rewrite Hf. cbn [mbind option_bind].
        split; [exact Hw'|]. split; [exact Hfin|].
        intros j w'' Hj Hpos. destruct j as [|j]; [lia|].
        cbn [Frames]. rewrite Hf. cbn [mbind option_bind].
        destruct j as [|j].
        -- cbn [Frames]. intros [= <-]. exact Hv.
        -- apply Hall; lia.
      * contradiction.
      * destruct Hrun as (j & w' & Hk & Hj & Hw' & Hbad & Hfail & Hall).
        exists (S j), w'. split; [lia|]. split; [lia|].
        split; [|split; [exact Hbad|split; [exact Hfail|]]].
        -- change (Frames atan2 fuel (S (S j)) w dt)
             with (w1' ← Frame atan2 fuel w dt;
                   Frames atan2 fuel (S j) w1' dt).
           rewrite Hf. exact Hw'.
        -- intros i w'' Hi. destruct i as [|i]; [lia|].
           cbn [Frames]. rewrite Hf. cbn [mbind option_bind].
           destruct i as [|i].
           ++ cbn [Frames]. intros [= <-]. exact Hv.
           ++ apply Hall. lia.
    + injection Hrun as <-. exists 0, w1. split; [lia|]. split; [lia|].
      split; [cbn [Frames]; rewrite Hf; reflexivity|].
      split; [reflexivity|]. split; [exact Hv|]. intros i w'' Hi. lia.
Qed.
End Driver.

(** X10.  The main loop runs the frames one after the other and validates the
    state after each of them.  When it ends normally the state it returns
    is the state after the last frame, and every frame passed the
    validation.  When it ends with a failure at frame [k], the state it
    reports is the state after the frame of that number, that state fails
    the validation, and it is the first one that does. *)
Theorem main_loop_stops_at_the_first_invalid_frame
    (atan2 : float -> float -> float) (fuel : nat) (dt : float)
    (frames : nat) (w : GameState * RandGen) (e : Exit) :
  main_loop atan2 fuel dt frames 0 w = Some e ->
  match e with
  | SimulationComplete final =>
      exists w', Frames atan2 fuel frames w dt = Some w' /\ w'.1 = final
                 /\ forall j w'', j <= frames -> 0 < j ->
                      Frames atan2 fuel j w dt = Some w'' ->
                      ValidateState w''.1 = true
  | ValidationFailedAtFrame k bad =>
      exists w', k < frames
                 /\ Frames atan2 fuel (S k) w dt = Some w'
                 /\ w'.1 = bad /\ ValidateState bad = false
                 /\ forall i w'', 0 < i <= k ->
                      Frames atan2 fuel i w dt = Some w'' ->
                      ValidateState w''.1 = true
  | InitialValidationFailed => False
  end.
Proof.
  intros Hrun. apply main_loop_spec in Hrun.
  destruct e as [final| |k bad]; [exact Hrun|exact Hrun|].
  destruct Hrun as (j & w' & -> & Hrest). exists w'. exact Hrest.
Qed.

Lemma main_loop_stops_at_the_first_invalid_frame_witness :
  exists bad w',
    main_loop atan2_zero 4 DELTA_TIME 3 0 (poisoned_state, example_rand)
    = Some (ValidationFailedAtFrame 0 bad)
    /\ Frames atan2_zero 4 1 (poisoned_state, example_rand) DELTA_TIME
       = Some w'
    /\ w'.1 = bad /\ ValidateState bad = false.
Proof.
  destruct (main_loop atan2_zero 4 DELTA_TIME 3 0
              (poisoned_state, example_rand)) as [e|] eqn:Hrun;
    [|vm_compute in Hrun; discriminate].
  pose proof (main_loop_stops_at_the_first_invalid_frame atan2_zero 4
                DELTA_TIME 3 (poisoned_state, example_rand) e Hrun) as H.
  destruct e as [final| |k bad];
    [vm_compute in Hrun; discriminate| contradiction |].
  assert (Hk : k = 0) by (vm_compute in Hrun; congruence). subst k.
  destruct H as (w' & _ & Hw' & Hbad & Hfail & _).
  exists bad, w'. auto.
Defined.

Lemma Frames_validated atan2 fuel frames count draws r w :
  (forall i, i < count -> draws_in_range (draws i)) ->
  Frames atan2 fuel frames (InitializeEntities count draws, r) DELTA_TIME
  = Some w ->
  well_formed w.1 /\ entity_count w.1 = count /\ ValidateState w.1 = true.
Proof.
  intros Hd Hrun.
  destruct (InitializeEntities_well_formed count draws) as [Hwf Hc].
  pose proof (Frames_shape atan2 fuel frames DELTA_TIME _ _ Hrun) as Hs.
  cbn [fst] in Hs.
  pose proof (same_shape_well_formed _ _ Hs Hwf) as Hw.
  split; [exact Hw|]. split; [rewrite <- Hc; exact (f_equal fst Hs)|].
  apply in_bounds_validated; [exact Hw|].
  eapply (Frames_bounds atan2 DELTA_TIME); [reflexivity|exact Hrun|].
  apply InitializeEntities_bounds. exact Hd.
Qed.

(** X11.  When the draws of [InitializeEntities] respect the ranges of their
    distributions, no validation fails, for any number of entities and of
    frames: the initial state passes, and when the main loop ends it ends
    after the last frame, with a state of [count] entities in which every
    array has that size and that passes the validation.  So [main], which
    runs [SIMULATION_FRAMES] frames on [ENTITY_COUNT] entities, never
    returns through one of its two validation failures. *)
Theorem valid_draws_never_fail_validation
    (atan2 : float -> float -> float) (fuel count frames : nat)
    (draws : nat -> EntityDraws) (rand_numbers : nat -> N) :
  (forall i, i < count -> draws_in_range (draws i)) ->
  let r := {| rand_seq := rand_numbers; rand_pos := 0 |} in
  ValidateState (InitializeEntities count draws) = true
  /\ (forall e,
        main_loop atan2 fuel DELTA_TIME frames 0
                  (InitializeEntities count draws, r) = Some e ->
        exists final,
          e = SimulationComplete final /\ well_formed final
          /\ entity_count final = count /\ ValidateState final = true)
  /\ (count = ENTITY_COUNT ->
      forall e,
        main atan2 fuel draws rand_numbers = Some e ->
        exists final,
          e = SimulationComplete final /\ ValidateState final = true).
Proof.
  intros Hd r.
  assert (Hinit : ValidateState (InitializeEntities count draws) = true).
  { apply in_bounds_validated.
    - apply InitializeEntities_well_formed.
    - apply InitializeEntities_bounds. exact Hd. }
  assert (Hloop : forall n e,
            main_loop atan2 fuel DELTA_TIME n 0
                      (InitializeEntities count draws, r) = Some e ->
            exists final,
              e = SimulationComplete final /\ well_formed final
              /\ entity_count final = count /\ ValidateState final = true).
  { intros n e Hrun. apply main_loop_spec in Hrun.
    destruct e as [final| |k bad].
    - destruct Hrun as (w' & Hw' & <- & _). exists w'.1.
      split; [reflexivity|].
      apply (Frames_validated atan2 fuel n count draws r w' Hd Hw').
    - contradiction.
    - destruct Hrun as (j & w' & _ & _ & Hw' & <- & Hfail & _).
      destruct (Frames_validated atan2 fuel (S j) count draws r w' Hd Hw')
        as (_ & _ & Hok).
      congruence. }
  split; [exact Hinit|]. split; [apply Hloop|].
  intros -> e. unfold main. rewrite Hinit. cbn [negb]. intros Hrun.
  destruct (Hloop _ e Hrun) as (final & He & _ & _ & Hv).
  exists final. auto.
Qed.

Lemma valid_draws_never_fail_validation_witness :
  exists final,
    main_loop atan2_zero 4 DELTA_TIME 3 0
              (InitializeEntities 3 example_draws, example_rand)
    = Some (SimulationComplete final)
    /\ well_formed final /\ entity_count final = 3
    /\ ValidateState final = true.
Proof.
  destruct (main_loop atan2_zero 4 DELTA_TIME 3 0
              (InitializeEntities 3 example_draws, example_rand))
    as [e|] eqn:Hrun; [|vm_compute in Hrun; discriminate].
  destruct (valid_draws_never_fail_validation atan2_zero 4 3 3 example_draws
              example_numbers) as (_ & Hloop & _).
  - intros i _. apply example_draws_in_range.
  - destruct (Hloop e Hrun) as (final & -> & Hrest).
    exists final. split; [reflexivity|exact Hrest].
Defined.

(** ** The initial state *)

Lemma view_range_of_entity k :
  k < 50 ->
  (F32.of_int 50 + F32.of_int (Z.of_nat k))%f32
  = F32.of_int (50 + Z.of_nat k).
Proof.
  intros Hk.
  assert (Hall : forallb
            (fun k => match F32.compare
                              (F32.of_int 50 + F32.of_int (Z.of_nat k))%f32
                              (F32.of_int (50 + Z.of_nat k)) with
                      | Some Eq => true | _ => false end
                      && match (F32.of_int 50 + F32.of_int (Z.of_nat k))%f32,
                               F32.of_int (50 + Z.of_nat k) with
                         | S754_finite s m e, S754_finite s' m' e' =>
                             Bool.eqb s s' && Pos.eqb m m' && Z.eqb e e'
                         | _, _ => false
                         end)
            (seq 0 50) = true) by (vm_compute; reflexivity).
  rewrite forallb_forall in Hall. specialize (Hall k).
  assert (Hin : In k (seq 0 50)) by (apply in_seq; lia).
  apply Hall in Hin. apply andb_true_iff in Hin as [_ Hin].
  destruct (F32.of_int 50 + F32.of_int (Z.of_nat k))%f32
    as [| | |s m e]; try discriminate.
  destruct (F32.of_int (50 + Z.of_nat k)) as [| | |s' m' e'];
    try discriminate.
  apply andb_true_iff in Hin as [Hin He]. apply andb_true_iff in Hin as [Hs Hm].
  apply Bool.eqb_prop in Hs. apply Pos.eqb_eq in Hm. apply Z.eqb_eq in He.
  congruence.
Qed.

Lemma InitializeEntities_at count draws i :
  i < count -> initial_entity draws (InitializeEntities count draws) i.
Proof.
  intros Hi.
  set (s0 := GameState_Initialize count GameState_empty).
  unfold InitializeEntities. fold s0.
  apply (fold_left_at
           (fun s => shape s = shape s0)
           (fun s => shape s = shape s0 /\ initial_entity draws s i)
           _ i count s0 Hi).
  - reflexivity.
  - intros s j _ Hs. rewrite InitializeEntities_step_shape. exact Hs.
  - intros s Hs. split; [rewrite InitializeEntities_step_shape; exact Hs|].
    pose proof (GameState_Initialize_well_formed count GameState_empty)
      as [Hw0 Hc0]. fold s0 in Hw0, Hc0.
    pose proof (same_shape_well_formed _ _ Hs Hw0) as Hw.
    assert (He : entity_count s = count)
      by (rewrite <- Hc0; exact (f_equal fst Hs)).
    destruct Hw. unfold initial_entity, InitializeEntities_step, alive. cbn.
    rewrite !list_lookup_total_insert_eq by lia.
    repeat split.
  - intros s j Hne (Hs & Hq). split;
      [rewrite InitializeEntities_step_shape; exact Hs|].
    unfold initial_entity, InitializeEntities_step, alive in *. cbn.
    rewrite !list_lookup_total_insert_ne by exact Hne. exact Hq.
Qed.

(** X12.  [InitializeEntities] leaves every array with [count] elements, and
    entity [i] with the seven numbers drawn for it, at rest, alive, idle
    and without a target, with full health, the armor type [i % 3], the
    view angle pi/2 and the view range [50 + i % 50], an integer between 50
    and 99: a later iteration of the loop does not touch it. *)
Theorem InitializeEntities_gives_each_entity_its_draws
    (count : nat) (draws : nat -> EntityDraws) (i : EntityID) :
  i < count ->
  let s := InitializeEntities count draws in
  well_formed s /\ entity_count s = count
  /\ initial_entity draws s i
  /\ view_range (perception s) !!! i = F32.of_int (50 + Z.of_nat (i mod 50))
  /\ (50 <= 50 + Z.of_nat (i mod 50) <= 99)%Z.
Proof.
  intros Hi. cbv zeta.
  destruct (InitializeEntities_well_formed count draws) as [Hwf Hc].
  pose proof (InitializeEntities_at count draws i Hi) as Hat.
  assert (Hm : i mod 50 < 50) by (apply Nat.mod_upper_bound; lia).
  split; [exact Hwf|]. split; [exact Hc|]. split; [exact Hat|].
  split; [|lia].
  destruct Hat as (_ & _ & _ & _ & _ & _ & _ & _ & _ & Hv & _).
  rewrite Hv. apply view_range_of_entity. exact Hm.
Qed.

Lemma InitializeEntities_gives_each_entity_its_draws_witness :
  let s := InitializeEntities 3 example_draws in
  well_formed s /\ entity_count s = 3
  /\ initial_entity example_draws s 2
  /\ view_range (perception s) !!! 2 = F32.of_int 52.
Proof.
  cbv zeta.
  destruct (InitializeEntities_gives_each_entity_its_draws 3 example_draws 2)
    as (Hw & Hc & Hat & Hv & _); [lia|].
  split; [exact Hw|]. split; [exact Hc|]. split; [exact Hat|exact Hv].
Defined.


(** ** What no system writes *)

Ltac same_fixed_parts :=
  unfold fixed_parts; repeat case_match; reflexivity.

Section FixedParts.
Variable atan2 : float -> float -> float.

Lemma apply_movement_fixed dt s i :
  fixed_parts (apply_movement atan2 dt s i) = fixed_parts s.
Proof. unfold apply_movement. same_fixed_parts. Qed.

Lemma clamp_speed_fixed s i : fixed_parts (clamp_speed s i) = fixed_parts s.
Proof. unfold clamp_speed. same_fixed_parts. Qed.

Lemma integrate_position_fixed dt s i :
  fixed_parts (integrate_position dt s i) = fixed_parts s.
Proof. unfold integrate_position. same_fixed_parts. Qed.

Lemma world_bounds_fixed s i : fixed_parts (world_bounds s i) = fixed_parts s.
Proof. unfold world_bounds. same_fixed_parts. Qed.

Lemma KineticSystem_step_fixed dt s i :
  fixed_parts (KineticSystem_step atan2 dt s i) = fixed_parts s.
Proof.
  unfold KineticSystem_step. destruct (negb (alive s i)); [reflexivity|].
  rewrite world_bounds_fixed, integrate_position_fixed, clamp_speed_fixed,
    apply_movement_fixed.
  reflexivity.
Qed.

Lemma KineticSystem_Update_fixed s dt :
  fixed_parts (KineticSystem_Update atan2 s dt) = fixed_parts s.
Proof.
  unfold KineticSystem_Update.
  apply (fold_left_invariant (fun s' => fixed_parts s' = fixed_parts s));
    [reflexivity|].
  intros s' i _ H. rewrite KineticSystem_step_fixed. exact H.
Qed.

Lemma UtilitySystem_step_fixed w i :
  fixed_parts (UtilitySystem_step w i).1 = fixed_parts w.1.
Proof.
  destruct w as [s r]. unfold UtilitySystem_step.
  destruct (negb (alive s i)); [reflexivity|].
  destruct (decide_action s i) as [u a]. unfold set_target, rand.
  destruct a; try case_match; reflexivity.
Qed.

Lemma UtilitySystem_Update_fixed w dt :
  fixed_parts (UtilitySystem_Update w dt).1 = fixed_parts w.1.
Proof.
  unfold UtilitySystem_Update.
  apply (fold_left_invariant
           (fun w' => fixed_parts w'.1 = fixed_parts w.1)); [reflexivity|].
  intros w' i _ H. rewrite UtilitySystem_step_fixed. exact H.
Qed.

Lemma Frame_fixed fuel w dt w' :
  Frame atan2 fuel w dt = Some w' -> fixed_parts w'.1 = fixed_parts w.1.
Proof.
  unfold Frame. intros H.
  destruct (PerceptionSystem_Update atan2 fuel w.1 dt) as [s1|] eqn:Hp;
    cbn [mbind option_bind] in H; [|discriminate].
  injection H as <-.
  apply PerceptionSystem_Update_only in Hp.
  destruct (NeedsSystem_Update_only
              (KineticSystem_Update atan2
                 (UtilitySystem_Update (s1, w.2) dt).1 dt,
               (UtilitySystem_Update (s1, w.2) dt).2) dt) as [Hn _].
  cbn [fst] in Hn.
  transitivity (fixed_parts (KineticSystem_Update atan2
                  (UtilitySystem_Update (s1, w.2) dt).1 dt)).
  { rewrite Hn. reflexivity. }
  rewrite KineticSystem_Update_fixed, UtilitySystem_Update_fixed.
  cbn [fst]. rewrite Hp. reflexivity.
Qed.

Lemma Frames_fixed fuel frames dt : forall w w',
  Frames atan2 fuel frames w dt = Some w' ->
  fixed_parts w'.1 = fixed_parts w.1.
Proof.
  induction frames as [|n IH]; intros w w' Hrun; cbn [Frames] in Hrun.
  - injection Hrun as <-. reflexivity.
  - destruct (Frame atan2 fuel w dt) as [w1|] eqn:H1;
      cbn [mbind option_bind] in Hrun; [|discriminate].
    rewrite (IH _ _ Hrun). eapply Frame_fixed. exact H1.
Qed.
End FixedParts.

(** X13.  No frame writes the health group, the view range, the view angle
    or the third coordinate of a position, a velocity or a target: after
    any number of frames they are what they were, so that nobody dies and
    nobody is revived, and the number of entities is the same. *)
Theorem frames_leave_health_and_the_third_axis_alone
    (atan2 : float -> float -> float) (fuel frames : nat) (dt : float)
    (w w' : GameState * RandGen) :
  Frames atan2 fuel frames w dt = Some w' ->
  fixed_parts w'.1 = fixed_parts w.1
  /\ entity_count w'.1 = entity_count w.1
  /\ forall i, alive w'.1 i = alive w.1 i.
Proof.
  intros Hrun.
  pose proof (Frames_fixed atan2 fuel frames dt w w' Hrun) as Hf.
  split; [exact Hf|]. split.
  - exact (f_equal fst (Frames_shape atan2 fuel frames dt w w' Hrun)).
  - intros i. unfold alive.
    assert (Hh : health w'.1 = health w.1)
      by exact (f_equal (fun p => p.1.1.1.1.1) Hf).
    rewrite Hh. reflexivity.
Qed.

Lemma frames_leave_health_and_the_third_axis_alone_witness :
  exists w',
    Frames atan2_zero 4 2 (living_and_dead, example_rand) DELTA_TIME = Some w'
    /\ fixed_parts w'.1 = fixed_parts living_and_dead
    /\ alive w'.1 0 = true /\ alive w'.1 1 = false.
Proof.
  destruct (Frames atan2_zero 4 2 (living_and_dead, example_rand) DELTA_TIME)
    as [w'|] eqn:Hrun; [|vm_compute in Hrun; discriminate].
  exists w'. split; [reflexivity|].
  destruct (frames_leave_health_and_the_third_axis_alone atan2_zero 4 2
              DELTA_TIME (living_and_dead, example_rand) w' Hrun)
    as (Hf & _ & Ha).
  split; [exact Hf|]. rewrite !Ha. split; reflexivity.
Defined.

(** ** Adding an entity *)

Lemma resize_lookup_old {A : Type} `{!Inhabited A} count (v : A) l i :
  i < length l -> i < count -> resize count v l !!! i = l !!! i.
Proof.
  intros Hl Hc. unfold resize.
  rewrite lookup_total_app_l by (rewrite length_take; lia).
  rewrite lookup_total_take. destruct (decide (i < count)); [reflexivity|lia].
Qed.

Lemma resize_lookup_new {A : Type} `{!Inhabited A} count (v : A) l :
  length l = count -> resize (S count) v l !!! count = v.
Proof.
  intros <-. unfold resize. rewrite take_ge by lia.
  replace (S (length l) - length l) with 1 by lia.
  cbn [replicate]. rewrite list_lookup_total_middle; reflexivity.
Qed.

(** X14.  [AddEntity] returns the old entity count as the id of the new
    entity, provided the count fits in 32 bits.  The new state has one
    entity more and every array has that many elements, whatever the sizes
    were before.  When the arrays had the size of the entity count, every
    entity that was there keeps its values, and the new entity is alive and
    idle without a target, has all its numbers at zero and sees nobody. *)
Theorem AddEntity_appends_a_default_entity (s : GameState) :
  let id := (GameState_AddEntity s).1 in
  let s' := (GameState_AddEntity s).2 in
  let n := entity_count s in
  entity_count s' = S n /\ well_formed s'
  /\ ((N.of_nat n < 2 ^ 32)%N -> id = N.of_nat n)
  /\ (well_formed s ->
      (forall i, i < n ->
         body_at s' i = body_at s i /\ needs_at s' i = needs_at s i
         /\ decision_at s' i = decision_at s i
         /\ alive s' i = alive s i
         /\ visible_entities (stimulus_buffer s') !!! i
            = visible_entities (stimulus_buffer s) !!! i)
      /\ alive s' n = true
      /\ decision_at s' n = (IDLE, f0, INVALID_ENTITY, f0, f0)
      /\ body_at s' n = (f0, f0, f0, f0, f0)
      /\ needs_at s' n = (f0, f0, f0, f0)
      /\ health_value (health s') !!! n = f0
      /\ visible_entity_count (perception s') !!! n = 0
      /\ visible_entities (stimulus_buffer s') !!! n = []).
Proof.
  cbv zeta. split; [reflexivity|]. split; [|split].
  - constructor; cbn; apply resize_length.
  - intros Hn. cbn [fst GameState_AddEntity]. apply N.mod_small. exact Hn.
  - intros Hwf. destruct Hwf. split.
    + intros i Hi.
      unfold body_at, needs_at, decision_at, alive. cbn.
      rewrite !resize_lookup_old by lia. auto.
    + unfold body_at, needs_at, decision_at, alive. cbn.
      rewrite !resize_lookup_new by assumption. repeat split.
Qed.

Lemma AddEntity_appends_a_default_entity_witness :
  let s' := (GameState_AddEntity hunter_and_prey).2 in
  (GameState_AddEntity hunter_and_prey).1 = 2%N
  /\ entity_count s' = 3
  /\ body_at s' 1 = body_at hunter_and_prey 1
  /\ alive s' 2 = true
  /\ decision_at s' 2 = (IDLE, f0, INVALID_ENTITY, f0, f0).
Proof.
  cbv zeta.
  destruct (AddEntity_appends_a_default_entity hunter_and_prey)
    as (He & _ & Hid & H).
  specialize (Hid eq_refl).
  destruct (H (population_well_formed _)) as (Hold & Ha & Hd & _).
  destruct (Hold 1) as (Hb & _); [vm_compute; lia|].
  split; [exact Hid|]. split; [exact He|]. split; [exact Hb|].
  split; [exact Ha|exact Hd].
Defined.



(** ** main.cpp: the statistics of a frame *)

Lemma foldM_seq_total {St : Type} (P : nat -> St -> Prop)
    (body : St -> nat -> option St) n :
  forall a s, P a s ->
  (forall k s, a <= k < a + n -> P k s ->
               exists s', body s k = Some s' /\ P (S k) s') ->
  exists s', foldM body (seq a n) s = Some s' /\ P (a + n) s'.
Proof.
  induction n as [|n IH]; intros a s H0 Hstep; cbn [seq foldM].
  - exists s. rewrite Nat.add_0_r. auto.
  - destruct (Hstep a s) as (s1 & Hb & H1); [lia|exact H0|].
    rewrite Hb. cbn [mbind option_bind].
    rewrite <- Nat.add_succ_comm. apply IH; [exact H1|].
    intros k s2 Hk. apply Hstep. lia.
Qed.

Lemma filter_seq_le (f : nat -> bool) k :
  length (List.filter f (seq 0 k)) <= k.
Proof.
  induction k as [|k IH]; [cbn; lia|].
  rewrite filter_seq_snoc. destruct (f k); lia.
Qed.

Lemma increment_below c bound :
  (c <= Z.of_nat bound)%Z -> (Z.of_nat bound < F32.INT_MAX)%Z ->
  increment c = Some (c + 1)%Z.
Proof.
  intros H1 H2. unfold increment.
  destruct (Z.ltb_spec c F32.INT_MAX); [reflexivity|lia].
Qed.

Ltac decide_actions :=
  repeat match goal with
         | |- context [bool_decide (?a = ?b)] =>
             let v := eval vm_compute in (bool_decide (a = b)) in
             change (bool_decide (a = b)) with v
         end.

Lemma PrintSimulationStats_spec s :
  (Z.of_nat (entity_count s) <= F32.INT_MAX)%Z ->
  exists st,
    PrintSimulationStats s = Some st
    /\ alive_count st = living s
    /\ idle_count st = holders s IDLE
    /\ move_count st = holders s MOVE_TO_TARGET
    /\ eat_count st = holders s EAT
    /\ sleep_count st = holders s SLEEP
    /\ flee_count st = holders s FLEE
    /\ attack_count st = holders s ATTACK
    /\ explore_count st = holders s EXPLORE.
Proof.
  intros Hmax. unfold PrintSimulationStats, living, holders, entities.
  pose (count := fun (f : nat -> bool) k =>
                   Z.of_nat (length (List.filter f (seq 0 k)))).
  destruct (foldM_seq_total
    (fun k st =>
       alive_count st = count (alive s) k
       /\ idle_count st = count (holds s IDLE) k
       /\ move_count st = count (holds s MOVE_TO_TARGET) k
       /\ eat_count st = count (holds s EAT) k
       /\ sleep_count st = count (holds s SLEEP) k
       /\ flee_count st = count (holds s FLEE) k
       /\ attack_count st = count (holds s ATTACK) k
       /\ explore_count st = count (holds s EXPLORE) k)
    (PrintSimulationStats_step s) (entity_count s) 0
    {| idle_count := 0; move_count := 0; eat_count := 0;
       sleep_count := 0; flee_count := 0; attack_count := 0;
       explore_count := 0; alive_count := 0 |}) as (st & Hrun & Hst).
  - repeat split.
  - intros k st Hk (Ha & H1 & H2 & H3 & H4 & H5 & H6 & H7).
    assert (Hsnoc : forall f, count f (S k)
                              = (count f k + (if f k then 1 else 0))%Z).
    { intros f. unfold count. rewrite filter_seq_snoc.
      destruct (f k); lia. }
    assert (Hle : forall f, (count f k <= Z.of_nat k)%Z).
    { intros f. unfold count. pose proof (filter_seq_le f k). lia. }
    assert (Hk' : (Z.of_nat k < F32.INT_MAX)%Z) by lia.
    unfold PrintSimulationStats_step.
    assert (Hh : forall a, holds s a k
                           = alive s k
                             && bool_decide
                                  (current_action (actions s) !!! k = a))
      by reflexivity.
    rewrite !Hsnoc, !Hh. clear Hh.
    destruct (alive s k); cbn [negb andb].
    + assert (Hinc : forall c f, c = count f k ->
                                 increment c = Some (c + 1)%Z).
      { intros c f ->. apply (increment_below _ k); [apply Hle|exact Hk']. }
      rewrite (Hinc _ _ Ha). cbn [mbind option_bind].
      destruct (current_action (actions s) !!! k);
        rewrite ?(Hinc _ _ H1), ?(Hinc _ _ H2), ?(Hinc _ _ H3),
          ?(Hinc _ _ H4), ?(Hinc _ _ H5), ?(Hinc _ _ H6), ?(Hinc _ _ H7);
        cbn [mbind option_bind]; eexists; (split; [reflexivity|]);
        cbn [alive_count idle_count move_count eat_count sleep_count
             flee_count attack_count explore_count];
        decide_actions; cbv iota;
        rewrite Ha, H1, H2, H3, H4, H5, H6, H7;
        repeat split; lia.
    + exists st. split; [reflexivity|].
      rewrite Ha, H1, H2, H3, H4, H5, H6, H7. repeat split; lia.
  - exists st. split; [exact Hrun|]. exact Hst.
Qed.

(** The live entities, sorted by the action they hold. *)
Lemma living_by_action s k :
  length (List.filter (alive s) (seq 0 k))
  = length (List.filter (holds s IDLE) (seq 0 k))
    + length (List.filter (holds s MOVE_TO_TARGET) (seq 0 k))
    + length (List.filter (holds s EAT) (seq 0 k))
    + length (List.filter (holds s SLEEP) (seq 0 k))
    + length (List.filter (holds s FLEE) (seq 0 k))
    + length (List.filter (holds s ATTACK) (seq 0 k))
    + length (List.filter (holds s EXPLORE) (seq 0 k))
    + length (List.filter (holds s COUNT) (seq 0 k)).
Proof.
  induction k as [|k IH]; [reflexivity|].
  rewrite !filter_seq_snoc, IH. unfold holds.
  destruct (alive s k); cbn [andb]; [|lia].
  destruct (current_action (actions s) !!! k); decide_actions; cbv iota; lia.
Qed.

Lemma filter_seq_none (f : nat -> bool) k :
  (forall i, i < k -> f i = false) -> List.filter f (seq 0 k) = [].
Proof.
  intros H. induction k as [|k IH]; [reflexivity|].
  rewrite seq_S, List.filter_app, IH by (intros i Hi; apply H; lia).
  cbn. rewrite H by lia. reflexivity.
Qed.

Lemma filter_seq_all (f : nat -> bool) k :
  (forall i, i < k -> f i = true) -> length (List.filter f (seq 0 k)) = k.
Proof.
  intros H. induction k as [|k IH]; [reflexivity|].
  rewrite filter_seq_snoc, IH by (intros i Hi; apply H; lia).
  rewrite H by lia. lia.
Qed.

(** X15.  For a state of at most [INT_MAX] entities the statistics count, for
    each of the seven actions that have a counter, the live entities that
    hold it, and the live entities.  The seven counters add up to the number
    of live entities less those that hold the marker [COUNT], and never to
    more than the number of entities. *)
Theorem statistics_count_the_living_by_action (s : GameState) :
  (Z.of_nat (entity_count s) <= F32.INT_MAX)%Z ->
  exists st,
    PrintSimulationStats s = Some st
    /\ alive_count st = living s
    /\ idle_count st = holders s IDLE
    /\ move_count st = holders s MOVE_TO_TARGET
    /\ eat_count st = holders s EAT
    /\ sleep_count st = holders s SLEEP
    /\ flee_count st = holders s FLEE
    /\ attack_count st = holders s ATTACK
    /\ explore_count st = holders s EXPLORE
    /\ (idle_count st + move_count st + eat_count st + sleep_count st
        + flee_count st + attack_count st + explore_count st
        = alive_count st - holders s COUNT)%Z
    /\ (0 <= alive_count st <= Z.of_nat (entity_count s))%Z.
Proof.
  intros Hmax.
  destruct (PrintSimulationStats_spec s Hmax)
    as (st & Hrun & Ha & H1 & H2 & H3 & H4 & H5 & H6 & H7).
  exists st. repeat (split; [assumption|]).
  rewrite Ha, H1, H2, H3, H4, H5, H6, H7. unfold living, holders, entities.
  pose proof (living_by_action s (entity_count s)) as Hsum.
  pose proof (filter_seq_le (alive s) (entity_count s)) as Hle.
  lia.
Qed.

Lemma statistics_count_the_living_by_action_witness :
  exists st,
    PrintSimulationStats living_and_dead = Some st
    /\ alive_count st = 1%Z /\ idle_count st = 1%Z
    /\ (idle_count st + move_count st + eat_count st + sleep_count st
        + flee_count st + attack_count st + explore_count st
        = alive_count st - holders living_and_dead COUNT)%Z.
Proof.
  destruct (statistics_count_the_living_by_action living_and_dead)
    as (st & Hrun & Ha & Hi & _ & _ & _ & _ & _ & _ & Hsum & _);
    [vm_compute; discriminate|].
  exists st. split; [exact Hrun|].
  split; [rewrite Ha; reflexivity|]. split; [rewrite Hi; reflexivity|].
  exact Hsum.
Defined.

(** X16.  The statistics of a run.  After any number of frames from the
    state built by [InitializeEntities] for at most [INT_MAX] entities, the
    statistics report every entity alive and nobody moving to a target, and
    the counters of idle, eat, sleep, flee, attack and explore add up to
    the number of entities. *)
Theorem statistics_of_a_run
    (atan2 : float -> float -> float) (fuel count frames : nat)
    (draws : nat -> EntityDraws) (r : RandGen) (dt : float)
    (w : GameState * RandGen) :
  (Z.of_nat count <= F32.INT_MAX)%Z ->
  Frames atan2 fuel frames (InitializeEntities count draws, r) dt = Some w ->
  exists st,
    PrintSimulationStats w.1 = Some st
    /\ alive_count st = Z.of_nat count
    /\ move_count st = 0%Z
    /\ (idle_count st + eat_count st + sleep_count st + flee_count st
        + attack_count st + explore_count st = Z.of_nat count)%Z.
Proof.
  intros Hmax Hrun.
  destruct (InitializeEntities_well_formed count draws) as [_ Hc].
  assert (He : entity_count w.1 = count).
  { rewrite <- Hc.
    exact (f_equal fst (Frames_shape atan2 fuel frames dt _ _ Hrun)). }
  assert (Hlive : forall i, i < count -> alive w.1 i = true).
  { intros i Hi.
    pose proof (Frames_fixed atan2 fuel frames dt _ _ Hrun) as Hf.
    cbn [fst] in Hf.
    unfold alive.
    replace (health w.1) with (health (InitializeEntities count draws))
      by (symmetry; exact (f_equal (fun p => p.1.1.1.1.1) Hf)).
    apply (InitializeEntities_at count draws i Hi). }
  assert (Hsel : all_selectable w.1).
  { eapply (Frames_selectable atan2); [exact Hrun|].
    apply InitializeEntities_selectable. }
  assert (Hnone : forall a, a = MOVE_TO_TARGET \/ a = COUNT ->
                            holders w.1 a = 0%Z).
  { intros a Ha. unfold holders, entities.
    rewrite filter_seq_none; [reflexivity|].
    intros i _. unfold holds. apply andb_false_iff. right.
    apply bool_decide_eq_false_2. intros Heq. specialize (Hsel i).
    rewrite Heq in Hsel. unfold selectable in Hsel.
    destruct Ha as [-> | ->];
      repeat (apply elem_of_cons in Hsel as [Hsel|Hsel]; [discriminate|]);
      apply elem_of_nil in Hsel; exact Hsel. }
  destruct (PrintSimulationStats_spec w.1)
    as (st & Hst & Ha & H1 & H2 & H3 & H4 & H5 & H6 & H7);
    [rewrite He; exact Hmax|].
  exists st. split; [exact Hst|].
  assert (Hall : living w.1 = Z.of_nat count).
  { unfold living, entities. rewrite He, filter_seq_all by exact Hlive.
    reflexivity. }
  split; [rewrite Ha; exact Hall|].
  split; [rewrite H2; apply Hnone; left; reflexivity|].
  pose proof (living_by_action w.1 (entity_count w.1)) as Hsum.
  pose proof (Hnone MOVE_TO_TARGET (or_introl eq_refl)) as Hm.
  pose proof (Hnone COUNT (or_intror eq_refl)) as Hk.
  rewrite H1, H3, H4, H5, H6, H7. rewrite <- Hall.
  unfold living, holders, entities in *. lia.
Qed.

Lemma statistics_of_a_run_witness :
  exists w st,
    Frames atan2_zero 4 3
           (InitializeEntities 3 example_draws, example_rand) DELTA_TIME
    = Some w
    /\ PrintSimulationStats w.1 = Some st
    /\ alive_count st = 3%Z /\ move_count st = 0%Z
    /\ (idle_count st + eat_count st + sleep_count st + flee_count st
        + attack_count st + explore_count st = 3)%Z.
Proof.
  destruct (Frames atan2_zero 4 3
              (InitializeEntities 3 example_draws, example_rand) DELTA_TIME)
    as [w|] eqn:Hrun; [|vm_compute in Hrun; discriminate].
  destruct (statistics_of_a_run atan2_zero 4 3 3 example_draws example_rand
              DELTA_TIME w) as (st & Hst & Ha & Hm & Hsum);
    [vm_compute; discriminate|exact Hrun|].
  exists w, st. auto.
Defined.


(** ** An observer and its own cell *)

Lemma own_cell_is_visited s cx cy o gx gy :
  filed_in s cx cy o = true ->
  cell_index (position_x (transforms s) !!! o) = Some gx ->
  cell_index (position_y (transforms s) !!! o) = Some gy ->
  (cx, cy) ∈ neighborhood gx gy.
Proof.
  intros Hf Hgx Hgy. apply filed_in_cell in Hf as (_ & Hc & Hx & Hy).
  unfold insert_cell in Hc. rewrite Hgx, Hgy in Hc.
  cbn [mbind option_bind] in Hc.
  destruct (in_grid (Z.rem gx GRID_SIZE) && in_grid (Z.rem gy GRID_SIZE));
    [|discriminate].
  injection Hc as <- <-.
  apply neighborhood_spec. exists 0%Z, 0%Z. rewrite !Z.add_0_r.
  apply in_grid_rem in Hx, Hy. unfold neighbor_offsets.
  repeat split; try assumption;
    repeat first [apply list_elem_of_here | apply list_elem_of_further].
Qed.

(** X17.  An observer always scans the cell in which it is filed itself: a
    live target filed in the same cell that passes the distance and the
    angle checks is in the visible set of the observer at the end of the
    perception system. *)
Theorem visible_neighbours_of_the_same_cell_are_seen
    (atan2 : float -> float -> float) (fuel : nat) (s s' : GameState)
    (dt : float) (o t : EntityID) (cx cy : Z) :
  well_formed s ->
  PerceptionSystem_Update atan2 fuel s dt = Some s' ->
  o < entity_count s -> t < entity_count s ->
  filed_in s cx cy o = true -> filed_in s cx cy t = true ->
  passes atan2 fuel s o t = true ->
  t ∈ visible_entities (stimulus_buffer s') !!! o.
Proof.
  intros Hwf Hrun Ho Ht Hfo Hft Hp.
  destruct (PerceptionSystem_Update_spec atan2 fuel s dt s' Hwf Hrun)
    as (g & Hg & H).
  specialize (H o Ho).
  destruct (filed_in_cell _ _ _ _ Hfo) as [Ha _].
  rewrite Ha in H. destruct H as (gx & gy & Hgx & Hgy & Hv & _).
  rewrite Hv. apply list_elem_of_In, filter_In. split; [|exact Hp].
  apply list_elem_of_In, candidates_spec. exists cx, cy. split.
  - exact (own_cell_is_visited s cx cy o gx gy Hfo Hgx Hgy).
  - apply (filed_in_bucket s g cx cy t Hg). auto.
Qed.

Lemma visible_neighbours_of_the_same_cell_are_seen_witness :
  exists s',
    PerceptionSystem_Update atan2_zero 4 cell_mates DELTA_TIME = Some s'
    /\ 1 ∈ visible_entities (stimulus_buffer s') !!! 0
    /\ 0 ∈ visible_entities (stimulus_buffer s') !!! 1.
Proof.
  destruct (PerceptionSystem_Update atan2_zero 4 cell_mates DELTA_TIME)
    as [s'|] eqn:Hrun; [|vm_compute in Hrun; discriminate].
  exists s'. split; [reflexivity|]. split.
  - apply (visible_neighbours_of_the_same_cell_are_seen atan2_zero 4
             cell_mates s' DELTA_TIME 0 1 50 50
             (population_well_formed _) Hrun);
      first [vm_compute; lia | vm_compute; reflexivity].
  - apply (visible_neighbours_of_the_same_cell_are_seen atan2_zero 4
             cell_mates s' DELTA_TIME 1 0 50 50
             (population_well_formed _) Hrun);
      first [vm_compute; lia | vm_compute; reflexivity].
Defined.

(** ** Diagnostics.h: the chaos monkey *)

Lemma only_corrupted_refl s : only_corrupted s s.
Proof.
  unfold only_corrupted. destruct s as [? [] ? [] ? [] ? ?]; reflexivity.
Qed.

Lemma only_corrupted_trans s1 s2 s3 :
  only_corrupted s1 s2 -> only_corrupted s2 s3 -> only_corrupted s1 s3.
Proof.
  unfold only_corrupted. intros H12 H23. rewrite H23, H12. reflexivity.
Qed.

Lemma killed_was_alive (l : list bool) i j :
  <[i:=false]> l !!! j = true -> l !!! j = true.
Proof.
  apply (lookup_total_insert_elim (fun v => v = true -> l !!! j = true));
    [auto|discriminate].
Qed.

Lemma MaybeCorrupt_step_spec prob s r i :
  let w' := MaybeCorrupt_step prob (s, r) i in
  only_corrupted s w'.1 /\ shape w'.1 = shape s
  /\ (forall j, alive w'.1 j = true -> alive s j = true)
  /\ chaos_seq w'.2 = chaos_seq r
  /\ chaos_pos r + 3 <= chaos_pos w'.2 <= chaos_pos r + 7.
Proof.
  cbv zeta. unfold MaybeCorrupt_step, dist. cbn [chaos_seq chaos_pos].
  repeat match goal with
         | |- context [(?d <? prob)%f32] => destruct (d <? prob)%f32
         end;
    cbn [fst snd chaos_seq chaos_pos];
    (split; [|split; [|split; [|split]]]);
    try reflexivity; try lia;
    try (unfold only_corrupted; destruct s as [? [] ? [] ? [] ? ?];
         reflexivity);
    try same_shape;
    try (intros j; unfold alive; cbn; first [apply killed_was_alive | auto]).
Qed.

Lemma MaybeCorrupt_loop prob s r :
  let w' := fold_left (MaybeCorrupt_step prob) (entities s) (s, r) in
  only_corrupted s w'.1 /\ shape w'.1 = shape s
  /\ (forall j, alive w'.1 j = true -> alive s j = true)
  /\ chaos_seq w'.2 = chaos_seq r
  /\ chaos_pos r + 3 * entity_count s <= chaos_pos w'.2
     <= chaos_pos r + 7 * entity_count s.
Proof.
  cbv zeta. unfold entities.
  pose proof (fold_left_seq_invariant
    (fun k (w : GameState * ChaosGen) =>
       only_corrupted s w.1 /\ shape w.1 = shape s
       /\ (forall j, alive w.1 j = true -> alive s j = true)
       /\ chaos_seq w.2 = chaos_seq r
       /\ chaos_pos r + 3 * k <= chaos_pos w.2 <= chaos_pos r + 7 * k)
    (MaybeCorrupt_step prob) (entity_count s) 0 (s, r)) as H.
  cbn [Nat.add] in H. apply H; clear H.
  - split; [apply only_corrupted_refl|]. cbn [fst snd]. repeat split; auto; lia.
  - intros k [sk rk] _ (Ho & Hs & Ha & Hq & Hp). cbn [fst snd] in *.
    destruct (MaybeCorrupt_step_spec prob sk rk k)
      as (Ho' & Hs' & Ha' & Hq' & Hp').
    cbv zeta in Ho', Hs', Ha', Hq', Hp'.
    split; [eapply only_corrupted_trans; eassumption|].
    split; [congruence|]. split; [auto|]. split; [congruence|lia].
Qed.

(** X18.  The chaos monkey does nothing when it is not enabled.  When it is
    enabled it writes alive flags, the first two coordinates of positions,
    hunger and energy, and nothing else; every array keeps its size; it
    kills but never revives; and it takes between three and seven numbers
    from its generator for each entity. *)
Theorem chaos_monkey_kills_teleports_and_starves_only
    (m : ChaosMonkey) (s : GameState) :
  let s' := (ChaosMonkey_MaybeCorrupt m s).1 in
  let m' := (ChaosMonkey_MaybeCorrupt m s).2 in
  (enabled m = false -> s' = s /\ m' = m)
  /\ only_corrupted s s' /\ shape s' = shape s
  /\ (forall j, alive s' j = true -> alive s j = true)
  /\ chaos_seq (rng m') = chaos_seq (rng m)
  /\ (enabled m = true ->
      chaos_pos (rng m) + 3 * entity_count s <= chaos_pos (rng m')
      <= chaos_pos (rng m) + 7 * entity_count s).
Proof.
  cbv zeta. unfold ChaosMonkey_MaybeCorrupt.
  destruct (enabled m) eqn:He; cbn [negb fst snd rng].
  - destruct (MaybeCorrupt_loop (corruption_probability m) s (rng m))
      as (Ho & Hs & Ha & Hq & Hp). cbv zeta in Ho, Hs, Ha, Hq, Hp.
    split; [discriminate|]. auto.
  - split; [auto|]. split; [apply only_corrupted_refl|].
    split; [reflexivity|]. split; [auto|]. split; [reflexivity|discriminate].
Qed.


Lemma chaos_monkey_kills_teleports_and_starves_only_witness :
  let s' := (ChaosMonkey_MaybeCorrupt example_monkey hunter_and_prey).1 in
  let m' := (ChaosMonkey_MaybeCorrupt example_monkey hunter_and_prey).2 in
  alive s' 0 = false
  /\ only_corrupted hunter_and_prey s'
  /\ shape s' = shape hunter_and_prey
  /\ 6 <= chaos_pos (rng m') <= 14.
Proof.
  cbv zeta.
  destruct (chaos_monkey_kills_teleports_and_starves_only example_monkey
              hunter_and_prey) as (_ & Ho & Hs & _ & _ & Hp).
  specialize (Hp eq_refl).
  split; [vm_compute; reflexivity|]. split; [exact Ho|]. split; [exact Hs|].
  exact Hp.
Defined.

Lemma MaybeCorrupt_step_needs prob s r i j :
  (forall k, unit_interval (chaos_seq r k)) ->
  unit_interval (hunger (needs s) !!! j) ->
  unit_interval (energy (needs s) !!! j) ->
  let w' := MaybeCorrupt_step prob (s, r) i in
  unit_interval (hunger (needs w'.1) !!! j)
  /\ unit_interval (energy (needs w'.1) !!! j).
Proof.
  intros Hd Hh He. cbv zeta. unfold MaybeCorrupt_step, dist.
  cbn [chaos_seq chaos_pos].
  repeat match goal with
         | |- context [(?d <? prob)%f32] => destruct (d <? prob)%f32
         end;
    cbn [fst snd]; cbn;
    split; repeat (apply lookup_total_insert_elim); auto.
Qed.

(** X19.  When the numbers of its distribution are in [0, 1], the chaos
    monkey leaves in [0, 1] every hunger and every energy that was in
    [0, 1]: the hunger check of the validator cannot fail because of it. *)
Theorem chaos_monkey_keeps_hunger_and_energy_in_range
    (m : ChaosMonkey) (s : GameState) (j : EntityID) :
  (forall k, unit_interval (chaos_seq (rng m) k)) ->
  unit_interval (hunger (needs s) !!! j) ->
  unit_interval (energy (needs s) !!! j) ->
  let s' := (ChaosMonkey_MaybeCorrupt m s).1 in
  unit_interval (hunger (needs s') !!! j)
  /\ unit_interval (energy (needs s') !!! j).
Proof.
  intros Hd Hh He. cbv zeta. unfold ChaosMonkey_MaybeCorrupt.
  destruct (enabled m); cbn [negb fst]; [|auto].
  apply (fold_left_invariant
           (fun w : GameState * ChaosGen =>
              chaos_seq w.2 = chaos_seq (rng m)
              /\ unit_interval (hunger (needs w.1) !!! j)
              /\ unit_interval (energy (needs w.1) !!! j))).
  - auto.
  - intros [sk rk] i _ (Hq & Hh' & He'). cbn [fst snd] in *. split.
    + destruct (MaybeCorrupt_step_spec (corruption_probability m) sk rk i)
        as (_ & _ & _ & Hq' & _). cbv zeta in Hq'. congruence.
    + apply MaybeCorrupt_step_needs; [|assumption..].
      intros k. rewrite Hq. apply Hd.
Qed.

Lemma chaos_monkey_keeps_hunger_and_energy_in_range_witness :
  let s' := (ChaosMonkey_MaybeCorrupt example_monkey hunter_and_prey).1 in
  hunger (needs s') !!! 0 = F32.dec 3 4
  /\ unit_interval (hunger (needs s') !!! 0)
  /\ unit_interval (energy (needs s') !!! 0).
Proof.
  cbv zeta. split; [vm_compute; reflexivity|].
  apply (chaos_monkey_keeps_hunger_and_energy_in_range example_monkey
           hunter_and_prey 0).
  - intros k. cbn. destruct (Nat.even k); split; reflexivity.
  - split; reflexivity.
  - split; reflexivity.
Defined.

(** X20.  Every frame leaves every array with the number of elements it
    had, and the entity count as it was: a state in which every array has
    [entity_count] elements stays such a state, whatever the number of
    frames. *)
Theorem frames_keep_every_array_at_the_entity_count
    (atan2 : float -> float -> float) (fuel frames : nat) (dt : float)
    (w w' : GameState * RandGen) :
  Frames atan2 fuel frames w dt = Some w' ->
  shape w'.1 = shape w.1 /\ (well_formed w.1 -> well_formed w'.1).
Proof.
  intros Hrun.
  pose proof (Frames_shape atan2 fuel frames dt w w' Hrun) as Hs.
  split; [exact Hs|]. apply same_shape_well_formed. exact Hs.
Qed.

Lemma frames_keep_every_array_at_the_entity_count_witness :
  exists w',
    Frames atan2_zero 4 2 (hunter_and_prey, example_rand) DELTA_TIME = Some w'
    /\ entity_count w'.1 = 2 /\ well_formed w'.1.
Proof.
  destruct (Frames atan2_zero 4 2 (hunter_and_prey, example_rand) DELTA_TIME)
    as [w'|] eqn:Hrun; [|vm_compute in Hrun; discriminate].
  destruct (frames_keep_every_array_at_the_entity_count atan2_zero 4 2
              DELTA_TIME (hunter_and_prey, example_rand) w' Hrun)
    as [Hs Hw].
  exists w'. split; [reflexivity|]. split.
  - exact (f_equal fst Hs).
  - apply Hw. apply population_well_formed.
Defined.

(** ** The perception system keeps nothing from the frame before *)

Lemma filed_in_ext s1 s2 cx cy id :
  transforms s2 = transforms s1 -> health s2 = health s1 ->
  filed_in s2 cx cy id = filed_in s1 cx cy id.
Proof. intros Ht Hh. unfold filed_in, alive. rewrite Ht, Hh. reflexivity. Qed.

Lemma candidates_ext (g1 g2 : SpatialGrid) gx gy :
  (forall cx cy, g2 cx cy = g1 cx cy) ->
  candidates g2 gx gy = candidates g1 gx gy.
Proof.
  intros H. unfold candidates.
  induction (neighborhood gx gy) as [|c l IH]; [reflexivity|].
  cbn. rewrite H. f_equal. exact IH.
Qed.

(** X21.  The visible sets at the end of the perception system are made from
    the entity count, the transforms, the alive flags and the view
    parameters alone: the grid, the visible sets and the counts that the
    frame before has left make no difference. *)
Theorem perception_keeps_nothing_from_the_frame_before
    (atan2 : float -> float -> float) (fuel : nat) (dt : float)
    (s1 s2 s1' s2' : GameState) (o : EntityID) :
  well_formed s1 -> well_formed s2 ->
  entity_count s2 = entity_count s1 ->
  transforms s2 = transforms s1 -> health s2 = health s1 ->
  view_range (perception s2) = view_range (perception s1) ->
  view_angle (perception s2) = view_angle (perception s1) ->
  PerceptionSystem_Update atan2 fuel s1 dt = Some s1' ->
  PerceptionSystem_Update atan2 fuel s2 dt = Some s2' ->
  o < entity_count s1 ->
  visible_entities (stimulus_buffer s2') !!! o
  = visible_entities (stimulus_buffer s1') !!! o.
Proof.
  intros Hw1 Hw2 He Ht Hh Hr Ha Hrun1 Hrun2 Ho.
  destruct (PerceptionSystem_Update_spec atan2 fuel s1 dt s1' Hw1 Hrun1)
    as (g1 & Hg1 & H1).
  destruct (PerceptionSystem_Update_spec atan2 fuel s2 dt s2' Hw2 Hrun2)
    as (g2 & Hg2 & H2).
  specialize (H1 o Ho). specialize (H2 o). rewrite He in H2.
  specialize (H2 Ho). unfold alive in H2. rewrite Hh in H2.
  fold (alive s1 o) in H2. destruct (alive s1 o).
  - destruct H1 as (gx & gy & Hgx & Hgy & -> & _).
    destruct H2 as (gx' & gy' & Hgx' & Hgy' & -> & _).
    rewrite Ht in Hgx', Hgy'.
    assert (gx' = gx) by congruence. assert (gy' = gy) by congruence.
    subst gx' gy'.
    rewrite (candidates_ext g1 g2).
    + apply filter_ext. intros t. apply passes_ext; assumption.
    + intros cx cy.
      rewrite (rebuild_grid_buckets s1 g1 Hg1),
        (rebuild_grid_buckets s2 g2 Hg2).
      unfold entities. rewrite He. apply filter_ext. intros id.
      apply filed_in_ext; assumption.
  - destruct H1 as [-> _]. destruct H2 as [-> _]. reflexivity.
Qed.

Lemma perception_keeps_nothing_from_the_frame_before_witness :
  exists s1' s2',
    PerceptionSystem_Update atan2_zero 4 hunter_and_prey DELTA_TIME = Some s1'
    /\ PerceptionSystem_Update atan2_zero 4 hunter_and_prey_later DELTA_TIME
       = Some s2'
    /\ visible_entities (stimulus_buffer hunter_and_prey_later) !!! 0
       <> visible_entities (stimulus_buffer hunter_and_prey) !!! 0
    /\ visible_entities (stimulus_buffer s2') !!! 0
       = visible_entities (stimulus_buffer s1') !!! 0.
Proof.
  destruct (PerceptionSystem_Update atan2_zero 4 hunter_and_prey DELTA_TIME)
    as [s1'|] eqn:Hrun1; [|vm_compute in Hrun1; discriminate].
  destruct (PerceptionSystem_Update atan2_zero 4 hunter_and_prey_later
              DELTA_TIME)
    as [s2'|] eqn:Hrun2; [|vm_compute in Hrun2; discriminate].
  exists s1', s2'. split; [reflexivity|]. split; [reflexivity|].
  split; [vm_compute; discriminate|].
  apply (perception_keeps_nothing_from_the_frame_before atan2_zero 4
           DELTA_TIME hunter_and_prey hunter_and_prey_later s1' s2' 0);
    try reflexivity; try assumption.
  - apply population_well_formed.
  - constructor; reflexivity.
  - vm_compute. lia.
Defined.

(** ** The numbers a frame takes from the generator *)

(** X22.  A frame never changes the sequence of the generator and takes at
    most three numbers per entity from it: two for an agent that explores,
    in the decision stage, and one for an agent that is alive, in the needs
    system. *)
Theorem a_frame_draws_at_most_three_numbers_per_entity
    (atan2 : float -> float -> float) (fuel : nat) (dt : float)
    (w w' : GameState * RandGen) :
  Frame atan2 fuel w dt = Some w' ->
  rand_seq w'.2 = rand_seq w.2
  /\ rand_pos w.2 <= rand_pos w'.2 <= rand_pos w.2 + 3 * entity_count w.1.
Proof.
  unfold Frame. intros H.
  destruct (PerceptionSystem_Update atan2 fuel w.1 dt) as [s1|] eqn:Hp;
    cbn [mbind option_bind] in H; [|discriminate].
  injection H as <-.
  assert (E1 : entity_count s1 = entity_count w.1)
    by exact (f_equal fst (PerceptionSystem_Update_shape atan2 _ _ _ _ Hp)).
  destruct (UtilitySystem_Update_draws s1 w.2 dt) as [Q1 P1].
  set (u := UtilitySystem_Update (s1, w.2) dt) in *.
  assert (E2 : entity_count u.1 = entity_count s1)
    by exact (f_equal fst (UtilitySystem_Update_shape (s1, w.2) dt)).
  set (k := KineticSystem_Update atan2 u.1 dt).
  assert (E3 : entity_count k = entity_count u.1)
    by exact (f_equal fst (KineticSystem_Update_shape atan2 u.1 dt)).
  destruct (NeedsSystem_Update_draws k u.2 dt) as (Q2 & P2 & _).
  pose proof (filter_seq_le (explores s1) (entity_count s1)) as L1.
  pose proof (filter_seq_le (alive k) (entity_count k)) as L2.
  unfold entities in P1, P2.
  split; [congruence|]. lia.
Qed.

Lemma a_frame_draws_at_most_three_numbers_per_entity_witness :
  exists w',
    Frame atan2_zero 4 (explorer, example_rand) DELTA_TIME = Some w'
    /\ rand_seq w'.2 = example_numbers
    /\ 0 <= rand_pos w'.2 <= 3.
Proof.
  destruct (Frame atan2_zero 4 (explorer, example_rand) DELTA_TIME)
    as [w'|] eqn:Hrun; [|vm_compute in Hrun; discriminate].
  exists w'. split; [reflexivity|].
  apply (a_frame_draws_at_most_three_numbers_per_entity atan2_zero 4
           DELTA_TIME (explorer, example_rand) w' Hrun).
Defined.


(** ** Which numbers of the generator an agent gets *)

Lemma UtilitySystem_prefix s r k :
  let w := fold_left UtilitySystem_step (seq 0 k) (s, r) in
  only_actions s w.1 /\ rand_seq w.2 = rand_seq r
  /\ rand_pos w.2
     = rand_pos r + 2 * length (List.filter (explores s) (seq 0 k))
  /\ decision_lengths w.1 = decision_lengths s.
Proof.
  cbv zeta.
  pose proof (fold_left_seq_invariant
    (fun k (w : GameState * RandGen) =>
       only_actions s w.1 /\ rand_seq w.2 = rand_seq r
       /\ rand_pos w.2
          = rand_pos r + 2 * length (List.filter (explores s) (seq 0 k))
       /\ decision_lengths w.1 = decision_lengths s)
    UtilitySystem_step k 0 (s, r)) as H.
  cbn [Nat.add] in H. apply H; clear H.
  - split; [apply only_actions_refl|]. cbn. repeat split; lia.
  - intros j [sj rj] _ (Ho & Hq & Hp & Hl). cbn [fst snd] in *.
    destruct (UtilitySystem_step_only (sj, rj) j) as [Ho' Hq'].
    cbn [fst snd] in Ho', Hq'.
    split; [eapply only_actions_trans; eassumption|].
    split; [congruence|]. split.
    + rewrite UtilitySystem_step_draws, filter_seq_snoc, Hp.
      assert (exists A, sj = with_actions A s) as [A ->]
        by (eexists; exact Ho).
      change (explores (with_actions A s) j) with (explores s j).
      destruct (explores s j); lia.
    + rewrite UtilitySystem_step_lengths. exact Hl.
Qed.

(** X23.  The decision stage takes two numbers from [rand()] for each live
    agent for which it selects [EXPLORE], in the order of the ids, and none
    for the others.  So the generator ends two positions further for each
    such agent, with the same sequence, and the explore target of agent [i]
    is made of the two numbers that follow those taken by the explorers
    with a smaller id. *)
Theorem decision_stage_draws_two_numbers_per_explorer
    (s : GameState) (r : RandGen) (dt : float) (i : EntityID) :
  well_formed s -> i < entity_count s ->
  alive s i = true -> (decide_action s i).2 = EXPLORE ->
  let w' := UtilitySystem_Update (s, r) dt in
  let c := rand_pos r + 2 * length (List.filter (explores s) (seq 0 i)) in
  rand_seq w'.2 = rand_seq r
  /\ rand_pos w'.2
     = rand_pos r + 2 * length (List.filter (explores s) (entities s))
  /\ target_x (actions w'.1) !!! i
     = (position_x (transforms s) !!! i
        + F32.of_int (explore_offset (rand_seq r) c))%f32
  /\ target_y (actions w'.1) !!! i
     = (position_y (transforms s) !!! i
        + F32.of_int (explore_offset (rand_seq r) (S c)))%f32.
Proof.
  intros Hwf Hi Ha Hx. cbv zeta.
  destruct (UtilitySystem_Update_draws s r dt) as [Hq Hp].
  split; [exact Hq|]. split; [exact Hp|].
  unfold UtilitySystem_Update, entities. cbn [fst].
  rewrite (seq_split_at i (entity_count s) Hi), fold_left_app.
  cbn [fold_left].
  destruct (UtilitySystem_prefix s r i) as (Ho & Hqi & Hpi & Hl).
  cbv zeta in Ho, Hqi, Hpi, Hl.
  destruct (fold_left UtilitySystem_step (seq 0 i) (s, r)) as [si ri].
  cbn [fst snd] in Ho, Hqi, Hpi, Hl.
  assert (exists A, si = with_actions A s) as [A ->] by (eexists; exact Ho).
  unfold decision_lengths in Hl. cbn in Hl. injection Hl as L1 L2 L3 L4 L5.
  assert (Hat : decision_at (UtilitySystem_step (with_actions A s, ri) i).1 i
                = decision_of (with_actions A s) (rand_seq ri) (rand_pos ri) i).
  { apply UtilitySystem_step_at; try exact Ha;
      rewrite ?L1, ?L2, ?L3, ?L4, ?L5, ?(wf_current_action s Hwf),
        ?(wf_action_utility s Hwf), ?(wf_target_entity s Hwf),
        ?(wf_target_x s Hwf), ?(wf_target_y s Hwf); exact Hi. }
  set (wi := UtilitySystem_step (with_actions A s, ri) i) in *.
  assert (Hend : decision_at
                   (fold_left UtilitySystem_step
                      (seq (S i) (entity_count s - S i)) wi).1 i
                 = decision_at wi.1 i).
  { apply (fold_left_invariant
             (fun w => decision_at w.1 i = decision_at wi.1 i));
      [reflexivity|].
    intros w j Hj Hw. apply elem_of_seq in Hj.
    rewrite UtilitySystem_step_other by lia. exact Hw. }
  rewrite Hat in Hend. clear Hat. unfold decision_of in Hend.
  change (decide_action (with_actions A s) i) with (decide_action s i)
    in Hend.
  destruct (decide_action s i) as [u a]. cbn [snd] in Hx. subst a.
  rewrite Hqi, Hpi in Hend. unfold decision_at in Hend.
  injection Hend as _ _ _ Htx Hty.
  split; [exact Htx|exact Hty].
Qed.

Lemma decision_stage_draws_two_numbers_per_explorer_witness :
  let w' := UtilitySystem_Update (two_explorers, example_rand) DELTA_TIME in
  rand_pos w'.2 = 4
  /\ target_x (actions w'.1) !!! 1
     = (F32.of_int 700
        + F32.of_int (explore_offset example_numbers 2))%f32
  /\ target_y (actions w'.1) !!! 1
     = (F32.of_int 700
        + F32.of_int (explore_offset example_numbers 3))%f32.
Proof.
  cbv zeta.
  destruct (decision_stage_draws_two_numbers_per_explorer two_explorers
              example_rand DELTA_TIME 1)
    as (_ & Hp & Hx & Hy).
  - apply population_well_formed.
  - vm_compute. lia.
  - reflexivity.
  - vm_compute. reflexivity.
  - split; [rewrite Hp; reflexivity|]. split; [exact Hx|exact Hy].
Defined.

Lemma NeedsSystem_prefix dt s r k :
  let w := fold_left (NeedsSystem_step dt) (seq 0 k) (s, r) in
  only_needs s w.1 /\ rand_seq w.2 = rand_seq r
  /\ rand_pos w.2 = rand_pos r + length (List.filter (alive s) (seq 0 k))
  /\ shape w.1 = shape s
  /\ forall j, k <= j -> needs_at w.1 j = needs_at s j.
Proof.
  cbv zeta.
  pose proof (fold_left_seq_invariant
    (fun k (w : GameState * RandGen) =>
       only_needs s w.1 /\ rand_seq w.2 = rand_seq r
       /\ rand_pos w.2
          = rand_pos r + length (List.filter (alive s) (seq 0 k))
       /\ shape w.1 = shape s
       /\ forall j, k <= j -> needs_at w.1 j = needs_at s j)
    (NeedsSystem_step dt) k 0 (s, r)) as H.
  cbn [Nat.add] in H. apply H; clear H.
  - split; [apply only_needs_refl|]. cbn. repeat split; lia.
  - intros j [sj rj] _ (Ho & Hq & Hp & Hs & Hn). cbn [fst snd] in *.
    destruct (NeedsSystem_step_only dt (sj, rj) j) as [Ho' Hq'].
    cbn [fst snd] in Ho', Hq'.
    split; [eapply only_needs_trans; eassumption|].
    split; [congruence|]. split; [|split].
    + rewrite NeedsSystem_step_draws, filter_seq_snoc, Hp.
      assert (exists A, sj = with_needs A s) as [A ->]
        by (eexists; exact Ho).
      change (alive (with_needs A s) j) with (alive s j).
      destruct (alive s j); lia.
    + rewrite (NeedsSystem_step_shape dt (sj, rj) j). exact Hs.
    + intros j' Hj'.
      rewrite (NeedsSystem_step_other dt (sj, rj) j' j) by lia.
      apply Hn. lia.
Qed.

Lemma NeedsSystem_step_curiosity dt s r i :
  alive s i = true -> i < length (curiosity (needs s)) ->
  curiosity (needs (NeedsSystem_step dt (s, r) i).1) !!! i
  = fluctuated dt (curiosity (needs s) !!! i) (rand_seq r (rand_pos r)).
Proof.
  intros Ha Hl. unfold NeedsSystem_step, rand, fluctuated. rewrite Ha.
  cbn [negb fst].
  unfold curiosity_fluctuates, safety_changes, eating_reduces_hunger,
    energy_changes, hunger_rises.
  destruct (current_action (actions s) !!! i);
    match goal with
    | |- context [(3 <? ?n)%nat] => destruct (3 <? n)%nat
    end; cbn;
    rewrite !list_lookup_total_insert_eq
      by (rewrite ?length_insert; assumption);
    reflexivity.
Qed.

(** X24.  The needs system takes one number from [rand()] for each live
    agent, in the order of the ids, and none for a dead one, and it changes
    no alive flag.  So the generator ends one position further for each
    live agent, with the same sequence, and the curiosity of a live agent
    [i] is made of the number that follows those taken by the live agents
    with a smaller id. *)
Theorem needs_system_draws_one_number_per_live_agent
    (s : GameState) (r : RandGen) (dt : float) (i : EntityID) :
  well_formed s -> i < entity_count s -> alive s i = true ->
  let w' := NeedsSystem_Update (s, r) dt in
  let c := rand_pos r + length (List.filter (alive s) (seq 0 i)) in
  rand_seq w'.2 = rand_seq r
  /\ rand_pos w'.2
     = rand_pos r + length (List.filter (alive s) (entities s))
  /\ health w'.1 = health s
  /\ curiosity (needs w'.1) !!! i
     = fluctuated dt (curiosity (needs s) !!! i) (rand_seq r c).
Proof.
  intros Hwf Hi Ha. cbv zeta.
  destruct (NeedsSystem_Update_draws s r dt) as (Hq & Hp & Hh).
  split; [exact Hq|]. split; [exact Hp|]. split; [exact Hh|].
  unfold NeedsSystem_Update, entities. cbn [fst].
  rewrite (seq_split_at i (entity_count s) Hi), fold_left_app.
  cbn [fold_left].
  destruct (NeedsSystem_prefix dt s r i) as (Ho & Hqi & Hpi & Hs & Hn).
  cbv zeta in Ho, Hqi, Hpi, Hs, Hn.
  destruct (fold_left (NeedsSystem_step dt) (seq 0 i) (s, r)) as [si ri].
  cbn [fst snd] in Ho, Hqi, Hpi, Hs, Hn.
  pose proof (same_shape_well_formed _ _ Hs Hwf) as Hwi.
  assert (Hei : entity_count si = entity_count s) by exact (f_equal fst Hs).
  assert (Hai : alive si i = true).
  { assert (exists A, si = with_needs A s) as [A ->] by (eexists; exact Ho).
    exact Ha. }
  pose proof (NeedsSystem_step_curiosity dt si ri i Hai) as Hat.
  rewrite (wf_curiosity _ Hwi), Hei in Hat. specialize (Hat Hi).
  set (wi := NeedsSystem_step dt (si, ri) i) in *.
  assert (Hend : needs_at
                   (fold_left (NeedsSystem_step dt)
                      (seq (S i) (entity_count s - S i)) wi).1 i
                 = needs_at wi.1 i).
  { apply (fold_left_invariant
             (fun w => needs_at w.1 i = needs_at wi.1 i)); [reflexivity|].
    intros w j Hj Hw. apply elem_of_seq in Hj.
    rewrite NeedsSystem_step_other by lia. exact Hw. }
  unfold needs_at in Hend. injection Hend as _ _ _ ->.
  rewrite Hat, Hqi, Hpi.
  pose proof (Hn i (Nat.le_refl i)) as Hni. unfold needs_at in Hni.
  injection Hni as _ _ _ ->. reflexivity.
Qed.

Lemma needs_system_draws_one_number_per_live_agent_witness :
  let w' := NeedsSystem_Update (living_and_dead, example_rand) DELTA_TIME in
  rand_pos w'.2 = 1
  /\ curiosity (needs w'.1) !!! 0
     = fluctuated DELTA_TIME f0 (example_numbers 0).
Proof.
  cbv zeta.
  destruct (needs_system_draws_one_number_per_live_agent living_and_dead
              example_rand DELTA_TIME 0)
    as (_ & Hp & _ & Hc).
  - apply population_well_formed.
  - vm_compute. lia.
  - reflexivity.
  - split; [rewrite Hp; reflexivity|exact Hc].
Defined.


Lemma cell_99_reaches_cell_0 gy :
  (0 <= Z.rem gy GRID_SIZE)%Z ->
  (0, Z.rem gy GRID_SIZE)%Z ∈ neighborhood 99 gy.
Proof.
  intros Hrem. apply neighborhood_spec. exists 1%Z, 0%Z.
  unfold neighbor_offsets. rewrite Z.add_0_r.
  repeat split; try reflexivity; try lia;
    repeat first [apply list_elem_of_here | apply list_elem_of_further].
Qed.

(** C5, as the code has it.  Two live agents at [x = 999] and [x = 1] with
    the same [y], whose row [gy % GRID_SIZE] is in the grid (as it is for
    every [y] of the world, [y = 1000] included), are filed in the cells 99
    and 0 of that row.  The block visited around the agent at [x = 1] has no
    cell 99, since index -1 is skipped: the agent at [x = 999] is not among
    its candidates, and it is not in its visible set at the end of the
    perception system.  The block visited around the agent at [x = 999] has
    cell 0, since index 100 wraps: the agent at [x = 1] is among its
    candidates, and it is in its visible set at the end of the perception
    system exactly when it passes the distance check and the angle
    check. *)
Theorem C5_adjacency_across_the_boundary
    (s : GameState) (g : SpatialGrid) (a b : EntityID) (y : float) (gy : Z) :
  rebuild_grid s = Some g ->
  a < entity_count s -> b < entity_count s ->
  alive s a = true -> alive s b = true ->
  position_x (transforms s) !!! a = F32.of_int 999 ->
  position_x (transforms s) !!! b = F32.of_int 1 ->
  position_y (transforms s) !!! a = y ->
  position_y (transforms s) !!! b = y ->
  cell_index y = Some gy -> (0 <= Z.rem gy GRID_SIZE)%Z ->
  let row := Z.rem gy GRID_SIZE in
  cell_index (F32.of_int 999) = Some 99%Z
  /\ cell_index (F32.of_int 1) = Some 0%Z
  /\ a ∈ g 99%Z row /\ b ∈ g 0%Z row
  /\ ((0%Z, row) ∈ neighborhood 99 gy)
  /\ (forall cy, ¬ ((99%Z, cy) ∈ neighborhood 0 gy))
  /\ b ∈ candidates g 99 gy
  /\ (a ∉ candidates g 0 gy)
  /\ forall (atan2 : float -> float -> float) (fuel : nat) (dt : float)
            (s' : GameState),
       well_formed s ->
       PerceptionSystem_Update atan2 fuel s dt = Some s' ->
       (a ∉ visible_entities (stimulus_buffer s') !!! b)
       /\ (b ∈ visible_entities (stimulus_buffer s') !!! a
           <-> in_view atan2 fuel
                 (F32.of_int 999) y
                 (orientation (transforms s) !!! a)
                 (view_range (perception s) !!! a)
                 (view_angle (perception s) !!! a)
                 (F32.of_int 1) y = Some true).
Proof.
  intros Hrun Ha Hb Hla Hlb Hxa Hxb Hya Hyb Hy Hrem. cbv zeta.
  assert (Hin : in_grid (Z.rem gy GRID_SIZE) = true)
    by (apply in_grid_rem; exact Hrem).
  set (row := Z.rem gy GRID_SIZE) in *.
  assert (Hca : insert_cell (F32.of_int 999) y = Some (Some (99, row)%Z)).
  { unfold insert_cell. rewrite cell_index_999, Hy. cbn [mbind option_bind].
    fold row. rewrite Hin. reflexivity. }
  assert (Hcb : insert_cell (F32.of_int 1) y = Some (Some (0, row)%Z)).
  { unfold insert_cell. rewrite cell_index_1, Hy. cbn [mbind option_bind].
    fold row. rewrite Hin. reflexivity. }
  assert (Hfa : forall cx cy, filed_in s cx cy a
                              = ((99 =? cx)%Z && (row =? cy)%Z)).
  { intros cx cy. unfold filed_in. rewrite Hla, Hxa, Hya, Hca. reflexivity. }
  assert (Hfb : forall cx cy, filed_in s cx cy b
                              = ((0 =? cx)%Z && (row =? cy)%Z)).
  { intros cx cy. unfold filed_in. rewrite Hlb, Hxb, Hyb, Hcb. reflexivity. }
  assert (Hbg : b ∈ g 0%Z row).
  { apply (filed_in_bucket s g _ _ _ Hrun). split; [exact Hb|].
    rewrite Hfb, !Z.eqb_refl. reflexivity. }
  assert (Hcell : (0%Z, row) ∈ neighborhood 99 gy)
    by exact (cell_99_reaches_cell_0 gy Hrem).
  assert (Hskip : forall cy, (99%Z, cy) ∉ neighborhood 0 gy)
    by (intros cy; apply neighborhood_skips_below).
  assert (Hbc : b ∈ candidates g 99 gy).
  { apply candidates_spec. exists 0%Z, row. split; assumption. }
  assert (Hac : a ∉ candidates g 0 gy).
  { intros Hc. apply candidates_spec in Hc as (cx & cy & Hn & Hin').
    apply (filed_in_bucket s g _ _ _ Hrun) in Hin' as [_ Hf].
    rewrite Hfa in Hf. apply andb_true_iff in Hf as [Hcx _].
    apply Z.eqb_eq in Hcx. subst cx. exact (Hskip cy Hn). }
  split; [exact cell_index_999|]. split; [exact cell_index_1|].
  split.
  { apply (filed_in_bucket s g _ _ _ Hrun). split; [exact Ha|].
    rewrite Hfa, !Z.eqb_refl. reflexivity. }
  split; [exact Hbg|]. split; [exact Hcell|]. split; [exact Hskip|].
  split; [exact Hbc|]. split; [exact Hac|].
  intros atan2 fuel dt s' Hwf Hper.
  destruct (PerceptionSystem_Update_spec atan2 fuel s dt s' Hwf Hper)
    as (g' & Hg' & Hspec).
  assert (g' = g) by congruence. subst g'.
  assert (Hne : b <> a).
  { intros ->. rewrite Hxa in Hxb. vm_compute in Hxb. discriminate. }
  split.
  - pose proof (Hspec b Hb) as Hsb. rewrite Hlb in Hsb.
    destruct Hsb as (gx & gy' & Hgx & Hgy' & -> & _).
    rewrite Hxb, cell_index_1 in Hgx. rewrite Hyb, Hy in Hgy'.
    injection Hgx as <-. injection Hgy' as <-.
    intros Hv. apply list_elem_of_In, filter_In in Hv as [Hc _].
    apply Hac. apply list_elem_of_In. exact Hc.
  - pose proof (Hspec a Ha) as Hsa. rewrite Hla in Hsa.
    destruct Hsa as (gx & gy' & Hgx & Hgy' & -> & _).
    rewrite Hxa, cell_index_999 in Hgx. rewrite Hya, Hy in Hgy'.
    injection Hgx as <-. injection Hgy' as <-.
    rewrite list_elem_of_In, filter_In, <- list_elem_of_In.
    unfold passes. rewrite Hlb, Hxa, Hya, Hxb, Hyb.
    destruct (Nat.eqb_neq b a) as [_ Hnb]. rewrite (Hnb Hne).
    cbn [negb andb].
    destruct (in_view _ _ _ _ _ _ _ _ _) as [[]|]; split;
      try (intros [_ Hf]; discriminate Hf); try discriminate;
      try reflexivity; try (intros _; split; [exact Hbc|reflexivity]).
Qed.

Lemma C5_witness :
  (exists g s',
     rebuild_grid border_agents = Some g
     /\ PerceptionSystem_Update atan2_on_axis 4 border_agents DELTA_TIME
        = Some s'
     /\ 1 ∈ candidates g 99 50 /\ (0 ∉ candidates g 0 50)
     /\ (0 ∉ visible_entities (stimulus_buffer s') !!! 1)
     /\ (1 ∉ visible_entities (stimulus_buffer s') !!! 0))
  /\ (exists g s',
        rebuild_grid far_sighted_border_agents = Some g
        /\ PerceptionSystem_Update atan2_on_axis 4 far_sighted_border_agents
                                    DELTA_TIME = Some s'
        /\ (0 ∉ visible_entities (stimulus_buffer s') !!! 1)
        /\ 1 ∈ visible_entities (stimulus_buffer s') !!! 0)
  /\ (exists g,
        rebuild_grid corner_agents = Some g
        /\ cell_index (F32.of_int 1000) = Some 100%Z
        /\ 0 ∈ g 99%Z 0%Z /\ 1 ∈ g 0%Z 0%Z
        /\ 1 ∈ candidates g 99 100 /\ 0 ∉ candidates g 0 100).
Proof.
  split; [|split].
  - destruct (rebuild_grid border_agents) as [g|] eqn:Hg;
      [|vm_compute in Hg; discriminate].
    destruct (PerceptionSystem_Update atan2_on_axis 4 border_agents
                DELTA_TIME) as [s'|] eqn:Hp;
      [|vm_compute in Hp; discriminate].
    exists g, s'. split; [reflexivity|]. split; [reflexivity|].
    destruct (C5_adjacency_across_the_boundary border_agents g 0 1
                (F32.of_int 500) 50 Hg)
      as (_ & _ & _ & _ & _ & _ & H1 & H2 & Hsee);
      [vm_compute; lia|vm_compute; lia|reflexivity..|vm_compute; discriminate|].
    destruct (Hsee atan2_on_axis 4 DELTA_TIME s' (population_well_formed _) Hp)
      as [Hnot Hiff].
    split; [exact H1|]. split; [exact H2|]. split; [exact Hnot|].
    intros Hv. apply Hiff in Hv. vm_compute in Hv. discriminate Hv.
  - destruct (rebuild_grid far_sighted_border_agents) as [g|] eqn:Hg;
      [|vm_compute in Hg; discriminate].
    destruct (PerceptionSystem_Update atan2_on_axis 4
                far_sighted_border_agents DELTA_TIME) as [s'|] eqn:Hp;
      [|vm_compute in Hp; discriminate].
    exists g, s'. split; [reflexivity|]. split; [reflexivity|].
    destruct (C5_adjacency_across_the_boundary far_sighted_border_agents
                g 0 1 (F32.of_int 500) 50 Hg)
      as (_ & _ & _ & _ & _ & _ & _ & _ & Hsee);
      [vm_compute; lia|vm_compute; lia|reflexivity..|vm_compute; discriminate|].
    assert (Hwf : well_formed far_sighted_border_agents)
      by (constructor; reflexivity).
    destruct (Hsee atan2_on_axis 4 DELTA_TIME s' Hwf Hp) as [Hnot Hiff].
    split; [exact Hnot|]. apply Hiff. vm_compute. reflexivity.
  - destruct (rebuild_grid corner_agents) as [g|] eqn:Hg;
      [|vm_compute in Hg; discriminate].
    exists g. split; [reflexivity|]. split; [vm_compute; reflexivity|].
    destruct (C5_adjacency_across_the_boundary corner_agents g 0 1
                (F32.of_int 1000) 100 Hg)
      as (_ & _ & Ha & Hb & _ & _ & H1 & H2 & _);
      [vm_compute; lia|vm_compute; lia|reflexivity..|vm_compute; discriminate|].
    auto.
Defined.

